(** * frostyard/pm: progress reporting, error taxonomy and capability contract

    A shallow embedding of the Go sources of the package-manager abstraction
    library: the error taxonomy ([errors.go]), the capability helpers
    ([capabilities.go]), the command runner ([internal/runner/exec.go]), the
    two progress helpers ([progress] and [internal/types]) and the three
    backends ([brew], [flatpak], [snap]) with their availability probes and
    the search of the Formulae API ([formulae_api.go]), followed by the
    properties the specification states about them and by further properties
    of the code.

    Conventions of the embedding.
    - A Go [string] is a sequence of bytes: Rocq's [string] (a list of 8-bit
      [ascii]); [len(s)] is [String.length s] and [s[:n]] is
      [substring 0 n s].
    - A value of an interface type ([error], [ProgressReporter],
      [runner.Runner]) is an [option]: [None] is the nil interface.
    - [time.Now()] and [uuid.New().String()] read from the environment: the
      [World] carries the stream of values they are going to return and the
      number of values consumed so far.
    - A reporter is known by an identity; what it receives is appended to the
      world's log. *)

From Stdlib Require Import String Ascii List Arith Bool Lia NArith DecimalString.
Import ListNotations.
Open Scope list_scope.
Open Scope string_scope.

(* ================================================================== *)
(** * Part I: the program *)
(* ================================================================== *)

(** ** Go's [unicode/utf8] and [unicode] packages (what [strings] uses of them)

    A rune is a code point, a number. *)
Module utf8.

Definition RuneError : N := 65533.   (* U+FFFD *)
Definition RuneSelf : N := 128.
Definition UTFMax : nat := 4.

(** [s[i]], and 0 where the code does not look. *)
Definition byte_at (s : string) (i : nat) : N :=
  match String.get i s with
  | Some c => N_of_ascii c
  | None => 0%N
  end.

(** The table [first] with [acceptRanges]: for a leading byte from [0xC2] on,
    the length of the sequence and the range the second byte must be in;
    length 0 is the entry [xx] of an invalid leading byte. *)
Definition first (s0 : N) : nat * N * N :=
  if N.ltb s0 194 then (0, 0%N, 0%N)                       (* 0x80-0xC1: xx *)
  else if N.leb s0 223 then (2, 128%N, 191%N)              (* 0xC2-0xDF *)
  else if N.eqb s0 224 then (3, 160%N, 191%N)              (* 0xE0 *)
  else if N.eqb s0 237 then (3, 128%N, 159%N)              (* 0xED *)
  else if N.leb s0 239 then (3, 128%N, 191%N)              (* 0xE1-0xEC, 0xEE-0xEF *)
  else if N.eqb s0 240 then (4, 144%N, 191%N)              (* 0xF0 *)
  else if N.leb s0 243 then (4, 128%N, 191%N)              (* 0xF1-0xF3 *)
  else if N.eqb s0 244 then (4, 128%N, 143%N)              (* 0xF4 *)
  else (0, 0%N, 0%N).                                      (* 0xF5-0xFF: xx *)

(** A continuation byte: [locb <= b <= hicb]. *)
Definition continuation (b : N) : bool := N.leb 128 b && N.leb b 191.

(** [utf8.DecodeRuneInString]: the rune at the head of [s] and its width in
    bytes; [(RuneError, 0)] for the empty string, [(RuneError, 1)] for an
    encoding that is not valid. *)
Definition DecodeRuneInString (s : string) : N * nat :=
  let n := String.length s in
  if Nat.ltb n 1 then (RuneError, 0)
  else
    let s0 := byte_at s 0 in
    if N.ltb s0 RuneSelf then (s0, 1)
    else
      let '(sz, lo, hi) := first s0 in
      if Nat.eqb sz 0 then (RuneError, 1)
      else if Nat.ltb n sz then (RuneError, 1)
      else
        let s1 := byte_at s 1 in
        if N.ltb s1 lo || N.ltb hi s1 then (RuneError, 1)
        else if Nat.leb sz 2 then
          (N.lor (N.shiftl (N.land s0 31) 6) (N.land s1 63), 2)
        else
          let s2 := byte_at s 2 in
          if negb (continuation s2) then (RuneError, 1)
          else if Nat.leb sz 3 then
            (N.lor (N.lor (N.shiftl (N.land s0 15) 12) (N.shiftl (N.land s1 63) 6))
               (N.land s2 63), 3)
          else
            let s3 := byte_at s 3 in
            if negb (continuation s3) then (RuneError, 1)
            else
              (N.lor (N.lor (N.lor (N.shiftl (N.land s0 7) 18)
                                   (N.shiftl (N.land s1 63) 12))
                            (N.shiftl (N.land s2 63) 6))
                 (N.land s3 63), 4).

(** [utf8.RuneStart]: not a continuation byte. *)
Definition RuneStart (b : N) : bool := negb (N.eqb (N.land b 192) 128).

(** The loop [for start--; start >= lim; start-- { if RuneStart(s[start]) { break } }]
    of [DecodeLastRuneInString], entered with [start] already decremented;
    positions are kept one higher, so that 0 stands for -1. *)
Fixpoint lastStart (s : string) (lim1 start1 : nat) (fuel : nat) : nat :=
  match fuel with
  | O => start1
  | S fuel' =>
      if Nat.ltb start1 lim1 then start1
      else if RuneStart (byte_at s (start1 - 1)) then start1
      else lastStart s lim1 (start1 - 1) fuel'
  end.

(** [utf8.DecodeLastRuneInString]: the rune at the end of [s] and its width. *)
Definition DecodeLastRuneInString (s : string) : N * nat :=
  let end_ := String.length s in
  if Nat.eqb end_ 0 then (RuneError, 0)
  else
    let start := end_ - 1 in
    let r := byte_at s start in
    if N.ltb r RuneSelf then (r, 1)
    else
      let lim := end_ - UTFMax in                 (* [if lim < 0 { lim = 0 }] *)
      let start1 := lastStart s (S lim) start (S UTFMax) in
      let start := start1 - 1 in                  (* [if start < 0 { start = 0 }] *)
      let '(r, size) := DecodeRuneInString (substring start (end_ - start) s) in
      if negb (Nat.eqb (start + size) end_) then (RuneError, 1)
      else (r, size).

(** [utf8.RuneCountInString]; [skip] bytes of the rune just counted are
    still to be passed. *)
Fixpoint runeCount (s : string) (skip : nat) : nat :=
  match s with
  | EmptyString => 0
  | String _ s' =>
      match skip with
      | S k => runeCount s' k
      | O => S (runeCount s' (snd (DecodeRuneInString s) - 1))
      end
  end.

Definition RuneCountInString (s : string) : nat := runeCount s 0.

End utf8.

Module unicode.

(** [unicode.IsSpace]: the Latin-1 spaces, and beyond Latin-1 the table
    [White_Space]. *)
Definition IsSpace (r : N) : bool :=
  if N.leb r 255 then
    N.eqb r 9 || N.eqb r 10 || N.eqb r 11 || N.eqb r 12 || N.eqb r 13
    || N.eqb r 32 || N.eqb r 133 || N.eqb r 160
  else
    N.eqb r 5760                                   (* U+1680 *)
    || (N.leb 8192 r && N.leb r 8202)              (* U+2000-U+200A *)
    || N.eqb r 8232 || N.eqb r 8233                (* U+2028, U+2029 *)
    || N.eqb r 8239                                (* U+202F *)
    || N.eqb r 8287                                (* U+205F *)
    || N.eqb r 12288.                              (* U+3000 *)

End unicode.

(** ** Go's [strings] package (the functions the backends call)

    [Contains], [HasPrefix] and [Split] compare bytes; [TrimSpace] and
    [Fields] read the string as UTF-8 and take as white space what
    [unicode.IsSpace] does. *)
Module strings.

Definition HasPrefix (s pfx : string) : bool := String.prefix pfx s.

Fixpoint Contains (s substr : string) : bool :=
  if String.prefix substr s then true
  else match s with
       | EmptyString => false
       | String _ s' => Contains s' substr
       end.

(** [strings.TrimLeftFunc(s, unicode.IsSpace)]: [skip] bytes of the space
    just found are still to be dropped. *)
Fixpoint trimLeft (s : string) (skip : nat) : string :=
  match s with
  | EmptyString => EmptyString
  | String _ s' =>
      match skip with
      | S k => trimLeft s' k
      | O =>
          let '(r, size) := utf8.DecodeRuneInString s in
          if unicode.IsSpace r then trimLeft s' (size - 1) else s
      end
  end.

Definition TrimLeft (s : string) : string := trimLeft s 0.

(** [strings.TrimRightFunc(s, unicode.IsSpace)] on the bytes of [s], last
    byte first: the rune at the end is decoded and dropped while it is a
    space; [skip] bytes of the space just found are still to be dropped. *)
Fixpoint trimRight (l : list ascii) (skip : nat) : list ascii :=
  match l with
  | [] => []
  | _ :: l' =>
      match skip with
      | S k => trimRight l' k
      | O =>
          let '(r, size) := utf8.DecodeLastRuneInString (string_of_list_ascii (rev l)) in
          if unicode.IsSpace r then trimRight l' (size - 1) else l
      end
  end.

Definition TrimRight (s : string) : string :=
  string_of_list_ascii (rev (trimRight (rev (list_ascii_of_string s)) 0)).

(** [strings.TrimSpace]: leading and trailing white space, as
    [unicode.IsSpace] defines it, removed. *)
Definition TrimSpace (s : string) : string := TrimRight (TrimLeft s).

(** [fields s skip cur]: the loop of [strings.FieldsFunc(s, unicode.IsSpace)].
    [cur] is the field being read, most recent byte first, and is empty
    between fields; [skip] bytes of the rune just read are still to be
    passed, into the field if the rune went there. *)
Fixpoint fields (s : string) (skip : nat) (cur : list ascii) : list string :=
  let flush (rest : list string) :=
    match cur with
    | [] => rest
    | _ => string_of_list_ascii (rev cur) :: rest
    end in
  match s with
  | EmptyString => flush []
  | String c s' =>
      match skip with
      | S k => fields s' k (match cur with [] => [] | _ => c :: cur end)
      | O =>
          let '(r, size) := utf8.DecodeRuneInString s in
          if unicode.IsSpace r then flush (fields s' (size - 1) [])
          else fields s' (size - 1) (c :: cur)
      end
  end.

(** [strings.Fields]: the pieces of [s] between runs of white space. *)
Definition Fields (s : string) : list string := fields s 0 [].

(** [split s sep skip cur]: [skip] bytes of a separator already matched are
    still to be dropped; [cur] is the piece being read, most recent byte
    first. *)
Fixpoint split (s sep : string) (skip : nat) (cur : list ascii) : list string :=
  match s with
  | EmptyString => [string_of_list_ascii (rev cur)]
  | String c s' =>
      match skip with
      | S k => split s' sep k cur
      | O =>
          if String.prefix sep s
          then string_of_list_ascii (rev cur) :: split s' sep (String.length sep - 1) []
          else split s' sep 0 (c :: cur)
      end
  end.

(** [strings.Split] for a non-empty separator (the backends split on a
    newline only). *)
Definition Split (s sep : string) : list string := split s sep 0 [].

End strings.

(** The newline byte, Go's ["\n"]. *)
Definition LF : string := String (ascii_of_nat 10) EmptyString.

(** ** Operations and capabilities ([types.go], [capabilities.go]) *)

Definition Operation := string.

Definition OperationUpdateMetadata : Operation := "UpdateMetadata".
Definition OperationUpgradePackages : Operation := "UpgradePackages".
Definition OperationInstall : Operation := "Install".
Definition OperationUninstall : Operation := "Uninstall".
Definition OperationSearch : Operation := "Search".
Definition OperationListInstalled : Operation := "ListInstalled".
Definition OperationListAvailable : Operation := "ListAvailable".

Record PackageRef := mkPackageRef {
  pkg_Name : string;
  pkg_Namespace : string;
  pkg_Channel : string;
  pkg_Kind : string
}.

Record InstalledPackage := mkInstalledPackage {
  ip_Ref : PackageRef;
  ip_Version : string;
  ip_Status : string
}.

Record Capability := mkCapability {
  cap_Operation : Operation;
  cap_Supported : bool;
  cap_Notes : string
}.

(** [for _, c := range caps { if c.Operation == op && c.Supported { return true } }; return false] *)
Fixpoint Supports (caps : list Capability) (op : Operation) : bool :=
  match caps with
  | [] => false
  | c :: rest =>
      if String.eqb (cap_Operation c) op && cap_Supported c then true
      else Supports rest op
  end.

(** The first entry for [op], or nil. *)
Fixpoint GetCapability (caps : list Capability) (op : Operation) : option Capability :=
  match caps with
  | [] => None
  | c :: rest =>
      if String.eqb (cap_Operation c) op then Some c else GetCapability rest op
  end.

(** ** The error taxonomy ([errors.go]; package [types] mirrors it verbatim) *)

(** [errors.New] returns a pointer to a fresh [errorString]; two such values
    are equal exactly when they are the same allocation. *)
Record errorString := mkErrorString {
  es_addr : nat;
  es_text : string
}.

(** The dynamic types an [error] value of this program can have. *)
#[warnings="-register-all"]
Inductive error : Type :=
| ErrorString (e : errorString)
| NotSupportedError (Op : Operation) (Backend Reason : string)
| NotAvailableError (Backend Reason : string)
| ExternalFailureError (Op : Operation) (Backend Stdout Stderr : string)
    (Payload : list (string * string)) (Err : option error)
| wrapError (msg : string) (err : error).   (* fmt.Errorf with a %w verb *)

(** The two package-level sentinels, allocated once at initialisation. *)
Definition ErrNotSupported : errorString := mkErrorString 0 "operation not supported".
Definition ErrNotAvailable : errorString := mkErrorString 1 "backend not available".

(** The [Unwrap] methods; [None] also for a type without one. *)
Definition Unwrap (e : error) : option error :=
  match e with
  | ErrorString _ => None
  | NotSupportedError _ _ _ => Some (ErrorString ErrNotSupported)
  | NotAvailableError _ _ => Some (ErrorString ErrNotAvailable)
  | ExternalFailureError _ _ _ _ _ Err => Err
  | wrapError _ err => Some err
  end.

(** The [Error] methods. *)
Fixpoint Error_string (e : error) : string :=
  match e with
  | ErrorString s => es_text s
  | NotSupportedError op backend reason =>
      let base := es_text ErrNotSupported ++ ": " ++ op
                  ++ " operation not supported by " ++ backend in
      if String.eqb reason "" then base else base ++ ": " ++ reason
  | NotAvailableError backend reason =>
      let base := es_text ErrNotAvailable ++ ": " ++ backend in
      if String.eqb reason "" then base else base ++ ": " ++ reason
  | ExternalFailureError op backend _ stderr _ Err =>
      let msg := "external failure: " ++ op ++ " operation on " ++ backend in
      let msg := match Err with
                 | Some e' => msg ++ ": " ++ Error_string e'
                 | None => msg
                 end in
      if String.eqb stderr "" then msg else msg ++ " (stderr: " ++ stderr ++ ")"
  | wrapError msg _ => msg
  end.

(** Length of the [Unwrap] chain that starts at [e]. *)
Fixpoint chain_len (e : error) : nat :=
  match e with
  | ErrorString _ => 1
  | NotSupportedError _ _ _ => 2
  | NotAvailableError _ _ => 2
  | ExternalFailureError _ _ _ _ _ Err =>
      match Err with
      | Some e' => S (chain_len e')
      | None => 1
      end
  | wrapError _ err => S (chain_len err)
  end.

(** [err == target] for a target of dynamic type [*errorString]: same dynamic
    type and same pointer. *)
Definition same_errorString (err : error) (target : errorString) : bool :=
  match err with
  | ErrorString s => Nat.eqb (es_addr s) (es_addr target)
  | _ => false
  end.

(** The loop of [errors.Is]; no type of this program has an [Is] method. *)
Fixpoint is_loop (fuel : nat) (err : error) (target : errorString) : bool :=
  match fuel with
  | O => false
  | S k =>
      if same_errorString err target then true
      else match Unwrap err with
           | Some err' => is_loop k err' target
           | None => false
           end
  end.

(** [errors.Is(err, target)] for a non-nil target. *)
Definition errors_Is (err : option error) (target : errorString) : bool :=
  match err with
  | None => false
  | Some e => is_loop (chain_len e) e target
  end.

(** The loop of [errors.As] for a target of type [**ExternalFailureError]. *)
Fixpoint as_loop (fuel : nat) (err : error) : option error :=
  match fuel with
  | O => None
  | S k =>
      match err with
      | ExternalFailureError _ _ _ _ _ _ => Some err
      | _ => match Unwrap err with
             | Some err' => as_loop k err'
             | None => None
             end
      end
  end.

Definition errors_As_ExternalFailure (err : option error) : option error :=
  match err with
  | None => None
  | Some e => as_loop (chain_len e) e
  end.

Definition IsNotSupported (err : option error) : bool := errors_Is err ErrNotSupported.

Definition IsNotAvailable (err : option error) : bool := errors_Is err ErrNotAvailable.

Definition IsExternalFailure (err : option error) : bool :=
  match errors_As_ExternalFailure err with
  | Some _ => true
  | None => false
  end.

(** Context added by callers: [fmt.Errorf(msg + ": %w", e)], once per entry. *)
Definition add_context (ctx : list string) (e : error) : error :=
  fold_right wrapError e ctx.

(** ** The command runner ([internal/runner]) *)
Module runner.

(** What [Runner.Run(ctx, name, args...)] returns: stdout, stderr, error. *)
Definition Runner := string -> list string -> string * string * option error.

Definition maxLen : nat := 500.

Definition sanitize (s : string) : string :=
  if Nat.ltb maxLen (String.length s)
  then substring 0 maxLen s ++ "... (truncated)"
  else s.

Definition RunWithExternalError (r : Runner) (operation : Operation)
    (backend name : string) (args : list string) : string * string * option error :=
  let '(stdout, stderr, err) := r name args in
  match err with
  | Some e =>
      (stdout, stderr,
       Some (ExternalFailureError operation backend
               (sanitize stdout) (sanitize stderr) [] (Some e)))
  | None => (stdout, stderr, None)
  end.

End runner.

(** ** The progress model ([progress] package: data and reporter) *)

(** [time.Time], as an instant counted from the zero time. *)
Definition Time := nat.
Definition zeroTime : Time := 0.
Definition IsZero (t : Time) : bool := Nat.eqb t 0.

Definition Severity := string.
Definition SeverityInfo : Severity := "Informational".
Definition SeverityWarning : Severity := "Warning".
Definition SeverityError : Severity := "Error".

Record ProgressMessage := mkMessage {
  msg_Severity : Severity;
  msg_Text : string;
  msg_Timestamp : Time;
  msg_ActionID : string;
  msg_TaskID : string;
  msg_StepID : string
}.

Record ProgressAction := mkAction {
  act_ID : string;
  act_Name : string;
  act_StartedAt : Time;
  act_EndedAt : Time
}.

Record ProgressTask := mkTask {
  task_ID : string;
  task_ActionID : string;
  task_Name : string;
  task_StartedAt : Time;
  task_EndedAt : Time
}.

Record ProgressStep := mkStep {
  step_ID : string;
  step_TaskID : string;
  step_Name : string;
  step_StartedAt : Time;
  step_EndedAt : Time
}.

(** One call of a [ProgressReporter] method, with the value it receives. *)
Inductive Event :=
| OnAction (action : ProgressAction)
| OnTask (task : ProgressTask)
| OnStep (step : ProgressStep)
| OnMessage (msg : ProgressMessage).

(** A reporter is an object with an identity; [None] is the nil interface. *)
Definition ReporterId := nat.
Definition ProgressReporter := option ReporterId.

(** The environment of a run: the strings [uuid.New().String()] is going to
    return and how many were drawn, the instants [time.Now()] is going to
    return and how many were read, and what each reporter has received. *)
Record World := mkWorld {
  entropy : nat -> string;
  uuids : nat;
  wall : nat -> Time;
  ticks : nat;
  log : list (ReporterId * Event)
}.

(** The identifiers drawn so far. *)
Definition issued (w : World) : list string := map (entropy w) (seq 0 (uuids w)).

(** What reporter [r] has received, oldest first. *)
Definition received (r : ReporterId) (w : World) : list Event :=
  map snd (filter (fun p => Nat.eqb (fst p) r) (log w)).

(** The helper object ([ProgressHelper] struct). Its three pointers are never
    shared: a reporter receives copies. *)
Record ProgressHelper := mkHelper {
  reporter : ProgressReporter;
  currentAction : option ProgressAction;
  currentTask : option ProgressTask;
  currentStep : option ProgressStep
}.

(** ** A state monad for the helper methods *)

Definition State (S A : Type) : Type := S -> A * S.

Definition ret {S A} (a : A) : State S A := fun s => (a, s).

Definition bind {S A B} (m : State S A) (k : A -> State S B) : State S B :=
  fun s => let '(a, s') := m s in k a s'.

Declare Scope monad_scope.
Delimit Scope monad_scope with monad.
Notation "x <- m ;; k" := (bind m (fun x => k))
  (at level 61, m at next level, right associativity) : monad_scope.
Notation "m ;; k" := (bind m (fun _ => k))
  (at level 61, right associativity) : monad_scope.
Open Scope monad_scope.

(** Helper methods run on the helper and the world. *)
Definition M (A : Type) : Type := State (ProgressHelper * World) A.

(** Backend methods run on the world. *)
Definition W (A : Type) : Type := State World A.

Definition getH : M ProgressHelper := fun s => (fst s, s).

Definition set_currentAction (a : option ProgressAction) : M unit :=
  fun '(h, w) =>
    (tt, (mkHelper (reporter h) a (currentTask h) (currentStep h), w)).

Definition set_currentTask (t : option ProgressTask) : M unit :=
  fun '(h, w) =>
    (tt, (mkHelper (reporter h) (currentAction h) t (currentStep h), w)).

Definition set_currentStep (s : option ProgressStep) : M unit :=
  fun '(h, w) =>
    (tt, (mkHelper (reporter h) (currentAction h) (currentTask h) s, w)).

(** [uuid.New().String()] *)
Definition uuid_New_String : M string :=
  fun '(h, w) =>
    (entropy w (uuids w),
     (h, mkWorld (entropy w) (S (uuids w)) (wall w) (ticks w) (log w))).

(** [time.Now()] *)
Definition time_Now : M Time :=
  fun '(h, w) =>
    (wall w (ticks w),
     (h, mkWorld (entropy w) (uuids w) (wall w) (S (ticks w)) (log w))).

(** A call of a method of reporter [r]. *)
Definition emit (r : ReporterId) (ev : Event) : M unit :=
  fun '(h, w) =>
    (tt, (h, mkWorld (entropy w) (uuids w) (wall w) (ticks w) (log w ++ [(r, ev)]%list))).

(** The method set of a progress helper. Package [types] either aliases
    [progress.ProgressHelper] ([types.go]) or declares a helper of its own
    ([progress_helpers.go]); a backend is written against the methods. *)
Record HelperAPI := mkHelperAPI {
  api_BeginAction : string -> M string;
  api_EndAction : M unit;
  api_BeginTask : string -> M string;
  api_EndTask : M unit;
  api_BeginStep : string -> M string;
  api_EndStep : M unit;
  api_Info : string -> M unit;
  api_Warning : string -> M unit;
  api_Error : string -> M unit
}.

(** [NewProgressHelper], the same in both packages. *)
Definition NewProgressHelper (defaultReporter overrideReporter : ProgressReporter)
  : ProgressHelper :=
  let reporter :=
    match overrideReporter with
    | None => defaultReporter
    | Some _ => overrideReporter
    end in
  mkHelper reporter None None None.

(** ** The helper of package [progress] *)
Module progress.

Definition BeginAction (name : string) : M string :=
  h <- getH;;
  match reporter h with
  | None => ret ""
  | Some r =>
      id <- uuid_New_String;;
      now <- time_Now;;
      let action := mkAction id name now zeroTime in
      set_currentAction (Some action);;
      emit r (OnAction action);;
      ret (act_ID action)
  end.

Definition EndAction : M unit :=
  h <- getH;;
  match reporter h, currentAction h with
  | Some r, Some a =>
      now <- time_Now;;
      let a' := mkAction (act_ID a) (act_Name a) (act_StartedAt a) now in
      set_currentAction (Some a');;
      emit r (OnAction a');;
      set_currentAction None;;
      set_currentTask None;;
      set_currentStep None
  | _, _ => ret tt
  end.

Definition BeginTask (name : string) : M string :=
  h <- getH;;
  match reporter h with
  | None => ret ""
  | Some r =>
      let actionID :=
        match currentAction h with
        | Some a => act_ID a
        | None => ""
        end in
      id <- uuid_New_String;;
      now <- time_Now;;
      let task := mkTask id actionID name now zeroTime in
      set_currentTask (Some task);;
      emit r (OnTask task);;
      ret (task_ID task)
  end.

Definition EndTask : M unit :=
  h <- getH;;
  match reporter h, currentTask h with
  | Some r, Some t =>
      now <- time_Now;;
      let t' := mkTask (task_ID t) (task_ActionID t) (task_Name t) (task_StartedAt t) now in
      set_currentTask (Some t');;
      emit r (OnTask t');;
      set_currentTask None;;
      set_currentStep None
  | _, _ => ret tt
  end.

Definition BeginStep (name : string) : M string :=
  h <- getH;;
  match reporter h with
  | None => ret ""
  | Some r =>
      let taskID :=
        match currentTask h with
        | Some t => task_ID t
        | None => ""
        end in
      id <- uuid_New_String;;
      now <- time_Now;;
      let step := mkStep id taskID name now zeroTime in
      set_currentStep (Some step);;
      emit r (OnStep step);;
      ret (step_ID step)
  end.

Definition EndStep : M unit :=
  h <- getH;;
  match reporter h, currentStep h with
  | Some r, Some s =>
      now <- time_Now;;
      let s' := mkStep (step_ID s) (step_TaskID s) (step_Name s) (step_StartedAt s) now in
      set_currentStep (Some s');;
      emit r (OnStep s');;
      set_currentStep None
  | _, _ => ret tt
  end.

Definition message (severity : Severity) (text : string) : M unit :=
  h <- getH;;
  match reporter h with
  | None => ret tt
  | Some r =>
      now <- time_Now;;
      let actionID := match currentAction h with Some a => act_ID a | None => "" end in
      let taskID := match currentTask h with Some t => task_ID t | None => "" end in
      let stepID := match currentStep h with Some s => step_ID s | None => "" end in
      emit r (OnMessage (mkMessage severity text now actionID taskID stepID))
  end.

Definition Info (text : string) : M unit := message SeverityInfo text.
Definition Warning (text : string) : M unit := message SeverityWarning text.
Definition Error (text : string) : M unit := message SeverityError text.

Definition API : HelperAPI :=
  mkHelperAPI BeginAction EndAction BeginTask EndTask BeginStep EndStep
              Info Warning Error.

End progress.

(** ** The helper of package [internal/types] ([progress_helpers.go])

    Package [types] declares structs of its own for actions, tasks, steps and
    messages; they have the fields of the [progress] ones, in the same order,
    and are identified with them here. *)
Module types.

Definition BeginAction (name : string) : M string :=
  h <- getH;;
  match reporter h with
  | None => ret ""
  | Some r =>
      id <- uuid_New_String;;
      now <- time_Now;;
      let action := mkAction id name now zeroTime in
      set_currentAction (Some action);;
      emit r (OnAction action);;
      ret (act_ID action)
  end.

Definition EndAction : M unit :=
  h <- getH;;
  match reporter h, currentAction h with
  | Some r, Some a =>
      now <- time_Now;;
      let action := mkAction (act_ID a) (act_Name a) (act_StartedAt a) now in
      emit r (OnAction action);;
      set_currentAction None
  | _, _ => ret tt
  end.

Definition BeginTask (name : string) : M string :=
  h <- getH;;
  match reporter h with
  | None => ret ""
  | Some r =>
      id <- uuid_New_String;;
      now <- time_Now;;
      let task := mkTask id "" name now zeroTime in
      let task :=
        match currentAction h with
        | Some a => mkTask (task_ID task) (act_ID a) (task_Name task)
                           (task_StartedAt task) (task_EndedAt task)
        | None => task
        end in
      set_currentTask (Some task);;
      emit r (OnTask task);;
      ret (task_ID task)
  end.

Definition EndTask : M unit :=
  h <- getH;;
  match reporter h, currentTask h with
  | Some r, Some t =>
      now <- time_Now;;
      let task := mkTask (task_ID t) (task_ActionID t) (task_Name t) (task_StartedAt t) now in
      emit r (OnTask task);;
      set_currentTask None
  | _, _ => ret tt
  end.

Definition BeginStep (name : string) : M string :=
  h <- getH;;
  match reporter h with
  | None => ret ""
  | Some r =>
      id <- uuid_New_String;;
      now <- time_Now;;
      let step := mkStep id "" name now zeroTime in
      let step :=
        match currentTask h with
        | Some t => mkStep (step_ID step) (task_ID t) (step_Name step)
                           (step_StartedAt step) (step_EndedAt step)
        | None => step
        end in
      set_currentStep (Some step);;
      emit r (OnStep step);;
      ret (step_ID step)
  end.

Definition EndStep : M unit :=
  h <- getH;;
  match reporter h, currentStep h with
  | Some r, Some s =>
      now <- time_Now;;
      let step := mkStep (step_ID s) (step_TaskID s) (step_Name s) (step_StartedAt s) now in
      emit r (OnStep step);;
      set_currentStep None
  | _, _ => ret tt
  end.

Definition message (severity : Severity) (text : string) : M unit :=
  h <- getH;;
  match reporter h with
  | None => ret tt
  | Some r =>
      now <- time_Now;;
      let actionID := match currentAction h with Some a => act_ID a | None => "" end in
      let taskID := match currentTask h with Some t => task_ID t | None => "" end in
      let stepID := match currentStep h with Some s => step_ID s | None => "" end in
      emit r (OnMessage (mkMessage severity text now actionID taskID stepID))
  end.

Definition Info (text : string) : M unit := message SeverityInfo text.
Definition Warning (text : string) : M unit := message SeverityWarning text.
Definition Error (text : string) : M unit := message SeverityError text.

Definition API : HelperAPI :=
  mkHelperAPI BeginAction EndAction BeginTask EndTask BeginStep EndStep
              Info Warning Error.

End types.

(** ** Sequences of helper calls *)

Inductive HelperCall :=
| CBeginAction (name : string)
| CEndAction
| CBeginTask (name : string)
| CEndTask
| CBeginStep (name : string)
| CEndStep
| CInfo (text : string)
| CWarning (text : string)
| CError (text : string).

(** One call; the identifier returned, for a call that returns one. *)
Definition exec (api : HelperAPI) (c : HelperCall) : M (option string) :=
  match c with
  | CBeginAction name => id <- api_BeginAction api name;; ret (Some id)
  | CEndAction => api_EndAction api;; ret None
  | CBeginTask name => id <- api_BeginTask api name;; ret (Some id)
  | CEndTask => api_EndTask api;; ret None
  | CBeginStep name => id <- api_BeginStep api name;; ret (Some id)
  | CEndStep => api_EndStep api;; ret None
  | CInfo text => api_Info api text;; ret None
  | CWarning text => api_Warning api text;; ret None
  | CError text => api_Error api text;; ret None
  end.

(** The calls in order; the identifiers returned, in order. *)
Fixpoint run (api : HelperAPI) (cs : list HelperCall) : M (list string) :=
  match cs with
  | [] => ret []
  | c :: rest =>
      r <- exec api c;;
      ids <- run api rest;;
      ret (match r with Some id => id :: ids | None => ids end)
  end.

(** ** Results and options of the operations ([types.go], [options.go])

    [UpdateResult] has no field for packages. *)

Record UpdateResult := mkUpdateResult {
  upd_Changed : bool;
  upd_Messages : list ProgressMessage
}.

Record UpgradeResult := mkUpgradeResult {
  upg_Changed : bool;
  upg_PackagesChanged : list PackageRef;
  upg_Messages : list ProgressMessage
}.

Record InstallResult := mkInstallResult {
  ins_Changed : bool;
  ins_PackagesInstalled : list PackageRef;
  ins_Messages : list ProgressMessage
}.

Record UninstallResult := mkUninstallResult {
  uni_Changed : bool;
  uni_PackagesUninstalled : list PackageRef;
  uni_Messages : list ProgressMessage
}.

(** The composite literals [types.UpdateResult{}] and so on. *)
Definition zeroUpdateResult : UpdateResult := mkUpdateResult false [].
Definition zeroUpgradeResult : UpgradeResult := mkUpgradeResult false [] [].
Definition zeroInstallResult : InstallResult := mkInstallResult false [] [].
Definition zeroUninstallResult : UninstallResult := mkUninstallResult false [] [].

(** The six option structs have the one field [Progress]. *)
Record Options := mkOptions { Progress : ProgressReporter }.
Definition UpdateOptions := Options.
Definition UpgradeOptions := Options.
Definition InstallOptions := Options.
Definition UninstallOptions := Options.
Definition SearchOptions := Options.
Definition ListOptions := Options.

(** ** Pieces the backend methods share *)

(** A method body that works with a helper of its own. *)
Definition with_helper {A} (h : ProgressHelper) (body : M A) : W A :=
  fun w => let '(a, (_, w')) := body (h, w) in (a, w').

(** [defer d] in front of [body]: [d] runs when [body] has returned. *)
Definition defer {A} (d : M unit) (body : M A) : M A :=
  a <- body;; d;; ret a.

Definition pkgNames (pkgs : list PackageRef) : list string := map pkg_Name pkgs.

(** The first requested package whose name occurs in [line], appended
    ([for _, pkg := range pkgs { if strings.Contains(line, pkg.Name) { ...; break } }]). *)
Definition append_named (line : string) (pkgs acc : list PackageRef) : list PackageRef :=
  match find (fun pkg => strings.Contains line (pkg_Name pkg)) pkgs with
  | Some pkg => (acc ++ [pkg])%list
  | None => acc
  end.

Definition nth_field (n : nat) (fields : list string) : string := nth n fields "".

(** ** The brew backend ([internal/backend/brew/brew.go]) *)
Module brew.

(** [searchFormulae] fetches the catalogue of the Formulae API through the
    HTTP client and filters it; what it returns for a query is for the
    client to decide and is a field here. *)
Record Backend := mkBackend {
  searchFormulae : string -> list PackageRef * option error;
  runner : option runner.Runner;
  progress : ProgressReporter
}.

Definition Capabilities (b : Backend) : list Capability * option error :=
  let hasRunner := match runner b with Some _ => true | None => false end in
  ([ mkCapability OperationSearch true "via Formulae API";
     mkCapability OperationUpdateMetadata hasRunner "via brew update CLI";
     mkCapability OperationUpgradePackages hasRunner "via brew upgrade CLI";
     mkCapability OperationInstall hasRunner "via brew install CLI";
     mkCapability OperationUninstall hasRunner "via brew uninstall CLI";
     mkCapability OperationListInstalled hasRunner "via brew list CLI" ], None).

Definition upgrade_line (acc : bool * list PackageRef) (line : string)
  : bool * list PackageRef :=
  let '(changed, packagesChanged) := acc in
  if strings.Contains line "==> Upgrading" then
    let parts := strings.Fields line in
    if Nat.leb 3 (List.length parts)
    then (true, (packagesChanged ++ [mkPackageRef (nth_field 2 parts) "" "" "formula"])%list)
    else (true, packagesChanged)
  else (changed, packagesChanged).

Definition install_line (changed : bool) (line : string) : bool :=
  if strings.Contains line "==> Installing" || strings.Contains line "==> Downloading"
  then true else changed.

Definition uninstall_line (changed : bool) (line : string) : bool :=
  if strings.Contains line "==> Uninstalling" then true else changed.

Definition list_line (installed : list InstalledPackage) (line : string)
  : list InstalledPackage :=
  let line := strings.TrimSpace line in
  if String.eqb line "" then installed
  else
    let parts := strings.Fields line in
    if Nat.leb 1 (List.length parts) then
      let version := if Nat.leb 2 (List.length parts) then nth_field 1 parts else "" in
      (installed ++ [mkInstalledPackage
                       (mkPackageRef (nth_field 0 parts) "" "" "formula") version ""])%list
    else installed.

Section Methods.

Variable helper : HelperAPI.

Definition Update (b : Backend) (opts : UpdateOptions)
  : W (UpdateResult * option error) :=
  match runner b with
  | None => ret (zeroUpdateResult, Some (ErrorString ErrNotSupported))
  | Some r =>
      with_helper (NewProgressHelper (progress b) (Progress opts))
        (api_BeginAction helper "Update";;
         defer (api_EndAction helper)
           (api_BeginTask helper "Running brew update";;
            let '(stdout, _, err) :=
              runner.RunWithExternalError r OperationUpdateMetadata "brew" "brew" ["update"] in
            api_EndTask helper;;
            match err with
            | Some e =>
                api_Error helper ("Update failed: " ++ Error_string e);;
                ret (zeroUpdateResult, Some e)
            | None =>
                let changed := strings.Contains stdout "Updated"
                               || strings.Contains stdout "Homebrew updated" in
                api_Info helper "Update completed";;
                ret (mkUpdateResult changed [], None)
            end))
  end.

Definition Upgrade (b : Backend) (opts : UpgradeOptions)
  : W (UpgradeResult * option error) :=
  match runner b with
  | None => ret (zeroUpgradeResult, Some (ErrorString ErrNotSupported))
  | Some r =>
      with_helper (NewProgressHelper (progress b) (Progress opts))
        (api_BeginAction helper "Upgrade";;
         defer (api_EndAction helper)
           (api_BeginTask helper "Running brew upgrade";;
            let '(stdout, _, err) :=
              runner.RunWithExternalError r OperationUpgradePackages "brew" "brew" ["upgrade"] in
            api_EndTask helper;;
            match err with
            | Some e =>
                api_Error helper ("Upgrade failed: " ++ Error_string e);;
                ret (zeroUpgradeResult, Some e)
            | None =>
                let '(changed, packagesChanged) :=
                  fold_left upgrade_line (strings.Split stdout LF) (false, []) in
                (if changed
                 then api_Info helper "Upgrade completed: upgraded packages"
                 else api_Info helper "Upgrade completed: no packages needed upgrading");;
                ret (mkUpgradeResult changed packagesChanged [], None)
            end))
  end.

Definition Install (b : Backend) (pkgs : list PackageRef) (opts : InstallOptions)
  : W (InstallResult * option error) :=
  match runner b with
  | None => ret (zeroInstallResult, Some (ErrorString ErrNotSupported))
  | Some r =>
      match pkgs with
      | [] => ret (zeroInstallResult, None)
      | _ =>
        with_helper (NewProgressHelper (progress b) (Progress opts))
          (api_BeginAction helper "Install";;
           defer (api_EndAction helper)
             (let args := "install" :: pkgNames pkgs in
              api_BeginTask helper "Running brew install";;
              let '(stdout, _, err) :=
                runner.RunWithExternalError r OperationInstall "brew" "brew" args in
              api_EndTask helper;;
              match err with
              | Some e =>
                  api_Error helper ("Install failed: " ++ Error_string e);;
                  ret (zeroInstallResult, Some e)
              | None =>
                  let changed := fold_left install_line (strings.Split stdout LF) false in
                  if changed then
                    api_Info helper "Install completed: installed packages";;
                    ret (mkInstallResult changed pkgs [], None)
                  else
                    api_Info helper "Install completed: packages already installed";;
                    ret (mkInstallResult changed [] [], None)
              end))
      end
  end.

Definition Uninstall (b : Backend) (pkgs : list PackageRef) (opts : UninstallOptions)
  : W (UninstallResult * option error) :=
  match runner b with
  | None => ret (zeroUninstallResult, Some (ErrorString ErrNotSupported))
  | Some r =>
      match pkgs with
      | [] => ret (zeroUninstallResult, None)
      | _ =>
        with_helper (NewProgressHelper (progress b) (Progress opts))
          (api_BeginAction helper "Uninstall";;
           defer (api_EndAction helper)
             (let args := "uninstall" :: pkgNames pkgs in
              api_BeginTask helper "Running brew uninstall";;
              let '(stdout, _, err) :=
                runner.RunWithExternalError r OperationUninstall "brew" "brew" args in
              api_EndTask helper;;
              match err with
              | Some e =>
                  api_Error helper ("Uninstall failed: " ++ Error_string e);;
                  ret (zeroUninstallResult, Some e)
              | None =>
                  let changed := fold_left uninstall_line (strings.Split stdout LF) false in
                  if changed then
                    api_Info helper "Uninstall completed: uninstalled packages";;
                    ret (mkUninstallResult changed pkgs [], None)
                  else
                    api_Info helper "Uninstall completed: packages not found";;
                    ret (mkUninstallResult changed [] [], None)
              end))
      end
  end.

Definition Search (b : Backend) (query : string) (opts : SearchOptions)
  : W (list PackageRef * option error) :=
  with_helper (NewProgressHelper (progress b) (Progress opts))
    (api_BeginAction helper "Search";;
     defer (api_EndAction helper)
       (if String.eqb query "" then
          api_Info helper "Empty search query";;
          ret ([], None)
        else
          api_BeginTask helper "Fetch formulae";;
          let '(results, err) := searchFormulae b query in
          api_EndTask helper;;
          match err with
          | Some e =>
              api_Error helper ("Search failed: " ++ Error_string e);;
              ret ([], Some e)
          | None =>
              api_Info helper "Search completed";;
              ret (results, None)
          end)).

Definition ListInstalled (b : Backend) (opts : ListOptions)
  : W (list InstalledPackage * option error) :=
  match runner b with
  | None => ret ([], Some (ErrorString ErrNotSupported))
  | Some r =>
      with_helper (NewProgressHelper (progress b) (Progress opts))
        (api_BeginAction helper "ListInstalled";;
         defer (api_EndAction helper)
           (api_BeginTask helper "Running brew list";;
            let '(stdout, _, err) :=
              runner.RunWithExternalError r OperationListInstalled "brew" "brew"
                ["list"; "--versions"] in
            api_EndTask helper;;
            match err with
            | Some e =>
                api_Error helper ("ListInstalled failed: " ++ Error_string e);;
                ret ([], Some e)
            | None =>
                let installed := fold_left list_line (strings.Split stdout LF) [] in
                api_Info helper "ListInstalled completed";;
                ret (installed, None)
            end))
  end.

End Methods.

End brew.

(** ** The flatpak backend ([internal/backend/flatpak/flatpak.go]) *)
Module flatpak.

Record Backend := mkBackend {
  runner : option runner.Runner;
  progress : ProgressReporter
}.

Definition Capabilities (b : Backend) : list Capability * option error :=
  let hasRunner := match runner b with Some _ => true | None => false end in
  ([ mkCapability OperationSearch hasRunner "via flatpak search CLI";
     mkCapability OperationUpdateMetadata hasRunner "via flatpak update CLI";
     mkCapability OperationUpgradePackages hasRunner "via flatpak update CLI";
     mkCapability OperationInstall hasRunner "via flatpak install CLI";
     mkCapability OperationUninstall hasRunner "via flatpak uninstall CLI";
     mkCapability OperationListInstalled hasRunner "via flatpak list CLI" ], None).

Definition upgrade_line (acc : bool * list PackageRef) (line : string)
  : bool * list PackageRef :=
  let '(changed, packagesChanged) := acc in
  let line := strings.TrimSpace line in
  if strings.HasPrefix line "Updating" then
    let parts := strings.Fields line in
    if Nat.leb 2 (List.length parts)
    then (true, (packagesChanged ++ [mkPackageRef (nth_field 1 parts) "" "" "app"])%list)
    else (true, packagesChanged)
  else (changed, packagesChanged).

Definition install_line (pkgs : list PackageRef) (acc : bool * list PackageRef)
    (line : string) : bool * list PackageRef :=
  let '(changed, installed) := acc in
  let line := strings.TrimSpace line in
  if strings.Contains line "Installing" || strings.Contains line "installed"
  then (true, append_named line pkgs installed)
  else (changed, installed).

Definition uninstall_line (pkgs : list PackageRef) (acc : bool * list PackageRef)
    (line : string) : bool * list PackageRef :=
  let '(changed, uninstalled) := acc in
  let line := strings.TrimSpace line in
  if strings.Contains line "Uninstalling" || strings.Contains line "uninstalled"
  then (true, append_named line pkgs uninstalled)
  else (changed, uninstalled).

Definition search_line (results : list PackageRef) (line : string) : list PackageRef :=
  let line := strings.TrimSpace line in
  if String.eqb line "" then results
  else
    let fields := strings.Fields line in
    if Nat.leb 3 (List.length fields)
    then (results ++ [mkPackageRef (nth_field 2 fields) "" "" "app"])%list
    else results.

Definition TAB : string := String (ascii_of_nat 9) EmptyString.

Definition list_line (packages : list InstalledPackage) (line : string)
  : list InstalledPackage :=
  let line := strings.TrimSpace line in
  if String.eqb line "" then packages
  else
    let fields := strings.Split line TAB in
    if Nat.leb 4 (List.length fields) then
      let appID := strings.TrimSpace (nth_field 1 fields) in
      let version := strings.TrimSpace (nth_field 2 fields) in
      let installation := strings.TrimSpace (nth_field 3 fields) in
      (packages ++ [mkInstalledPackage (mkPackageRef appID installation "" "app") version ""])%list
    else if Nat.leb 3 (List.length fields) then
      let appID := strings.TrimSpace (nth_field 1 fields) in
      let version := strings.TrimSpace (nth_field 2 fields) in
      (packages ++ [mkInstalledPackage (mkPackageRef appID "" "" "app") version ""])%list
    else
      let fields := strings.Fields line in
      if Nat.leb 3 (List.length fields) then
        let appID := nth_field 1 fields in
        let version := nth_field 2 fields in
        let installation := if Nat.leb 4 (List.length fields) then nth_field 3 fields else "" in
        (packages ++ [mkInstalledPackage (mkPackageRef appID installation "" "app") version ""])%list
      else packages.

Section Methods.

Variable helper : HelperAPI.

Definition Update (b : Backend) (opts : UpdateOptions)
  : W (UpdateResult * option error) :=
  match runner b with
  | None => ret (zeroUpdateResult, Some (ErrorString ErrNotSupported))
  | Some r =>
      with_helper (NewProgressHelper (progress b) (Progress opts))
        (api_BeginAction helper "Update";;
         defer (api_EndAction helper)
           (api_BeginTask helper "Running flatpak update --appstream";;
            let '(stdout, _, err) :=
              runner.RunWithExternalError r OperationUpdateMetadata "flatpak" "flatpak"
                ["update"; "--appstream"] in
            api_EndTask helper;;
            match err with
            | Some e =>
                api_Error helper ("Update failed: " ++ Error_string e);;
                ret (zeroUpdateResult, Some e)
            | None =>
                let changed := strings.Contains stdout "Updating"
                               || strings.Contains stdout "Updated" in
                api_Info helper "Update completed";;
                ret (mkUpdateResult changed [], None)
            end))
  end.

Definition Upgrade (b : Backend) (opts : UpgradeOptions)
  : W (UpgradeResult * option error) :=
  match runner b with
  | None => ret (zeroUpgradeResult, Some (ErrorString ErrNotSupported))
  | Some r =>
      with_helper (NewProgressHelper (progress b) (Progress opts))
        (api_BeginAction helper "Upgrade";;
         defer (api_EndAction helper)
           (api_BeginTask helper "Running flatpak update";;
            let '(stdout, _, err) :=
              runner.RunWithExternalError r OperationUpgradePackages "flatpak" "flatpak"
                ["update"; "-y"] in
            api_EndTask helper;;
            match err with
            | Some e =>
                api_Error helper ("Upgrade failed: " ++ Error_string e);;
                ret (zeroUpgradeResult, Some e)
            | None =>
                let '(changed, packagesChanged) :=
                  fold_left upgrade_line (strings.Split stdout LF) (false, []) in
                (if changed
                 then api_Info helper "Upgrade completed: upgraded packages"
                 else api_Info helper "Upgrade completed: no packages needed upgrading");;
                ret (mkUpgradeResult changed packagesChanged [], None)
            end))
  end.

Definition Install (b : Backend) (pkgs : list PackageRef) (opts : InstallOptions)
  : W (InstallResult * option error) :=
  match runner b with
  | None => ret (zeroInstallResult, Some (ErrorString ErrNotSupported))
  | Some r =>
      match pkgs with
      | [] => ret (zeroInstallResult, None)
      | _ =>
        with_helper (NewProgressHelper (progress b) (Progress opts))
          (api_BeginAction helper "Install";;
           defer (api_EndAction helper)
             (let args := "install" :: "-y" :: pkgNames pkgs in
              api_BeginTask helper "Running flatpak install";;
              let '(stdout, _, err) :=
                runner.RunWithExternalError r OperationInstall "flatpak" "flatpak" args in
              api_EndTask helper;;
              match err with
              | Some e =>
                  api_Error helper ("Install failed: " ++ Error_string e);;
                  ret (zeroInstallResult, Some e)
              | None =>
                  let '(changed, installed) :=
                    fold_left (install_line pkgs) (strings.Split stdout LF) (false, []) in
                  let installed :=
                    if changed && Nat.eqb (List.length installed) 0 then pkgs else installed in
                  (if changed
                   then api_Info helper "Install completed: installed packages"
                   else api_Info helper "Install completed: packages already installed");;
                  ret (mkInstallResult changed installed [], None)
              end))
      end
  end.

Definition Uninstall (b : Backend) (pkgs : list PackageRef) (opts : UninstallOptions)
  : W (UninstallResult * option error) :=
  match runner b with
  | None => ret (zeroUninstallResult, Some (ErrorString ErrNotSupported))
  | Some r =>
      match pkgs with
      | [] => ret (zeroUninstallResult, None)
      | _ =>
        with_helper (NewProgressHelper (progress b) (Progress opts))
          (api_BeginAction helper "Uninstall";;
           defer (api_EndAction helper)
             (let args := "uninstall" :: "-y" :: pkgNames pkgs in
              api_BeginTask helper "Running flatpak uninstall";;
              let '(stdout, _, err) :=
                runner.RunWithExternalError r OperationUninstall "flatpak" "flatpak" args in
              api_EndTask helper;;
              match err with
              | Some e =>
                  api_Error helper ("Uninstall failed: " ++ Error_string e);;
                  ret (zeroUninstallResult, Some e)
              | None =>
                  let '(changed, uninstalled) :=
                    fold_left (uninstall_line pkgs) (strings.Split stdout LF) (false, []) in
                  let uninstalled :=
                    if changed && Nat.eqb (List.length uninstalled) 0 then pkgs else uninstalled in
                  (if changed
                   then api_Info helper "Uninstall completed: uninstalled packages"
                   else api_Info helper "Uninstall completed: packages were not installed");;
                  ret (mkUninstallResult changed uninstalled [], None)
              end))
      end
  end.

Definition Search (b : Backend) (query : string) (opts : SearchOptions)
  : W (list PackageRef * option error) :=
  match runner b with
  | None => ret ([], Some (ErrorString ErrNotSupported))
  | Some r =>
      if String.eqb query "" then ret ([], None)
      else
        with_helper (NewProgressHelper (progress b) (Progress opts))
          (api_BeginAction helper "Search";;
           defer (api_EndAction helper)
             (api_BeginTask helper "Running flatpak search";;
              let '(stdout, _, err) :=
                runner.RunWithExternalError r OperationSearch "flatpak" "flatpak"
                  ["search"; query] in
              api_EndTask helper;;
              match err with
              | Some e =>
                  api_Error helper ("Search failed: " ++ Error_string e);;
                  ret ([], Some e)
              | None =>
                  let results := fold_left search_line (tl (strings.Split stdout LF)) [] in
                  api_Info helper "Search completed";;
                  ret (results, None)
              end))
  end.

Definition ListInstalled (b : Backend) (opts : ListOptions)
  : W (list InstalledPackage * option error) :=
  match runner b with
  | None => ret ([], Some (ErrorString ErrNotSupported))
  | Some r =>
      with_helper (NewProgressHelper (progress b) (Progress opts))
        (api_BeginAction helper "ListInstalled";;
         defer (api_EndAction helper)
           (api_BeginTask helper "Running flatpak list";;
            let '(stdout, _, err) :=
              runner.RunWithExternalError r OperationListInstalled "flatpak" "flatpak"
                ["list"; "--app"; "--columns=name,application,version,installation"] in
            api_EndTask helper;;
            match err with
            | Some e =>
                api_Error helper ("ListInstalled failed: " ++ Error_string e);;
                ret ([], Some e)
            | None =>
                let packages := fold_left list_line (strings.Split stdout LF) [] in
                api_Info helper "ListInstalled completed";;
                ret (packages, None)
            end))
  end.

End Methods.

End flatpak.

(** ** The snap backend ([internal/backend/snap/snap.go]) *)
Module snap.

Record Backend := mkBackend {
  runner : option runner.Runner;
  progress : ProgressReporter
}.

Definition Capabilities (b : Backend) : list Capability * option error :=
  let hasRunner := match runner b with Some _ => true | None => false end in
  ([ mkCapability OperationSearch hasRunner "via snap find CLI";
     mkCapability OperationUpdateMetadata hasRunner "via snap refresh CLI";
     mkCapability OperationUpgradePackages hasRunner "via snap refresh CLI";
     mkCapability OperationInstall hasRunner "via snap install CLI";
     mkCapability OperationUninstall hasRunner "via snap remove CLI";
     mkCapability OperationListInstalled hasRunner "via snap list CLI" ], None).

Definition upgrade_line (acc : bool * list PackageRef) (line : string)
  : bool * list PackageRef :=
  let '(changed, packagesChanged) := acc in
  let line := strings.TrimSpace line in
  if strings.Contains line "refreshed" || strings.Contains line "installed" then
    let fields := strings.Fields line in
    if Nat.leb 1 (List.length fields)
    then (true, (packagesChanged ++ [mkPackageRef (nth_field 0 fields) "" "" "snap"])%list)
    else (true, packagesChanged)
  else (changed, packagesChanged).

Definition install_line (pkgs : list PackageRef) (acc : bool * list PackageRef)
    (line : string) : bool * list PackageRef :=
  let '(changed, installed) := acc in
  let line := strings.TrimSpace line in
  if strings.Contains line "installed"
  then (true, append_named line pkgs installed)
  else (changed, installed).

Definition uninstall_line (pkgs : list PackageRef) (acc : bool * list PackageRef)
    (line : string) : bool * list PackageRef :=
  let '(changed, uninstalled) := acc in
  let line := strings.TrimSpace line in
  if strings.Contains line "removed"
  then (true, append_named line pkgs uninstalled)
  else (changed, uninstalled).

Definition search_line (results : list PackageRef) (line : string) : list PackageRef :=
  let line := strings.TrimSpace line in
  if String.eqb line "" then results
  else
    let fields := strings.Fields line in
    if Nat.leb 1 (List.length fields)
    then (results ++ [mkPackageRef (nth_field 0 fields) "" "" "snap"])%list
    else results.

Definition list_line (packages : list InstalledPackage) (line : string)
  : list InstalledPackage :=
  let line := strings.TrimSpace line in
  if String.eqb line "" then packages
  else
    let fields := strings.Fields line in
    if Nat.leb 2 (List.length fields)
    then (packages ++ [mkInstalledPackage (mkPackageRef (nth_field 0 fields) "" "" "snap")
                         (nth_field 1 fields) ""])%list
    else packages.

Section Methods.

Variable helper : HelperAPI.

(** [snap.go] calls [types.NewProgressHelper] with the per-call reporter
    alone; that constructor is not among the sources and is taken as
    given. *)
Variable NewProgressHelper1 : ProgressReporter -> ProgressHelper.

Definition Update (b : Backend) (opts : UpdateOptions)
  : W (UpdateResult * option error) :=
  match runner b with
  | None => ret (zeroUpdateResult, Some (ErrorString ErrNotSupported))
  | Some r =>
      with_helper (NewProgressHelper1 (Progress opts))
        (api_BeginAction helper "Update";;
         defer (api_EndAction helper)
           (api_BeginTask helper "Checking for snap updates";;
            let '(stdout, _, err) :=
              runner.RunWithExternalError r OperationUpdateMetadata "snap" "snap"
                ["refresh"; "--list"] in
            api_EndTask helper;;
            match err with
            | Some e =>
                api_Error helper ("Update check failed: " ++ Error_string e);;
                ret (zeroUpdateResult, Some e)
            | None =>
                let changed := Nat.ltb 0 (String.length (strings.TrimSpace stdout))
                               && negb (strings.Contains stdout "All snaps up to date") in
                api_Info helper "Update check completed";;
                ret (mkUpdateResult changed [], None)
            end))
  end.

Definition Upgrade (b : Backend) (opts : UpgradeOptions)
  : W (UpgradeResult * option error) :=
  match runner b with
  | None => ret (zeroUpgradeResult, Some (ErrorString ErrNotSupported))
  | Some r =>
      with_helper (NewProgressHelper1 (Progress opts))
        (api_BeginAction helper "Upgrade";;
         defer (api_EndAction helper)
           (api_BeginTask helper "Running snap refresh";;
            let '(stdout, _, err) :=
              runner.RunWithExternalError r OperationUpgradePackages "snap" "snap"
                ["refresh"] in
            api_EndTask helper;;
            match err with
            | Some e =>
                api_Error helper ("Upgrade failed: " ++ Error_string e);;
                ret (zeroUpgradeResult, Some e)
            | None =>
                let '(changed, packagesChanged) :=
                  fold_left upgrade_line (strings.Split stdout LF) (false, []) in
                let changed :=
                  if strings.Contains stdout "All snaps up to date" then false else changed in
                (if changed
                 then api_Info helper "Upgrade completed: upgraded snaps"
                 else api_Info helper "Upgrade completed: no snaps needed upgrading");;
                ret (mkUpgradeResult changed packagesChanged [], None)
            end))
  end.

Definition Install (b : Backend) (pkgs : list PackageRef) (opts : InstallOptions)
  : W (InstallResult * option error) :=
  match runner b with
  | None => ret (zeroInstallResult, Some (ErrorString ErrNotSupported))
  | Some r =>
      match pkgs with
      | [] => ret (zeroInstallResult, None)
      | _ =>
        with_helper (NewProgressHelper1 (Progress opts))
          (api_BeginAction helper "Install";;
           defer (api_EndAction helper)
             (let args := "install" :: pkgNames pkgs in
              api_BeginTask helper "Running snap install";;
              let '(stdout, _, err) :=
                runner.RunWithExternalError r OperationInstall "snap" "snap" args in
              api_EndTask helper;;
              match err with
              | Some e =>
                  api_Error helper ("Install failed: " ++ Error_string e);;
                  ret (zeroInstallResult, Some e)
              | None =>
                  let '(changed, installed) :=
                    fold_left (install_line pkgs) (strings.Split stdout LF) (false, []) in
                  let installed :=
                    if changed && Nat.eqb (List.length installed) 0 then pkgs else installed in
                  (if changed
                   then api_Info helper "Install completed: installed snaps"
                   else api_Info helper "Install completed: snaps already installed");;
                  ret (mkInstallResult changed installed [], None)
              end))
      end
  end.

Definition Uninstall (b : Backend) (pkgs : list PackageRef) (opts : UninstallOptions)
  : W (UninstallResult * option error) :=
  match runner b with
  | None => ret (zeroUninstallResult, Some (ErrorString ErrNotSupported))
  | Some r =>
      match pkgs with
      | [] => ret (zeroUninstallResult, None)
      | _ =>
        with_helper (NewProgressHelper1 (Progress opts))
          (api_BeginAction helper "Uninstall";;
           defer (api_EndAction helper)
             (let args := "remove" :: pkgNames pkgs in
              api_BeginTask helper "Running snap remove";;
              let '(stdout, _, err) :=
                runner.RunWithExternalError r OperationUninstall "snap" "snap" args in
              api_EndTask helper;;
              match err with
              | Some e =>
                  api_Error helper ("Uninstall failed: " ++ Error_string e);;
                  ret (zeroUninstallResult, Some e)
              | None =>
                  let '(changed, uninstalled) :=
                    fold_left (uninstall_line pkgs) (strings.Split stdout LF) (false, []) in
                  let uninstalled :=
                    if changed && Nat.eqb (List.length uninstalled) 0 then pkgs else uninstalled in
                  (if changed
                   then api_Info helper "Uninstall completed: removed snaps"
                   else api_Info helper "Uninstall completed: snaps were not installed");;
                  ret (mkUninstallResult changed uninstalled [], None)
              end))
      end
  end.

Definition Search (b : Backend) (query : string) (opts : SearchOptions)
  : W (list PackageRef * option error) :=
  match runner b with
  | None => ret ([], Some (ErrorString ErrNotSupported))
  | Some r =>
      if String.eqb query "" then ret ([], None)
      else
        with_helper (NewProgressHelper1 (Progress opts))
          (api_BeginAction helper "Search";;
           defer (api_EndAction helper)
             (api_BeginTask helper "Running snap find";;
              let '(stdout, _, err) :=
                runner.RunWithExternalError r OperationSearch "snap" "snap"
                  ["find"; query] in
              api_EndTask helper;;
              match err with
              | Some e =>
                  api_Error helper ("Search failed: " ++ Error_string e);;
                  ret ([], Some e)
              | None =>
                  let results := fold_left search_line (tl (strings.Split stdout LF)) [] in
                  api_Info helper "Search completed";;
                  ret (results, None)
              end))
  end.

Definition ListInstalled (b : Backend) (opts : ListOptions)
  : W (list InstalledPackage * option error) :=
  match runner b with
  | None => ret ([], Some (ErrorString ErrNotSupported))
  | Some r =>
      with_helper (NewProgressHelper1 (Progress opts))
        (api_BeginAction helper "ListInstalled";;
         defer (api_EndAction helper)
           (api_BeginTask helper "Running snap list";;
            let '(stdout, _, err) :=
              runner.RunWithExternalError r OperationListInstalled "snap" "snap"
                ["list"] in
            api_EndTask helper;;
            match err with
            | Some e =>
                api_Error helper ("ListInstalled failed: " ++ Error_string e);;
                ret ([], Some e)
            | None =>
                let packages := fold_left list_line (tl (strings.Split stdout LF)) [] in
                api_Info helper "ListInstalled completed";;
                ret (packages, None)
            end))
  end.

End Methods.

End snap.

(** ** The methods that go over HTTP, and the availability probes

    What the HTTP client answers is for the network to decide and is an
    input here. *)

(** [fmt.Sprintf("%d", n)] for a number that is not negative. *)
Definition decimal (n : nat) : string := NilEmpty.string_of_uint (Nat.to_uint n).

(** [fmt.Errorf(msg + ": %w", err)] *)
Definition Errorf_w (msg : string) (err : error) : error :=
  wrapError (msg ++ ": " ++ Error_string err) err.

(** An exchange with an HTTP server: the request cannot be made, or the
    transport fails, or the server answers with a status code. *)
Inductive Exchange (Body : Type) :=
| RequestError (e : error)
| TransportError (e : error)
| Answer (status : nat) (body : Body).

Arguments RequestError {Body} e.
Arguments TransportError {Body} e.
Arguments Answer {Body} status body.

Definition is_2xx (status : nat) : bool := Nat.leb 200 status && Nat.ltb status 300.

(** [brew.Backend.Available] and [brew.Backend.searchFormulae]
    ([brew.go], [formulae_api.go]). *)
Module brew_http.

(** A formula of the Formulae API. *)
Record formulaInfo := mkFormulaInfo {
  Name : string;
  FullName : string;
  Desc : string
}.

Definition Available (head : Exchange unit) : bool * option error :=
  match head with
  | RequestError e =>
      (false, Some (NotAvailableError "brew" ("failed to create request: " ++ Error_string e)))
  | TransportError e =>
      (false, Some (NotAvailableError "brew"
                      ("failed to reach formulae API: " ++ Error_string e)))
  | Answer status _ =>
      if is_2xx status then (true, None)
      else (false, Some (NotAvailableError "brew" "formulae API returned non-2xx status"))
  end.

(** The body of the answer is a list of formulae, or does not decode.
    [fresh] is where the error for a status other than 200 is allocated;
    [ToLower] is [strings.ToLower] of the Go library. *)
Definition searchFormulae (ToLower : string -> string) (fresh : nat) (get : Exchange (list formulaInfo + error))
    (query : string) : list PackageRef * option error :=
  match get with
  | RequestError e =>
      ([], Some (ExternalFailureError OperationSearch "brew" "" "" []
                   (Some (Errorf_w "failed to create request" e))))
  | TransportError e =>
      ([], Some (ExternalFailureError OperationSearch "brew" "" "" []
                   (Some (Errorf_w "failed to fetch formula list" e))))
  | Answer status body =>
      if negb (Nat.eqb status 200) then
        ([], Some (ExternalFailureError OperationSearch "brew" "" "" []
                     (Some (ErrorString
                              (mkErrorString fresh
                                 ("API returned status " ++ decimal status))))))
      else
        match body with
        | inr e =>
            ([], Some (ExternalFailureError OperationSearch "brew" "" "" []
                         (Some (Errorf_w "failed to parse response" e))))
        | inl formulae =>
            let queryLower := ToLower query in
            (map (fun formula => mkPackageRef (Name formula) "" "" "formula")
               (filter (fun formula =>
                          strings.Contains (ToLower (Name formula)) queryLower)
                  formulae),
             None)
        end
  end.

End brew_http.

(** [snap.Backend.Available] ([snap.go]). *)
Module snap_http.

Definition Available (get : Exchange unit) : bool * option error :=
  match get with
  | RequestError e =>
      (false, Some (NotAvailableError "snap" ("failed to create request: " ++ Error_string e)))
  | TransportError e =>
      (false, Some (NotAvailableError "snap"
                      ("failed to reach snapd API: " ++ Error_string e)))
  | Answer status _ =>
      if is_2xx status then (true, None)
      else (false, Some (NotAvailableError "snap" "snapd API returned non-2xx status"))
  end.

End snap_http.

(** [flatpak.Backend.Available] ([flatpak.go]). *)
Module flatpak_cli.

Definition Available (b : flatpak.Backend) : bool * option error :=
  match flatpak.runner b with
  | None => (false, Some (NotAvailableError "flatpak" "no runner configured"))
  | Some r =>
      let '(stdout, stderr, err) := r "flatpak" ["--version"] in
      match err with
      | Some e =>
          (false, Some (NotAvailableError "flatpak"
                          ("flatpak --version failed: " ++ stderr ++ ": " ++ Error_string e)))
      | None =>
          if Nat.ltb 0 (String.length stdout) then (true, None)
          else (false, Some (NotAvailableError "flatpak"
                               "flatpak --version returned no output"))
      end
  end.

End flatpak_cli.

(* ================================================================== *)
(** * Part II: the vocabulary of the specification *)
(* ================================================================== *)

(** What was reported between world [w] and a later world [w']. *)
Definition emitted (w w' : World) : list (ReporterId * Event) :=
  skipn (List.length (log w)) (log w').

(** Running a helper computation: the value, the helper and the world after. *)
Definition value_of {A} (res : A * (ProgressHelper * World)) : A := fst res.
Definition helper_of {A} (res : A * (ProgressHelper * World)) : ProgressHelper := fst (snd res).
Definition world_of {A} (res : A * (ProgressHelper * World)) : World := snd (snd res).

(** The single active path: the action, task and step that are open. *)
Definition OpenPath : Type :=
  option ProgressAction * option ProgressTask * option ProgressStep.

Definition helper_path (h : ProgressHelper) : OpenPath :=
  (currentAction h, currentTask h, currentStep h).

(** The open path as an observer of the events reconstructs it: an entity is
    open from the event that starts it (zero end time) to the event that ends
    it (non-zero end time); ending a task closes the open step, ending an
    action closes the open task and step. *)
Definition track (p : OpenPath) (ev : Event) : OpenPath :=
  let '(a, t, s) := p in
  match ev with
  | OnAction x => if IsZero (act_EndedAt x) then (Some x, t, s) else (None, None, None)
  | OnTask x => if IsZero (task_EndedAt x) then (a, Some x, s) else (a, None, None)
  | OnStep x => if IsZero (step_EndedAt x) then (a, t, Some x) else (a, t, None)
  | OnMessage _ => (a, t, s)
  end.

Definition open_path (evs : list Event) : OpenPath := fold_left track evs (None, None, None).

Definition action_id (a : option ProgressAction) : string :=
  match a with Some x => act_ID x | None => "" end.
Definition task_id (t : option ProgressTask) : string :=
  match t with Some x => task_ID x | None => "" end.
Definition step_id (s : option ProgressStep) : string :=
  match s with Some x => step_ID x | None => "" end.

(** Event [ev], arriving after the events [pre], names its parents rightly. *)
Definition correlated (pre : list Event) (ev : Event) : Prop :=
  let '(a, t, s) := open_path pre in
  match ev with
  | OnAction _ => True
  | OnTask x =>
      if IsZero (task_EndedAt x)
      then task_ActionID x = action_id a
      else exists x0, t = Some x0 /\ task_ID x = task_ID x0
                      /\ task_ActionID x = task_ActionID x0
  | OnStep x =>
      if IsZero (step_EndedAt x)
      then step_TaskID x = task_id t
      else exists x0, s = Some x0 /\ step_ID x = step_ID x0
                      /\ step_TaskID x = step_TaskID x0
  | OnMessage m =>
      msg_ActionID m = action_id a /\ msg_TaskID m = task_id t /\ msg_StepID m = step_id s
  end.

(** The methods that return an identifier. *)
Definition is_begin (c : HelperCall) : bool :=
  match c with
  | CBeginAction _ | CBeginTask _ | CBeginStep _ => true
  | _ => false
  end.

(** The methods that report a message, with its severity and text. *)
Definition message_call (c : HelperCall) : option (Severity * string) :=
  match c with
  | CInfo text => Some (SeverityInfo, text)
  | CWarning text => Some (SeverityWarning, text)
  | CError text => Some (SeverityError, text)
  | _ => None
  end.

(** The clock of the world never shows the zero time. *)
Definition clock_runs (w : World) : Prop := forall n, IsZero (wall w n) = false.

(** The identifier source of the world: no empty string, no string twice. *)
Definition uuids_sound (w : World) : Prop :=
  (forall n, entropy w n <> "") /\ (forall m n, entropy w m = entropy w n -> m = n).

(** [kept] is what [sanitize] is specified to keep of [raw]. *)
Definition truncated_to (bound : nat) (marker raw kept : string) : Prop :=
  (String.length raw <= bound -> kept = raw) /\
  (bound < String.length raw ->
     kept = substring 0 bound raw ++ marker
     /\ String.length (substring 0 bound raw) = bound
     /\ String.prefix (substring 0 bound raw) raw = true).

(** A backend of any of the three kinds. *)
Inductive AnyBackend :=
| Brew (b : brew.Backend)
| Flatpak (b : flatpak.Backend)
| Snap (b : snap.Backend).

Definition Capabilities_of (b : AnyBackend) : list Capability * option error :=
  match b with
  | Brew b => brew.Capabilities b
  | Flatpak b => flatpak.Capabilities b
  | Snap b => snap.Capabilities b
  end.

(** The arguments a caller passes to an operation. *)
Record CallArgs := mkCallArgs {
  arg_pkgs : list PackageRef;
  arg_query : string;
  arg_opts : Options
}.

(** The error of a computation that returns a result and an error. *)
Definition error_of {A} (m : W (A * option error)) : W (option error) :=
  r <- m;; ret (snd r).

(** The method an operation names, reduced to the error it returns; [None]
    for a name that is none of the six operations the backends implement. *)
Definition invoke (helper : HelperAPI) (new1 : ProgressReporter -> ProgressHelper)
    (b : AnyBackend) (op : Operation) (args : CallArgs) : option (W (option error)) :=
  let pkgs := arg_pkgs args in
  let query := arg_query args in
  let opts := arg_opts args in
  if String.eqb op OperationUpdateMetadata then
    Some match b with
         | Brew b => error_of (brew.Update helper b opts)
         | Flatpak b => error_of (flatpak.Update helper b opts)
         | Snap b => error_of (snap.Update helper new1 b opts)
         end
  else if String.eqb op OperationUpgradePackages then
    Some match b with
         | Brew b => error_of (brew.Upgrade helper b opts)
         | Flatpak b => error_of (flatpak.Upgrade helper b opts)
         | Snap b => error_of (snap.Upgrade helper new1 b opts)
         end
  else if String.eqb op OperationInstall then
    Some match b with
         | Brew b => error_of (brew.Install helper b pkgs opts)
         | Flatpak b => error_of (flatpak.Install helper b pkgs opts)
         | Snap b => error_of (snap.Install helper new1 b pkgs opts)
         end
  else if String.eqb op OperationUninstall then
    Some match b with
         | Brew b => error_of (brew.Uninstall helper b pkgs opts)
         | Flatpak b => error_of (flatpak.Uninstall helper b pkgs opts)
         | Snap b => error_of (snap.Uninstall helper new1 b pkgs opts)
         end
  else if String.eqb op OperationSearch then
    Some match b with
         | Brew b => error_of (brew.Search helper b query opts)
         | Flatpak b => error_of (flatpak.Search helper b query opts)
         | Snap b => error_of (snap.Search helper new1 b query opts)
         end
  else if String.eqb op OperationListInstalled then
    Some match b with
         | Brew b => error_of (brew.ListInstalled helper b opts)
         | Flatpak b => error_of (flatpak.ListInstalled helper b opts)
         | Snap b => error_of (snap.ListInstalled helper new1 b opts)
         end
  else None.

(** A scripted operation: it drives its helper through [calls] and returns
    [result] with the error [err]. *)
Definition scripted {A} (helper : HelperAPI) (defaultReporter overrideReporter : ProgressReporter)
    (calls : list HelperCall) (result : A) (err : option error) : W (A * option error) :=
  with_helper (NewProgressHelper defaultReporter overrideReporter)
    (run helper calls;; ret (result, err)).

(** The capability list of the unit test of [Supports]. *)
Definition test_caps : list Capability :=
  [ mkCapability OperationSearch true "";
    mkCapability OperationInstall false "not implemented";
    mkCapability OperationListInstalled true "" ].

(** A runner that answers every command alike, as the fake runner of the
    tests does. *)
Definition FakeRunner (stdout stderr : string) (err : option error) : runner.Runner :=
  fun _ _ => (stdout, stderr, err).

(** Sample environment: identifiers ["id-"] followed by as many ["i"] as
    identifiers were drawn before, a clock that starts at 1. *)
Definition sample_uuid (n : nat) : string := "id-" ++ string_of_list_ascii (repeat "i"%char n).

Definition sample_world : World := mkWorld sample_uuid 0 S 0 [].

(** Computation [m] returns [a] whatever the state. *)
Definition returns {S A : Type} (m : State S A) (a : A) : Prop := forall s, fst (m s) = a.

(** The calls of the end-to-end scenario of the specification. *)
Definition install_calls : list HelperCall :=
  [ CBeginAction "Install"; CBeginTask "Download"; CBeginStep "Fetch";
    CWarning "slow mirror"; CEndStep; CEndTask; CEndAction ].

(** After [BeginAction], [BeginTask] and [BeginStep] on the sample world. *)
Definition sample_open_helper : ProgressHelper :=
  mkHelper (Some 0)
    (Some (mkAction "id-" "Install" 1 0))
    (Some (mkTask "id-i" "id-" "Download" 2 0))
    (Some (mkStep "id-ii" "id-i" "Fetch" 3 0)).

Definition sample_open_world : World :=
  mkWorld sample_uuid 3 S 3
    [ (0, OnAction (mkAction "id-" "Install" 1 0));
      (0, OnTask (mkTask "id-i" "id-" "Download" 2 0));
      (0, OnStep (mkStep "id-ii" "id-i" "Fetch" 3 0)) ].

(** A task is left open when its action ends; a message follows. *)
Definition late_message_calls : list HelperCall :=
  [ CBeginAction "Install"; CBeginTask "Download"; CEndAction; CWarning "late" ].

(** The events a fresh helper reports during [calls]. *)
Definition events_of (api : HelperAPI) (calls : list HelperCall)
    (defaultReporter overrideReporter : ProgressReporter) (w : World) : list Event :=
  map snd (emitted w (world_of (run api calls
                                  (NewProgressHelper defaultReporter overrideReporter, w)))).

(** Output of [snap refresh]: one snap refreshed, then the all-clear line. *)
Definition snap_refresh_output : string :=
  "core refreshed" ++ LF ++ "All snaps up to date".

(** An output of 600 bytes. *)
Definition long_output : string := string_of_list_ascii (repeat "x"%char 600).

(** An output of 500 characters in 501 bytes: 499 times the letter a, then
    U+00E9 in its UTF-8 encoding, the two bytes 0xC3 0xA9. *)
Definition accented_output : string :=
  string_of_list_ascii (repeat "a"%char 499)
  ++ String (ascii_of_nat 195) (String (ascii_of_nat 169) EmptyString).

(** Output with a no-break space, U+00A0 in UTF-8, between two words. *)
Definition NBSP : string :=
  String (ascii_of_nat 194) (String (ascii_of_nat 160) EmptyString).

(** ** Vocabulary for the backend methods *)

(** Computation [m] returns a value that satisfies [P], whatever the state. *)
Definition yields {S A : Type} (m : State S A) (P : A -> Prop) : Prop :=
  forall s, P (fst (m s)).

(** The six methods of a backend. *)
Inductive Method :=
| MUpdate
| MUpgrade
| MInstall
| MUninstall
| MSearch
| MListInstalled.

(** The operation a method passes to [RunWithExternalError]. *)
Definition operation_of (m : Method) : Operation :=
  match m with
  | MUpdate => OperationUpdateMetadata
  | MUpgrade => OperationUpgradePackages
  | MInstall => OperationInstall
  | MUninstall => OperationUninstall
  | MSearch => OperationSearch
  | MListInstalled => OperationListInstalled
  end.

(** The name a method gives to [BeginAction]. *)
Definition action_name (m : Method) : string :=
  match m with
  | MUpdate => "Update"
  | MUpgrade => "Upgrade"
  | MInstall => "Install"
  | MUninstall => "Uninstall"
  | MSearch => "Search"
  | MListInstalled => "ListInstalled"
  end.

(** What a method returns beside its error. *)
Inductive AnyResult :=
| RUpdate (r : UpdateResult)
| RUpgrade (r : UpgradeResult)
| RInstall (r : InstallResult)
| RUninstall (r : UninstallResult)
| RSearch (l : list PackageRef)
| RListInstalled (l : list InstalledPackage).

Definition tagged {A : Type} (f : A -> AnyResult) (m : W (A * option error))
  : W (AnyResult * option error) :=
  r <- m;; ret (f (fst r), snd r).

(** A method of a backend, called with [args]. *)
Definition call (helper : HelperAPI) (new1 : ProgressReporter -> ProgressHelper)
    (b : AnyBackend) (m : Method) (args : CallArgs) : W (AnyResult * option error) :=
  let pkgs := arg_pkgs args in
  let query := arg_query args in
  let opts := arg_opts args in
  match m, b with
  | MUpdate, Brew b => tagged RUpdate (brew.Update helper b opts)
  | MUpdate, Flatpak b => tagged RUpdate (flatpak.Update helper b opts)
  | MUpdate, Snap b => tagged RUpdate (snap.Update helper new1 b opts)
  | MUpgrade, Brew b => tagged RUpgrade (brew.Upgrade helper b opts)
  | MUpgrade, Flatpak b => tagged RUpgrade (flatpak.Upgrade helper b opts)
  | MUpgrade, Snap b => tagged RUpgrade (snap.Upgrade helper new1 b opts)
  | MInstall, Brew b => tagged RInstall (brew.Install helper b pkgs opts)
  | MInstall, Flatpak b => tagged RInstall (flatpak.Install helper b pkgs opts)
  | MInstall, Snap b => tagged RInstall (snap.Install helper new1 b pkgs opts)
  | MUninstall, Brew b => tagged RUninstall (brew.Uninstall helper b pkgs opts)
  | MUninstall, Flatpak b => tagged RUninstall (flatpak.Uninstall helper b pkgs opts)
  | MUninstall, Snap b => tagged RUninstall (snap.Uninstall helper new1 b pkgs opts)
  | MSearch, Brew b => tagged RSearch (brew.Search helper b query opts)
  | MSearch, Flatpak b => tagged RSearch (flatpak.Search helper b query opts)
  | MSearch, Snap b => tagged RSearch (snap.Search helper new1 b query opts)
  | MListInstalled, Brew b => tagged RListInstalled (brew.ListInstalled helper b opts)
  | MListInstalled, Flatpak b => tagged RListInstalled (flatpak.ListInstalled helper b opts)
  | MListInstalled, Snap b => tagged RListInstalled (snap.ListInstalled helper new1 b opts)
  end.

(** The zero value of a result: [Changed] false, every list empty. *)
Definition is_zero (r : AnyResult) : Prop :=
  match r with
  | RUpdate r => r = zeroUpdateResult
  | RUpgrade r => r = zeroUpgradeResult
  | RInstall r => r = zeroInstallResult
  | RUninstall r => r = zeroUninstallResult
  | RSearch l => l = []
  | RListInstalled l => l = []
  end.

Definition backend_name (b : AnyBackend) : string :=
  match b with
  | Brew _ => "brew"
  | Flatpak _ => "flatpak"
  | Snap _ => "snap"
  end.

Definition runner_of (b : AnyBackend) : option runner.Runner :=
  match b with
  | Brew b => brew.runner b
  | Flatpak b => flatpak.runner b
  | Snap b => snap.runner b
  end.

(** The arguments of the one command a method runs. *)
Definition command_args (b : AnyBackend) (m : Method) (args : CallArgs) : list string :=
  let names := pkgNames (arg_pkgs args) in
  match b, m with
  | Brew _, MUpdate => ["update"]
  | Brew _, MUpgrade => ["upgrade"]
  | Brew _, MInstall => "install" :: names
  | Brew _, MUninstall => "uninstall" :: names
  | Brew _, MSearch => []
  | Brew _, MListInstalled => ["list"; "--versions"]
  | Flatpak _, MUpdate => ["update"; "--appstream"]
  | Flatpak _, MUpgrade => ["update"; "-y"]
  | Flatpak _, MInstall => "install" :: "-y" :: names
  | Flatpak _, MUninstall => "uninstall" :: "-y" :: names
  | Flatpak _, MSearch => ["search"; arg_query args]
  | Flatpak _, MListInstalled =>
      ["list"; "--app"; "--columns=name,application,version,installation"]
  | Snap _, MUpdate => ["refresh"; "--list"]
  | Snap _, MUpgrade => ["refresh"]
  | Snap _, MInstall => "install" :: names
  | Snap _, MUninstall => "remove" :: names
  | Snap _, MSearch => ["find"; arg_query args]
  | Snap _, MListInstalled => ["list"]
  end.

(** The method goes as far as its command: it has what it needs to work on,
    and it works through the runner. *)
Definition runs_command (b : AnyBackend) (m : Method) (args : CallArgs) : Prop :=
  match m with
  | MInstall | MUninstall => arg_pkgs args <> []
  | MSearch => arg_query args <> "" /\ (forall b', b <> Brew b')
  | _ => True
  end.

(** The flag and the packages of a result. *)
Definition changed_of (r : AnyResult) : bool :=
  match r with
  | RUpdate r => upd_Changed r
  | RUpgrade r => upg_Changed r
  | RInstall r => ins_Changed r
  | RUninstall r => uni_Changed r
  | RSearch _ | RListInstalled _ => false
  end.

Definition packages_of (r : AnyResult) : list PackageRef :=
  match r with
  | RUpdate _ => []
  | RUpgrade r => upg_PackagesChanged r
  | RInstall r => ins_PackagesInstalled r
  | RUninstall r => uni_PackagesUninstalled r
  | RSearch l => l
  | RListInstalled l => map ip_Ref l
  end.

(** The kind a backend gives to the packages it reads off an output. *)
Definition kind_of (b : AnyBackend) : string :=
  match b with
  | Brew _ => "formula"
  | Flatpak _ => "app"
  | Snap _ => "snap"
  end.

(** A package read off an output: it has a name, and the kind of its backend. *)
Definition parsed_package (kind : string) (p : PackageRef) : Prop :=
  pkg_Name p <> "" /\ pkg_Kind p = kind.

(** The methods whose packages are read off the fields of an output line. *)
Definition reads_fields (b : AnyBackend) (m : Method) : bool :=
  match m, b with
  | MUpgrade, _ => true
  | MSearch, Flatpak _ | MSearch, Snap _ => true
  | MListInstalled, Brew _ | MListInstalled, Snap _ => true
  | _, _ => false
  end.

(** The call asks for nothing: no package, or an empty query. *)
Definition asks_nothing (m : Method) (args : CallArgs) : Prop :=
  match m with
  | MInstall | MUninstall => arg_pkgs args = []
  | MSearch => arg_query args = ""
  | _ => False
  end.

(** ** Vocabulary for what the backend methods report *)

(** Computation [body] does what the calls [cs] do, and returns [x]. *)
Definition scripted_by {A : Type} (api : HelperAPI) (body : M A)
    (cs : list HelperCall) (x : A) : Prop :=
  forall s, body s = (x, snd (run api cs s)).

(** The helper a method makes for itself. *)
Definition helper_for (new1 : ProgressReporter -> ProgressHelper)
    (b : AnyBackend) (args : CallArgs) : ProgressHelper :=
  match b with
  | Brew b => NewProgressHelper (brew.progress b) (Progress (arg_opts args))
  | Flatpak b => NewProgressHelper (flatpak.progress b) (Progress (arg_opts args))
  | Snap _ => new1 (Progress (arg_opts args))
  end.

(** The calls of one method: none; or an action around one message; or an
    action around one task, and one message after the task: an error message
    if the method fails, an informational one if not. *)
Definition method_script (m : Method) (failed : bool) (cs : list HelperCall) : Prop :=
  cs = []
  \/ (exists text, failed = false
                   /\ cs = [CBeginAction (action_name m); CInfo text; CEndAction])
  \/ (exists task text,
        cs = [CBeginAction (action_name m); CBeginTask task; CEndTask;
              (if failed then CError text else CInfo text); CEndAction]).

Definition is_failure (err : option error) : bool :=
  match err with Some _ => true | None => false end.

(** The calls close children before parents: no [EndAction] while a task or
    step may be open, no [EndTask] while a step may be open. [taskOpen] and
    [stepOpen] say whether a task, a step, may be open before the calls. *)
Fixpoint closes_children (taskOpen stepOpen : bool) (cs : list HelperCall) : bool :=
  match cs with
  | [] => true
  | c :: rest =>
      match c with
      | CEndAction => negb taskOpen && negb stepOpen && closes_children false false rest
      | CBeginTask _ => closes_children true stepOpen rest
      | CEndTask => negb stepOpen && closes_children false false rest
      | CBeginStep _ => closes_children taskOpen true rest
      | CEndStep => closes_children taskOpen false rest
      | _ => closes_children taskOpen stepOpen rest
      end
  end.

(** The flags cover what the helper has open. *)
Definition covers (taskOpen stepOpen : bool) (h : ProgressHelper) : Prop :=
  reporter h = None
  \/ ((currentTask h <> None -> taskOpen = true)
      /\ (currentStep h <> None -> stepOpen = true)).

(** The events of a method that runs its command, in a world [w]: the action
    starts, the task starts, the task ends, one message, the action ends. *)
Definition bracket_events (w : World) (name task : string) (failed : bool)
    (text : string) : list Event :=
  let id1 := entropy w (uuids w) in
  let id2 := entropy w (S (uuids w)) in
  let t0 := wall w (ticks w) in
  let t1 := wall w (S (ticks w)) in
  let t2 := wall w (S (S (ticks w))) in
  let t3 := wall w (S (S (S (ticks w)))) in
  let t4 := wall w (S (S (S (S (ticks w))))) in
  [ OnAction (mkAction id1 name t0 zeroTime);
    OnTask (mkTask id2 id1 task t1 zeroTime);
    OnTask (mkTask id2 id1 task t1 t2);
    OnMessage (mkMessage (if failed then SeverityError else SeverityInfo) text t3 id1 "" "");
    OnAction (mkAction id1 name t0 t4) ].

(** The backend with another standing reporter. *)
Definition with_progress (p : ProgressReporter) (b : AnyBackend) : AnyBackend :=
  match b with
  | Brew b => Brew (brew.mkBackend (brew.searchFormulae b) (brew.runner b) p)
  | Flatpak b => Flatpak (flatpak.mkBackend (flatpak.runner b) p)
  | Snap b => Snap (snap.mkBackend (snap.runner b) p)
  end.

(** ** Vocabulary for the helper *)

(** The messages among the events, as severity and text. *)
Definition messages_of (evs : list Event) : list (Severity * string) :=
  flat_map (fun ev => match ev with
                      | OnMessage m => [(msg_Severity m, msg_Text m)]
                      | _ => []
                      end) evs.

(** The messages the calls send. *)
Definition messages_sent (cs : list HelperCall) : list (Severity * string) :=
  flat_map (fun c => match message_call c with
                     | Some p => [p]
                     | None => []
                     end) cs.

(** The clock of the world never runs backwards. *)
Definition clock_monotone (w : World) : Prop :=
  forall m n, m <= n -> wall w m <= wall w n.

(** An event does not end before it starts. *)
Definition ends_after_start (ev : Event) : Prop :=
  match ev with
  | OnAction a => IsZero (act_EndedAt a) = true \/ act_StartedAt a <= act_EndedAt a
  | OnTask t => IsZero (task_EndedAt t) = true \/ task_StartedAt t <= task_EndedAt t
  | OnStep s => IsZero (step_EndedAt s) = true \/ step_StartedAt s <= step_EndedAt s
  | OnMessage _ => True
  end.

(** What the helper has open was started at a reading of the clock. *)
Definition started_in_past (h : ProgressHelper) (w : World) : Prop :=
  (forall a, currentAction h = Some a -> exists k, k < ticks w /\ act_StartedAt a = wall w k)
  /\ (forall t, currentTask h = Some t -> exists k, k < ticks w /\ task_StartedAt t = wall w k)
  /\ (forall s, currentStep h = Some s -> exists k, k < ticks w /\ step_StartedAt s = wall w k).

(** Only the NotAvailable kind. *)
Definition only_NotAvailable (err : option error) : Prop :=
  IsNotAvailable err = true /\ IsNotSupported err = false /\ IsExternalFailure err = false.

(** A probe answers yes without an error, or no with a NotAvailable error. *)
Definition probe_answer (res : bool * option error) (yes : Prop) : Prop :=
  (fst res = true <-> yes)
  /\ (fst res = true -> snd res = None)
  /\ (fst res = false -> only_NotAvailable (snd res)).

(** The first [k] bytes of [s] are bytes inside a character. *)
Definition inside_rune (k : nat) (s : string) : Prop :=
  forall i, i < k -> (128 <= utf8.byte_at s i)%N.

(* ================================================================== *)
(** * Part III: properties *)
(* ================================================================== *)

(** ** Capabilities *)

Lemma Supports_true_iff (caps : list Capability) (op : Operation) :
  Supports caps op = true <->
  exists c, In c caps /\ cap_Operation c = op /\ cap_Supported c = true.
Proof.
  induction caps as [|c rest IH]; simpl.
  - split; [discriminate | intros (c & [] & _)].
  - destruct (String.eqb (cap_Operation c) op) eqn:Hop; simpl.
    + apply String.eqb_eq in Hop.
      destruct (cap_Supported c) eqn:Hs.
      * split; [intros _; exists c; auto | reflexivity].
      * rewrite IH. split.
        -- intros (c' & Hin & H1 & H2). exists c'; auto.
        -- intros (c' & [Heq | Hin] & H1 & H2).
           ++ subst c'. congruence.
           ++ exists c'; auto.
    + apply String.eqb_neq in Hop. rewrite IH. split.
      * intros (c' & Hin & H1 & H2). exists c'; auto.
      * intros (c' & [Heq | Hin] & H1 & H2).
        -- subst c'. contradiction.
        -- exists c'; auto.
Qed.

Lemma GetCapability_None (caps : list Capability) (op : Operation) :
  GetCapability caps op = None <-> forall c, In c caps -> cap_Operation c <> op.
Proof.
  induction caps as [|c rest IH]; simpl.
  - split; [intros _ c [] | reflexivity].
  - destruct (String.eqb (cap_Operation c) op) eqn:Hop.
    + apply String.eqb_eq in Hop. split; [discriminate |].
      intros H. exfalso. apply (H c); auto.
    + apply String.eqb_neq in Hop. rewrite IH. split.
      * intros H c' [<- | Hin]; auto.
      * intros H c' Hin. apply H; auto.
Qed.

(** C9. [Supports caps op] is true exactly when some entry of [caps] has the
    operation [op] and is marked supported. It is false when [caps] has no
    entry for [op] ([GetCapability] finds none), and false when every entry for
    [op] is marked unsupported. *)
Theorem Supports_spec (caps : list Capability) (op : Operation) :
  (Supports caps op = true <->
     exists c, In c caps /\ cap_Operation c = op /\ cap_Supported c = true)
  /\ (GetCapability caps op = None -> Supports caps op = false)
  /\ ((forall c, In c caps -> cap_Operation c = op -> cap_Supported c = false) ->
      Supports caps op = false).
Proof.
  split; [apply Supports_true_iff |]. split.
  - intros Hnone. rewrite GetCapability_None in Hnone.
    destruct (Supports caps op) eqn:Hs; [|reflexivity].
    apply Supports_true_iff in Hs. destruct Hs as (c & Hin & Hop & _).
    exfalso. exact (Hnone c Hin Hop).
  - intros Hall.
    destruct (Supports caps op) eqn:Hs; [|reflexivity].
    apply Supports_true_iff in Hs. destruct Hs as (c & Hin & Hop & Hsup).
    rewrite (Hall c Hin Hop) in Hsup. discriminate.
Qed.

Lemma Supports_spec_witness :
  Supports test_caps OperationSearch = true
  /\ Supports test_caps OperationUpgradePackages = false
  /\ Supports test_caps OperationInstall = false.
Proof.
  split; [| split].
  - apply (proj1 (Supports_spec test_caps OperationSearch)).
    exists (mkCapability OperationSearch true ""). simpl. auto.
  - apply (proj1 (proj2 (Supports_spec test_caps OperationUpgradePackages))).
    reflexivity.
  - apply (proj2 (proj2 (Supports_spec test_caps OperationInstall))).
    intros c [<- | [<- | [<- | []]]]; simpl; intros H; (reflexivity || discriminate H).
Defined.

(** ** The error taxonomy *)

Lemma Unwrap_chain_len (e e' : error) :
  Unwrap e = Some e' -> chain_len e = S (chain_len e').
Proof.
  destruct e as [s | op b r | b r | op b so se p [inner|] | m inner];
    simpl; intros H; inversion H; subst; reflexivity.
Qed.

Lemma chain_len_pos (e : error) : exists k, chain_len e = S k.
Proof.
  destruct e as [s | op b r | b r | op b so se p [inner|] | m inner];
    simpl; eauto.
Qed.

(** The fuel [errors_Is] gives its loop is enough: more fuel changes nothing. *)
Lemma is_loop_fuel (target : errorString) (n : nat) :
  forall e, chain_len e <= n -> is_loop n e target = is_loop (chain_len e) e target.
Proof.
  induction n as [|n IH]; intros e Hle.
  - destruct (chain_len_pos e) as [k Hk]. lia.
  - destruct (chain_len_pos e) as [k Hk]. rewrite Hk. simpl.
    destruct (same_errorString e target); [reflexivity |].
    destruct (Unwrap e) as [e'|] eqn:Hu; [| reflexivity].
    pose proof (Unwrap_chain_len _ _ Hu) as Hlen.
    assert (k = chain_len e') by lia. subst k.
    apply IH. lia.
Qed.

Lemma as_loop_fuel (n : nat) :
  forall e, chain_len e <= n -> as_loop n e = as_loop (chain_len e) e.
Proof.
  induction n as [|n IH]; intros e Hle.
  - destruct (chain_len_pos e) as [k Hk]. lia.
  - destruct (chain_len_pos e) as [k Hk]. rewrite Hk. simpl.
    assert (Hstep : forall e', Unwrap e = Some e' ->
                               as_loop n e' = as_loop k e').
    { intros e' Hu. pose proof (Unwrap_chain_len _ _ Hu) as Hlen.
      assert (k = chain_len e') by lia. subst k. apply IH. lia. }
    destruct e as [s | op b r | b r | op b so se p inner | m inner];
      try reflexivity; simpl; apply Hstep; reflexivity.
Qed.

Lemma errors_Is_wrap (msg : string) (e : error) (target : errorString) :
  errors_Is (Some (wrapError msg e)) target = errors_Is (Some e) target.
Proof. reflexivity. Qed.

Lemma errors_Is_add_context (ctx : list string) (e : error) (target : errorString) :
  errors_Is (Some (add_context ctx e)) target = errors_Is (Some e) target.
Proof.
  induction ctx as [|m ctx IH]; [reflexivity |].
  simpl add_context. rewrite errors_Is_wrap. exact IH.
Qed.

Lemma errors_As_add_context (ctx : list string) (e : error) :
  errors_As_ExternalFailure (Some (add_context ctx e)) = errors_As_ExternalFailure (Some e).
Proof.
  induction ctx as [|m ctx IH]; [reflexivity |]. exact IH.
Qed.

Lemma IsExternalFailure_add_context (ctx : list string) (e : error) :
  IsExternalFailure (Some (add_context ctx e)) = IsExternalFailure (Some e).
Proof.
  unfold IsExternalFailure. rewrite errors_As_add_context. reflexivity.
Qed.

(** C3. Each of the three predicates is false on the nil error and on an
    unrelated error made by [errors.New] (any allocation other than the two
    sentinels), bare or under added context; each is true on the bare form of its kind (the sentinel, or a
    plain [ExternalFailureError]) and on its kind with context added: the
    struct that wraps the sentinel, and either form under any number of
    [fmt.Errorf("...%w")] layers. *)
Theorem detection_predicates
    (generic : errorString) (ctx : list string)
    (op : Operation) (backend reason stdout stderr : string)
    (payload : list (string * string)) (cause : option error) :
  es_addr generic <> es_addr ErrNotSupported ->
  es_addr generic <> es_addr ErrNotAvailable ->
  (IsNotSupported None = false /\ IsNotAvailable None = false
   /\ IsExternalFailure None = false)
  /\ (IsNotSupported (Some (add_context ctx (ErrorString generic))) = false
      /\ IsNotAvailable (Some (add_context ctx (ErrorString generic))) = false
      /\ IsExternalFailure (Some (add_context ctx (ErrorString generic))) = false)
  /\ (IsNotSupported (Some (ErrorString ErrNotSupported)) = true
      /\ IsNotSupported (Some (NotSupportedError op backend reason)) = true
      /\ IsNotSupported (Some (add_context ctx (ErrorString ErrNotSupported))) = true
      /\ IsNotSupported (Some (add_context ctx (NotSupportedError op backend reason))) = true)
  /\ (IsNotAvailable (Some (ErrorString ErrNotAvailable)) = true
      /\ IsNotAvailable (Some (NotAvailableError backend reason)) = true
      /\ IsNotAvailable (Some (add_context ctx (ErrorString ErrNotAvailable))) = true
      /\ IsNotAvailable (Some (add_context ctx (NotAvailableError backend reason))) = true)
  /\ (IsExternalFailure
        (Some (ExternalFailureError op backend stdout stderr payload cause)) = true
      /\ IsExternalFailure
           (Some (add_context ctx
                    (ExternalFailureError op backend stdout stderr payload cause))) = true).
Proof.
  intros Hns Hna.
  split; [repeat split |].
  split.
  { unfold IsNotSupported, IsNotAvailable.
    rewrite !errors_Is_add_context, IsExternalFailure_add_context.
    unfold IsExternalFailure. simpl.
    apply Nat.eqb_neq in Hns. apply Nat.eqb_neq in Hna.
    simpl in Hns, Hna. rewrite Hns, Hna. repeat split. }
  split.
  { unfold IsNotSupported. rewrite !errors_Is_add_context. repeat split. }
  split.
  { unfold IsNotAvailable. rewrite !errors_Is_add_context. repeat split. }
  rewrite IsExternalFailure_add_context.
  unfold IsExternalFailure, errors_As_ExternalFailure.
  destruct (chain_len_pos (ExternalFailureError op backend stdout stderr payload cause))
    as [k Hk].
  rewrite Hk. simpl. split; reflexivity.
Qed.

Lemma detection_predicates_witness :
  IsNotSupported
    (Some (add_context ["install failed"; "cannot continue"]
             (ErrorString (mkErrorString 7 "something else")))) = false
  /\ IsNotSupported
       (Some (add_context ["install failed"; "cannot continue"]
                (NotSupportedError OperationInstall "stub" ""))) = true.
Proof.
  pose proof (detection_predicates (mkErrorString 7 "something else")
                ["install failed"; "cannot continue"]
                OperationInstall "stub" "" "" "" [] None) as H.
  simpl in H.
  assert (H7 : 7 <> 0) by lia. assert (H7' : 7 <> 1) by lia.
  destruct (H H7 H7') as (_ & (Hg & _) & (_ & _ & _ & Hw) & _).
  split; [exact Hg | exact Hw].
Defined.

(** ** The command runner *)

Lemma substring_prefix_length (n : nat) :
  forall s, n <= String.length s -> String.length (substring 0 n s) = n.
Proof.
  induction n as [|n IH]; intros s Hle.
  - destruct s; reflexivity.
  - destruct s as [|c s]; simpl in *; [lia |].
    rewrite IH; [reflexivity | lia].
Qed.

Lemma substring_is_prefix (n : nat) :
  forall s, String.prefix (substring 0 n s) s = true.
Proof.
  induction n as [|n IH]; intros s.
  - destruct s; reflexivity.
  - destruct s as [|c s]; simpl; [reflexivity |].
    destruct (ascii_dec c c) as [_ | Hne]; [apply IH | contradiction].
Qed.

Lemma sanitize_truncates (s : string) :
  truncated_to 500 "... (truncated)" s (runner.sanitize s).
Proof.
  unfold truncated_to, runner.sanitize, runner.maxLen.
  destruct (Nat.ltb 500 (String.length s)) eqn:Hlt.
  - apply Nat.ltb_lt in Hlt. split; [lia |].
    intros _. split; [reflexivity |]. split.
    + apply substring_prefix_length. lia.
    + apply substring_is_prefix.
  - apply Nat.ltb_ge in Hlt. split; [reflexivity | lia].
Qed.

(** C8. When the command fails, [RunWithExternalError] returns an
    [ExternalFailureError] whose captured stdout and stderr are the raw output
    unchanged if it has at most 500 bytes, and otherwise its first 500 bytes
    followed by the marker ["... (truncated)"]. *)
Theorem external_failure_output_truncated
    (r : runner.Runner) (operation : Operation) (backend name : string)
    (args : list string) (stdout stderr : string) (e : error) :
  r name args = (stdout, stderr, Some e) ->
  exists out err,
    runner.RunWithExternalError r operation backend name args =
      (stdout, stderr,
       Some (ExternalFailureError operation backend out err [] (Some e)))
    /\ truncated_to 500 "... (truncated)" stdout out
    /\ truncated_to 500 "... (truncated)" stderr err.
Proof.
  intros Hrun.
  exists (runner.sanitize stdout), (runner.sanitize stderr).
  unfold runner.RunWithExternalError. rewrite Hrun.
  split; [reflexivity |].
  split; apply sanitize_truncates.
Qed.

Lemma external_failure_output_truncated_witness :
  exists out err,
    runner.RunWithExternalError
      (FakeRunner "some output" long_output
         (Some (ErrorString (mkErrorString 9 "command failed"))))
      OperationInstall "test-backend" "test-command" ["arg1"] =
      ("some output", long_output,
       Some (ExternalFailureError OperationInstall "test-backend" out err []
               (Some (ErrorString (mkErrorString 9 "command failed")))))
    /\ out = "some output"
    /\ err = substring 0 500 long_output ++ "... (truncated)"
    /\ String.length (substring 0 500 long_output) = 500.
Proof.
  destruct (external_failure_output_truncated
              (FakeRunner "some output" long_output
                 (Some (ErrorString (mkErrorString 9 "command failed"))))
              OperationInstall "test-backend" "test-command" ["arg1"]
              "some output" long_output
              (ErrorString (mkErrorString 9 "command failed")) eq_refl)
    as (out & err & Hrun & [Hshort _] & [_ Hlong]).
  exists out, err. split; [exact Hrun |].
  split; [apply Hshort; vm_compute; repeat constructor |].
  destruct Hlong as (Herr & Hlen & _);
    [apply Nat.ltb_lt; vm_compute; reflexivity | auto].
Defined.

(** C8, as stated with characters: an output of 500 characters that takes
    501 bytes is not passed through unchanged. It is cut after 500 bytes,
    inside its last character, and the marker is appended. *)
Lemma output_of_500_characters_is_cut :
  utf8.RuneCountInString accented_output = 500
  /\ exists out,
       runner.RunWithExternalError
         (FakeRunner accented_output ""
            (Some (ErrorString (mkErrorString 9 "command failed"))))
         OperationInstall "test-backend" "test-command" ["arg1"] =
         (accented_output, "",
          Some (ExternalFailureError OperationInstall "test-backend" out "" []
                  (Some (ErrorString (mkErrorString 9 "command failed")))))
       /\ out <> accented_output
       /\ out = substring 0 500 accented_output ++ "... (truncated)"
       /\ utf8.DecodeLastRuneInString (substring 0 500 accented_output)
          = (utf8.RuneError, 1).
Proof.
  split; [vm_compute; reflexivity |].
  exists (runner.sanitize accented_output).
  split; [reflexivity |].
  split; [| split; vm_compute; reflexivity].
  intros H. apply (f_equal String.length) in H.
  assert (Hneq : Nat.eqb (String.length (runner.sanitize accented_output))
                   (String.length accented_output) = false)
    by (vm_compute; reflexivity).
  rewrite H, Nat.eqb_refl in Hneq. discriminate.
Qed.

(** ** The state monad *)

Lemma returns_ret {S A : Type} (a : A) : returns (S := S) (ret a) a.
Proof. intros s. reflexivity. Qed.

Lemma returns_bind {S A B : Type} (m : State S A) (k : A -> State S B) (b : B) :
  (forall x, returns (k x) b) -> returns (bind m k) b.
Proof. intros H s. unfold bind. destruct (m s) as [x s']. apply H. Qed.

Lemma returns_defer {A : Type} (d : M unit) (body : M A) (a : A) :
  returns body a -> returns (defer d body) a.
Proof.
  intros H s. unfold defer, bind, ret.
  specialize (H s). destruct (body s) as [x s1]. destruct (d s1) as [u s2].
  exact H.
Qed.

Lemma returns_with_helper {A : Type} (h : ProgressHelper) (body : M A) (a : A) :
  returns body a -> returns (with_helper h body) a.
Proof.
  intros H w. unfold with_helper. specialize (H (h, w)).
  destruct (body (h, w)) as [x [h' w']]. exact H.
Qed.

Ltac solve_returns :=
  repeat first
    [ apply returns_ret
    | apply returns_with_helper
    | apply returns_defer
    | apply returns_bind; intros ? ].

(** What an operation returns does not depend on what its helper reports. *)
Lemma scripted_returns {A : Type} (helper : HelperAPI)
    (defaultReporter overrideReporter : ProgressReporter)
    (calls : list HelperCall) (result : A) (err : option error) (w : World) :
  fst (scripted helper defaultReporter overrideReporter calls result err w) = (result, err).
Proof.
  unfold scripted, with_helper, bind, ret.
  destruct (run helper calls _) as [ids [h' w']]. reflexivity.
Qed.

(** ** The progress helper: what one call does *)

Ltac unfold_monad :=
  unfold bind, ret, getH, set_currentAction, set_currentTask, set_currentStep,
    uuid_New_String, time_Now, emit in *.

Ltac unfold_progress :=
  unfold progress.Info, progress.Warning, progress.Error, progress.message,
    progress.BeginAction, progress.EndAction, progress.BeginTask, progress.EndTask,
    progress.BeginStep, progress.EndStep in *;
  unfold_monad.

Lemma emitted_app (w w' : World) (evs : list (ReporterId * Event)) :
  log w' = (log w ++ evs)%list -> emitted w w' = evs.
Proof.
  intros H. unfold emitted. rewrite H.
  rewrite skipn_app, skipn_all, Nat.sub_diag. reflexivity.
Qed.

Lemma emitted_same (w : World) : emitted w w = [].
Proof. apply emitted_app. rewrite app_nil_r. reflexivity. Qed.

Lemma map_snd_pair (r : ReporterId) (evs : list Event) :
  map snd (map (pair r) evs) = evs.
Proof. induction evs as [|e evs IH]; simpl; [| rewrite IH]; reflexivity. Qed.

Lemma run_cons (api : HelperAPI) (c : HelperCall) (cs : list HelperCall)
    (s : ProgressHelper * World) :
  run api (c :: cs) s =
    let '(r, s1) := exec api c s in
    let '(ids, s2) := run api cs s1 in
    (match r with Some id => id :: ids | None => ids end, s2).
Proof. reflexivity. Qed.

(** Without a reporter every method returns at once. *)
Lemma exec_progress_inactive (c : HelperCall) (h : ProgressHelper) (w : World) :
  reporter h = None ->
  exec progress.API c (h, w) =
    (match c with
     | CBeginAction _ | CBeginTask _ | CBeginStep _ => Some ""
     | _ => None
     end, (h, w)).
Proof.
  intros Hr. destruct h as [rp a t s]. simpl in Hr. subst rp.
  destruct c; reflexivity.
Qed.

Lemma run_progress_inactive (cs : list HelperCall) (h : ProgressHelper) (w : World) :
  reporter h = None ->
  helper_of (run progress.API cs (h, w)) = h
  /\ world_of (run progress.API cs (h, w)) = w
  /\ Forall (fun id => id = "") (value_of (run progress.API cs (h, w))).
Proof.
  intros Hr. induction cs as [|c cs IH].
  - repeat split. constructor.
  - destruct IH as (IHh & IHw & IHv).
    rewrite run_cons, (exec_progress_inactive c h w Hr).
    unfold helper_of, world_of, value_of in *.
    destruct (run progress.API cs (h, w)) as [ids [h' w']]. simpl in *.
    repeat split; auto.
    destruct c; simpl; auto.
Qed.

(** With a reporter, one call reports at most one event; it keeps the
    reporter and the two sources of the world; a call that returns an
    identifier draws exactly one, and returns it. *)
Lemma exec_progress_active (c : HelperCall) (h : ProgressHelper) (w : World) (r : ReporterId) :
  reporter h = Some r ->
  let res := exec progress.API c (h, w) in
  reporter (helper_of res) = Some r
  /\ entropy (world_of res) = entropy w
  /\ wall (world_of res) = wall w
  /\ (exists evs, log (world_of res) = (log w ++ map (pair r) evs)%list
                  /\ List.length evs <= 1)
  /\ (if is_begin c
      then value_of res = Some (entropy w (uuids w))
           /\ uuids (world_of res) = S (uuids w)
      else value_of res = None /\ uuids (world_of res) = uuids w).
Proof.
  intros Hr. destruct h as [rp a t s]. simpl in Hr. subst rp.
  destruct c; simpl; unfold_progress; simpl.
  - repeat split; auto. eexists [_]; split; [reflexivity | simpl; lia].
  - destruct a; simpl; repeat split; auto.
    + eexists [_]; split; [reflexivity | simpl; lia].
    + exists []; split; [simpl; rewrite app_nil_r; reflexivity | simpl; lia].
  - repeat split; auto. eexists [_]; split; [reflexivity | simpl; lia].
  - destruct t; simpl; repeat split; auto.
    + eexists [_]; split; [reflexivity | simpl; lia].
    + exists []; split; [simpl; rewrite app_nil_r; reflexivity | simpl; lia].
  - repeat split; auto. eexists [_]; split; [reflexivity | simpl; lia].
  - destruct s; simpl; repeat split; auto.
    + eexists [_]; split; [reflexivity | simpl; lia].
    + exists []; split; [simpl; rewrite app_nil_r; reflexivity | simpl; lia].
  - repeat split; auto. eexists [_]; split; [reflexivity | simpl; lia].
  - repeat split; auto. eexists [_]; split; [reflexivity | simpl; lia].
  - repeat split; auto. eexists [_]; split; [reflexivity | simpl; lia].
Qed.

(** ** The sample world *)

Lemma sample_clock_runs : clock_runs sample_world.
Proof. intros n. reflexivity. Qed.

Lemma sample_uuid_length (n : nat) : String.length (sample_uuid n) = 3 + n.
Proof.
  unfold sample_uuid. simpl. do 3 f_equal.
  induction n as [|n IH]; simpl; [| rewrite IH]; reflexivity.
Qed.

Lemma sample_uuids_sound : uuids_sound sample_world.
Proof.
  split; simpl.
  - intros n H. apply (f_equal String.length) in H.
    rewrite sample_uuid_length in H. discriminate.
  - intros m n H. apply (f_equal String.length) in H.
    rewrite !sample_uuid_length in H. lia.
Qed.

(** ** Construction and identifiers *)

Lemma run_progress_ids (r : ReporterId) (cs : list HelperCall) :
  forall (h : ProgressHelper) (w : World),
  reporter h = Some r ->
  let res := run progress.API cs (h, w) in
  let k := List.length (filter is_begin cs) in
  value_of res = map (entropy w) (seq (uuids w) k)
  /\ uuids (world_of res) = uuids w + k
  /\ entropy (world_of res) = entropy w
  /\ reporter (helper_of res) = Some r.
Proof.
  induction cs as [|c cs IH]; intros h w Hr.
  - simpl. unfold helper_of, world_of, value_of. simpl. repeat split; auto.
  - cbv zeta. rewrite run_cons.
    pose proof (exec_progress_active c h w r Hr) as Hact. cbv zeta in Hact.
    destruct (exec progress.API c (h, w)) as [v [h1 w1]].
    unfold helper_of, world_of, value_of in *. simpl in Hact.
    destruct Hact as (Hr1 & Hent & _ & _ & Hid).
    specialize (IH h1 w1 Hr1). cbv zeta in IH.
    destruct (run progress.API cs (h1, w1)) as [ids [h2 w2]]. simpl in *.
    destruct IH as (Hids & Hu & Hent2 & Hr2).
    destruct (is_begin c); destruct Hid as (-> & Hu1); simpl.
    + rewrite Hids, Hent, Hu1. repeat split; auto; try congruence. lia.
    + rewrite Hids, Hent, Hu1. repeat split; auto; try congruence.
Qed.

(** Everything a helper reports goes to its reporter. *)
Lemma run_progress_log (r : ReporterId) (cs : list HelperCall) :
  forall (h : ProgressHelper) (w : World),
  reporter h = Some r ->
  exists evs,
    log (world_of (run progress.API cs (h, w))) = (log w ++ map (pair r) evs)%list.
Proof.
  induction cs as [|c cs IH]; intros h w Hr.
  - exists []. simpl. rewrite app_nil_r. reflexivity.
  - rewrite run_cons.
    pose proof (exec_progress_active c h w r Hr) as Hact. cbv zeta in Hact.
    destruct (exec progress.API c (h, w)) as [v [h1 w1]].
    unfold helper_of, world_of, value_of in *. simpl in Hact.
    destruct Hact as (Hr1 & _ & _ & (evs1 & Hlog1 & _) & _).
    destruct (IH h1 w1 Hr1) as (evs2 & Hlog2).
    destruct (run progress.API cs (h1, w1)) as [ids [h2 w2]]. simpl in *.
    exists (evs1 ++ evs2)%list.
    rewrite Hlog2, Hlog1, map_app, app_assoc. reflexivity.
Qed.

Lemma NoDup_map_injective {A B : Type} (f : A -> B) (l : list A) :
  (forall x y, f x = f y -> x = y) -> NoDup l -> NoDup (map f l).
Proof.
  intros Hinj Hnd. induction Hnd as [|x l Hnotin Hnd IH]; simpl; constructor.
  - intros Hin. apply in_map_iff in Hin. destruct Hin as (y & Heq & Hy).
    apply Hinj in Heq. subst y. contradiction.
  - exact IH.
Qed.

Lemma fresh_ids_NoDup (w : World) (k : nat) :
  uuids_sound w ->
  let ids := map (entropy w) (seq (uuids w) k) in
  NoDup ids
  /\ Forall (fun id => id <> "") ids
  /\ (forall id, In id ids -> ~ In id (issued w)).
Proof.
  intros [Hne Hinj]. cbv zeta. split; [| split].
  - apply NoDup_map_injective; [exact Hinj | apply seq_NoDup].
  - apply Forall_forall. intros id Hin. apply in_map_iff in Hin.
    destruct Hin as (n & <- & _). apply Hne.
  - intros id Hin Hold. unfold issued in Hold.
    apply in_map_iff in Hin. destruct Hin as (n & <- & Hn).
    apply in_map_iff in Hold. destruct Hold as (m & Heq & Hm).
    apply Hinj in Heq. subst m.
    apply in_seq in Hn. apply in_seq in Hm. lia.
Qed.

(** C5. [NewProgressHelper] takes the override reporter if there is one and
    the default reporter otherwise. With neither, any sequence of calls leaves
    the helper and the world as they were and every identifier returned is
    the empty string. With a reporter, and an identifier source that never
    yields the empty string nor a string twice, the identifiers a sequence of
    calls returns (one per Begin call) are non-empty, pairwise distinct, were
    not drawn before by anyone, and count as drawn afterwards; and every
    event reported goes to that reporter. *)
Theorem NewProgressHelper_resolves
    (defaultReporter : ProgressReporter) (override r : ReporterId)
    (calls : list HelperCall) (h : ProgressHelper) (w : World) :
  reporter h = Some r ->
  uuids_sound w ->
  (* precedence *)
  (reporter (NewProgressHelper defaultReporter (Some override)) = Some override
   /\ reporter (NewProgressHelper defaultReporter None) = defaultReporter)
  (* neither reporter: nothing happens, the identifiers are empty *)
  /\ (let res := run progress.API calls (NewProgressHelper None None, w) in
      helper_of res = NewProgressHelper None None
      /\ world_of res = w
      /\ Forall (fun id => id = "") (value_of res))
  (* a reporter: every Begin returns a fresh identifier *)
  /\ (let res := run progress.API calls (h, w) in
      let ids := value_of res in
      List.length ids = List.length (filter is_begin calls)
      /\ Forall (fun id => id <> "") ids
      /\ NoDup ids
      /\ (forall id, In id ids -> ~ In id (issued w))
      /\ (forall id, In id ids -> In id (issued (world_of res)))
      /\ (forall id, In id (issued w) -> In id (issued (world_of res)))
      /\ Forall (fun ev => fst ev = r) (emitted w (world_of res))).
Proof.
  intros Hr Hsound.
  split; [split; reflexivity |].
  split; [apply run_progress_inactive; reflexivity |].
  cbv zeta.
  destruct (run_progress_ids r calls h w Hr) as (Hids & Hu & Hent & _).
  destruct (fresh_ids_NoDup w (List.length (filter is_begin calls)) Hsound)
    as (Hnodup & Hne & Hfresh).
  cbv zeta in Hnodup, Hne, Hfresh. rewrite <- Hids in Hnodup, Hne, Hfresh.
  split; [rewrite Hids, length_map, length_seq; reflexivity |].
  split; [exact Hne |]. split; [exact Hnodup |]. split; [exact Hfresh |].
  unfold issued. rewrite Hent, Hu. split; [| split].
  - intros id Hin. rewrite Hids in Hin. apply in_map_iff in Hin.
    destruct Hin as (n & <- & Hn). apply in_map. apply in_seq in Hn. apply in_seq. lia.
  - intros id Hin. apply in_map_iff in Hin.
    destruct Hin as (n & <- & Hn). apply in_map. apply in_seq in Hn. apply in_seq. lia.
  - destruct (run_progress_log r calls h w Hr) as (evs & Hlog).
    rewrite (emitted_app _ _ _ Hlog). apply Forall_forall.
    intros ev Hin. apply in_map_iff in Hin. destruct Hin as (e & <- & _). reflexivity.
Qed.

Lemma NewProgressHelper_resolves_witness :
  NoDup (value_of (run progress.API install_calls
                     (NewProgressHelper None (Some 0), sample_world))).
Proof.
  pose proof (NewProgressHelper_resolves None 0 0 install_calls
                (NewProgressHelper None (Some 0)) sample_world
                eq_refl sample_uuids_sound) as H.
  exact (proj1 (proj2 (proj2 (proj2 (proj2 H))))).
Defined.

(** ** Cascading close *)

(** C2. On a helper with a reporter: [BeginAction] reports the action it
    makes current. If an action is current, [EndAction] reports that action
    again, same identifier, with the end time read from the clock (not zero),
    and clears the current action, task and step, so that a [BeginTask] that
    follows reports a task with empty [ActionID]. If a task is current,
    [EndTask] reports it again with its end time and clears the current task
    and step, so that a [BeginStep] that follows reports a step with empty
    [TaskID]. *)
Theorem ending_cascades (h : ProgressHelper) (w : World) (r : ReporterId) :
  reporter h = Some r ->
  IsZero (wall w (ticks w)) = false ->
  (* BeginAction reports the action it makes current *)
  (forall name,
     let res := progress.BeginAction name (h, w) in
     exists a0,
       emitted w (world_of res) = [(r, OnAction a0)]
       /\ currentAction (helper_of res) = Some a0
       /\ act_ID a0 = value_of res /\ IsZero (act_EndedAt a0) = true)
  (* EndAction *)
  /\ (forall a, currentAction h = Some a ->
      let res := progress.EndAction (h, w) in
      let h1 := helper_of res in
      let w1 := world_of res in
      (exists a',
         emitted w w1 = [(r, OnAction a')]
         /\ act_ID a' = act_ID a /\ act_Name a' = act_Name a
         /\ act_StartedAt a' = act_StartedAt a
         /\ act_EndedAt a' = wall w (ticks w) /\ IsZero (act_EndedAt a') = false)
      /\ reporter h1 = Some r
      /\ currentAction h1 = None /\ currentTask h1 = None /\ currentStep h1 = None
      /\ (forall name,
            let res2 := progress.BeginTask name (h1, w1) in
            exists t,
              emitted w1 (world_of res2) = [(r, OnTask t)]
              /\ task_ActionID t = "" /\ task_ID t = value_of res2
              /\ task_Name t = name))
  (* EndTask *)
  /\ (forall t, currentTask h = Some t ->
      let res := progress.EndTask (h, w) in
      let h1 := helper_of res in
      let w1 := world_of res in
      (exists t',
         emitted w w1 = [(r, OnTask t')]
         /\ task_ID t' = task_ID t /\ task_ActionID t' = task_ActionID t
         /\ task_Name t' = task_Name t /\ task_StartedAt t' = task_StartedAt t
         /\ task_EndedAt t' = wall w (ticks w) /\ IsZero (task_EndedAt t') = false)
      /\ reporter h1 = Some r
      /\ currentAction h1 = currentAction h
      /\ currentTask h1 = None /\ currentStep h1 = None
      /\ (forall name,
            let res2 := progress.BeginStep name (h1, w1) in
            exists s,
              emitted w1 (world_of res2) = [(r, OnStep s)]
              /\ step_TaskID s = "" /\ step_ID s = value_of res2
              /\ step_Name s = name)).
Proof.
  intros Hr Hclock. destruct h as [rp ca ct cs]. simpl in Hr. subst rp.
  split; [| split].
  - intros name. cbv zeta. unfold helper_of, world_of, value_of.
    unfold_progress. simpl.
    eexists. split; [apply emitted_app; reflexivity |]. simpl. repeat split; auto.
  - intros a Ha. simpl in Ha. subst ca.
    cbv zeta. unfold helper_of, world_of, value_of.
    unfold_progress. simpl. split.
    + eexists. split; [apply emitted_app; reflexivity |]. simpl. repeat split; auto.
    + repeat split. intros name. eexists.
      split; [apply emitted_app; reflexivity |]. simpl. repeat split; auto.
  - intros t Ht. simpl in Ht. subst ct.
    cbv zeta. unfold helper_of, world_of, value_of.
    unfold_progress. simpl. split.
    + eexists. split; [apply emitted_app; reflexivity |]. simpl. repeat split; auto.
    + repeat split. intros name. eexists.
      split; [apply emitted_app; reflexivity |]. simpl. repeat split; auto.
Qed.

Lemma ending_cascades_witness :
  let res := progress.EndAction (sample_open_helper, sample_open_world) in
  currentAction (helper_of res) = None
  /\ currentTask (helper_of res) = None
  /\ currentStep (helper_of res) = None.
Proof.
  pose proof (ending_cascades sample_open_helper sample_open_world 0 eq_refl eq_refl)
    as (_ & Hend & _).
  destruct (Hend _ eq_refl) as (_ & _ & Ha & Ht & Hs & _).
  exact (conj Ha (conj Ht Hs)).
Defined.

(** With no action current [EndAction] returns at once, and so does [EndTask]
    with no task current: an orphaned task or step stays open. *)
Lemma End_without_parent (h : ProgressHelper) (w : World) :
  (currentAction h = None -> progress.EndAction (h, w) = (tt, (h, w)))
  /\ (currentTask h = None -> progress.EndTask (h, w) = (tt, (h, w))).
Proof.
  destruct h as [[r|] a t s]; simpl; split; intros ->; reflexivity.
Qed.

(** ** Correlation of events *)

Lemma open_path_snoc (pre : list Event) (ev : Event) :
  open_path (pre ++ [ev]) = track (open_path pre) ev.
Proof. unfold open_path. rewrite fold_left_app. reflexivity. Qed.

(** One call keeps the helper in step with the open path an observer
    reconstructs from the events. *)
Lemma exec_progress_tracks (c : HelperCall) (h : ProgressHelper) (w : World)
    (r : ReporterId) (pre : list Event) :
  reporter h = Some r ->
  IsZero (wall w (ticks w)) = false ->
  helper_path h = open_path pre ->
  let res := exec progress.API c (h, w) in
  exists evs,
    log (world_of res) = (log w ++ map (pair r) evs)%list
    /\ helper_path (helper_of res) = open_path (pre ++ evs)
    /\ (evs = [] \/ exists ev, evs = [ev] /\ correlated pre ev).
Proof.
  intros Hr Hclock Hpath. destruct h as [rp a t s]. simpl in Hr. subst rp.
  unfold helper_path in Hpath. simpl in Hpath.
  assert (Hnil : forall l : list (ReporterId * Event), l = (l ++ map (pair r) [])%list).
  { intros l. simpl. rewrite app_nil_r. reflexivity. }
  destruct c; simpl; unfold_progress; simpl.
  - eexists [_]. split; [reflexivity |]. split.
    + rewrite open_path_snoc, <- Hpath. reflexivity.
    + right. eexists. split; [reflexivity |]. unfold correlated.
      rewrite <- Hpath. exact I.
  - destruct a as [x|]; simpl.
    + eexists [_]. split; [reflexivity |]. split.
      * rewrite open_path_snoc, <- Hpath. simpl. rewrite Hclock. reflexivity.
      * right. eexists. split; [reflexivity |]. unfold correlated.
        rewrite <- Hpath. exact I.
    + exists []. split; [apply Hnil |]. split; [rewrite app_nil_r; exact Hpath | auto].
  - eexists [_]. split; [reflexivity |]. split.
    + rewrite open_path_snoc, <- Hpath. reflexivity.
    + right. eexists. split; [reflexivity |]. unfold correlated.
      rewrite <- Hpath. simpl. destruct a; reflexivity.
  - destruct t as [x|]; simpl.
    + eexists [_]. split; [reflexivity |]. split.
      * rewrite open_path_snoc, <- Hpath. simpl. rewrite Hclock. reflexivity.
      * right. eexists. split; [reflexivity |]. unfold correlated.
        rewrite <- Hpath. simpl. rewrite Hclock. exists x. auto.
    + exists []. split; [apply Hnil |]. split; [rewrite app_nil_r; exact Hpath | auto].
  - eexists [_]. split; [reflexivity |]. split.
    + rewrite open_path_snoc, <- Hpath. reflexivity.
    + right. eexists. split; [reflexivity |]. unfold correlated.
      rewrite <- Hpath. simpl. destruct t; reflexivity.
  - destruct s as [x|]; simpl.
    + eexists [_]. split; [reflexivity |]. split.
      * rewrite open_path_snoc, <- Hpath. simpl. rewrite Hclock. reflexivity.
      * right. eexists. split; [reflexivity |]. unfold correlated.
        rewrite <- Hpath. simpl. rewrite Hclock. exists x. auto.
    + exists []. split; [apply Hnil |]. split; [rewrite app_nil_r; exact Hpath | auto].
  - eexists [_]. split; [reflexivity |]. split.
    + rewrite open_path_snoc, <- Hpath. reflexivity.
    + right. eexists. split; [reflexivity |]. unfold correlated.
      rewrite <- Hpath. simpl. destruct a, t, s; auto.
  - eexists [_]. split; [reflexivity |]. split.
    + rewrite open_path_snoc, <- Hpath. reflexivity.
    + right. eexists. split; [reflexivity |]. unfold correlated.
      rewrite <- Hpath. simpl. destruct a, t, s; auto.
  - eexists [_]. split; [reflexivity |]. split.
    + rewrite open_path_snoc, <- Hpath. reflexivity.
    + right. eexists. split; [reflexivity |]. unfold correlated.
      rewrite <- Hpath. simpl. destruct a, t, s; auto.
Qed.

Lemma run_progress_tracks (r : ReporterId) (cs : list HelperCall) :
  forall (h : ProgressHelper) (w : World) (pre : list Event),
  reporter h = Some r ->
  clock_runs w ->
  helper_path h = open_path pre ->
  let res := run progress.API cs (h, w) in
  exists evs,
    log (world_of res) = (log w ++ map (pair r) evs)%list
    /\ helper_path (helper_of res) = open_path (pre ++ evs)
    /\ (forall p ev q, evs = (p ++ ev :: q)%list -> correlated (pre ++ p) ev).
Proof.
  induction cs as [|c cs IH]; intros h w pre Hr Hclock Hpath.
  - exists []. simpl. rewrite !app_nil_r. repeat split; auto.
    intros p ev q H. destruct p; discriminate.
  - cbv zeta. rewrite run_cons.
    pose proof (exec_progress_active c h w r Hr) as Hact.
    pose proof (exec_progress_tracks c h w r pre Hr (Hclock _) Hpath) as Htr.
    cbv zeta in Hact, Htr.
    destruct (exec progress.API c (h, w)) as [v [h1 w1]].
    unfold helper_of, world_of, value_of in *. simpl in Hact, Htr.
    destruct Hact as (Hr1 & _ & Hwall & _ & _).
    destruct Htr as (evs1 & Hlog1 & Hpath1 & Hcorr1).
    assert (Hclock1 : clock_runs w1).
    { intros n. rewrite Hwall. apply Hclock. }
    specialize (IH h1 w1 (pre ++ evs1)%list Hr1 Hclock1 Hpath1). cbv zeta in IH.
    destruct (run progress.API cs (h1, w1)) as [ids [h2 w2]]. simpl in *.
    destruct IH as (evs2 & Hlog2 & Hpath2 & Hcorr2).
    exists (evs1 ++ evs2)%list. split; [| split].
    + rewrite Hlog2, Hlog1, map_app, app_assoc. reflexivity.
    + rewrite app_assoc. exact Hpath2.
    + intros p ev q Heq.
      destruct Hcorr1 as [-> | (ev1 & -> & Hc1)].
      * simpl in Heq. specialize (Hcorr2 p ev q Heq).
        rewrite app_nil_r in Hcorr2. exact Hcorr2.
      * destruct p as [|e0 p]; simpl in Heq.
        -- injection Heq as <- _. rewrite app_nil_r. exact Hc1.
        -- injection Heq as <- Heq. specialize (Hcorr2 p ev q Heq).
           rewrite <- app_assoc in Hcorr2. exact Hcorr2.
Qed.



(** The end-to-end scenario of the specification, on the sample world. *)
Example install_scenario :
  events_of progress.API
    [ CBeginAction "Install"; CBeginTask "Download"; CWarning "slow mirror";
      CEndTask; CEndAction ] None (Some 0) sample_world =
    [ OnAction (mkAction "id-" "Install" 1 0);
      OnTask (mkTask "id-i" "id-" "Download" 2 0);
      OnMessage (mkMessage SeverityWarning "slow mirror" 3 "id-" "id-i" "");
      OnTask (mkTask "id-i" "id-" "Download" 2 4);
      OnAction (mkAction "id-" "Install" 1 5) ].
Proof. reflexivity. Qed.

(** ** Messages *)

(** C7, amended. [Info], [Warning] and [Error] return nothing and leave the
    helper as it was. With a reporter they report exactly one message, of the
    severity of the method, with the given text, the time of the clock and the
    identifiers of the open action, task and step; without a reporter they
    report nothing and leave the world as it was. An operation that drives its
    helper through any calls and returns a nil error returns that nil error to
    its caller. *)
Theorem messages_leave_state
    (c : HelperCall) (severity : Severity) (text : string)
    (h : ProgressHelper) (w : World) :
  message_call c = Some (severity, text) ->
  (let res := exec progress.API c (h, w) in
   value_of res = None
   /\ helper_of res = h
   /\ uuids (world_of res) = uuids w
   /\ match reporter h with
      | Some r =>
          emitted w (world_of res) =
            [(r, OnMessage (mkMessage severity text (wall w (ticks w))
                              (action_id (currentAction h))
                              (task_id (currentTask h))
                              (step_id (currentStep h))))]
      | None => world_of res = w
      end)
  /\ (forall (A : Type) (defaultReporter overrideReporter : ProgressReporter)
             (calls : list HelperCall) (result : A) (w0 : World),
        fst (scripted progress.API defaultReporter overrideReporter calls result None w0)
        = (result, None)).
Proof.
  intros Hc. split; [| intros; apply scripted_returns].
  destruct h as [[r|] a t s]; destruct c; try discriminate Hc;
    injection Hc as <- <-; cbv zeta; unfold helper_of, world_of, value_of;
    simpl; unfold_progress; simpl; repeat split;
    apply emitted_app; reflexivity.
Qed.

Lemma messages_leave_state_witness :
  helper_of (exec progress.API (CWarning "slow mirror")
               (sample_open_helper, sample_open_world)) = sample_open_helper.
Proof.
  pose proof (messages_leave_state (CWarning "slow mirror") SeverityWarning "slow mirror"
                sample_open_helper sample_open_world eq_refl) as (H & _).
  exact (proj1 (proj2 H)).
Defined.

(** C7 as stated does not hold: a helper without a reporter reports no
    message at all. *)
Lemma Warning_without_reporter_reports_nothing :
  emitted sample_world
    (world_of (exec progress.API (CWarning "slow mirror")
                 (NewProgressHelper None None, sample_world))) = []
  /\ ~ (exists r m,
          emitted sample_world
            (world_of (exec progress.API (CWarning "slow mirror")
                         (NewProgressHelper None None, sample_world)))
          = [(r, OnMessage m)]).
Proof.
  split; [reflexivity |]. intros (r & m & H). discriminate H.
Qed.

(** ** The two helpers compared *)

(** The two helpers do the same in every call but [EndAction] with a task or
    step still open and [EndTask] with a step still open. *)
Lemma helpers_agree_step (c : HelperCall) (h : ProgressHelper) (w : World) :
  (c = CEndAction -> currentTask h = None /\ currentStep h = None) ->
  (c = CEndTask -> currentStep h = None) ->
  exec types.API c (h, w) = exec progress.API c (h, w).
Proof.
  intros HA HT. destruct h as [[r|] a t s]; destruct c; try reflexivity; simpl in *.
  - destruct (HA eq_refl) as [-> ->]. destruct a; reflexivity.
  - destruct a; reflexivity.
  - rewrite (HT eq_refl). destruct t; reflexivity.
  - destruct t; reflexivity.
  - destruct s; reflexivity.
Qed.

(** C10. The two helpers do not report the same events: after
    [BeginAction], [BeginTask] and [EndAction], a warning carries no task
    identifier from the helper of package [progress], and the identifier of
    the task that was left open from the helper of package [types]. *)
Theorem helpers_diverge :
  events_of progress.API late_message_calls None (Some 0) sample_world =
    [ OnAction (mkAction "id-" "Install" 1 0);
      OnTask (mkTask "id-i" "id-" "Download" 2 0);
      OnAction (mkAction "id-" "Install" 1 3);
      OnMessage (mkMessage SeverityWarning "late" 4 "" "" "") ]
  /\ events_of types.API late_message_calls None (Some 0) sample_world =
    [ OnAction (mkAction "id-" "Install" 1 0);
      OnTask (mkTask "id-i" "id-" "Download" 2 0);
      OnAction (mkAction "id-" "Install" 1 3);
      OnMessage (mkMessage SeverityWarning "late" 4 "" "id-i" "") ]
  /\ events_of progress.API late_message_calls None (Some 0) sample_world
     <> events_of types.API late_message_calls None (Some 0) sample_world.
Proof.
  split; [reflexivity |]. split; [reflexivity |]. discriminate.
Qed.

(** ** The backends *)

Lemma brew_parse :
  fold_left brew.upgrade_line (strings.Split "==> Upgrading" LF) (false, []) = (true, []).
Proof. vm_compute. reflexivity. Qed.

Lemma flatpak_parse :
  fold_left flatpak.upgrade_line (strings.Split "Updating" LF) (false, []) = (true, []).
Proof. vm_compute. reflexivity. Qed.

Lemma snap_parse :
  fold_left snap.upgrade_line (strings.Split snap_refresh_output LF) (false, [])
  = (true, [mkPackageRef "core" "" "" "snap"])
  /\ strings.Contains snap_refresh_output "All snaps up to date" = true.
Proof. vm_compute. split; reflexivity. Qed.

(** The error [brew.Upgrade] returns is the error of the command, whatever
    the helper reports on the way: a command that succeeds gives a nil error. *)
Lemma brew_Upgrade_error (helper : HelperAPI) (b : brew.Backend) (opts : UpgradeOptions)
    (r : runner.Runner) :
  brew.runner b = Some r ->
  exists result,
    returns (brew.Upgrade helper b opts)
      (result,
       snd (runner.RunWithExternalError r OperationUpgradePackages "brew" "brew" ["upgrade"])).
Proof.
  intros Hr. unfold brew.Upgrade. rewrite Hr.
  unfold runner.RunWithExternalError.
  destruct (r "brew" ["upgrade"]) as [[out errout] [e|]]; cbv beta iota zeta.
  - eexists. solve_returns.
  - destruct (fold_left brew.upgrade_line (strings.Split out LF) (false, []))
      as [[|] packages]; eexists; solve_returns.
Qed.

(** C1. [Changed] and [PackagesChanged] disagree in results the [Upgrade]
    methods return: brew on the output ["==> Upgrading"] and flatpak on the
    output ["Updating"] return [Changed = true] with no package; snap, on an
    output with a refreshed snap and the line ["All snaps up to date"],
    returns [Changed = false] with one package. *)
Theorem Upgrade_breaks_Changed_contract
    (helper : HelperAPI) (new1 : ProgressReporter -> ProgressHelper)
    (sf : string -> list PackageRef * option error)
    (standing : ProgressReporter) (opts : UpgradeOptions) (w : World) :
  fst (brew.Upgrade helper
         (brew.mkBackend sf (Some (FakeRunner "==> Upgrading" "" None)) standing) opts w)
    = (mkUpgradeResult true [] [], None)
  /\ fst (flatpak.Upgrade helper
            (flatpak.mkBackend (Some (FakeRunner "Updating" "" None)) standing) opts w)
    = (mkUpgradeResult true [] [], None)
  /\ fst (snap.Upgrade helper new1
            (snap.mkBackend (Some (FakeRunner snap_refresh_output "" None)) standing) opts w)
    = (mkUpgradeResult false [mkPackageRef "core" "" "" "snap"] [], None).
Proof.
  split; [| split]; revert w.
  - change (returns (brew.Upgrade helper
              (brew.mkBackend sf (Some (FakeRunner "==> Upgrading" "" None)) standing) opts)
              (mkUpgradeResult true [] [], None)).
    unfold brew.Upgrade, runner.RunWithExternalError, FakeRunner.
    cbv beta iota zeta delta [brew.runner].
    rewrite brew_parse. cbv beta iota zeta. solve_returns.
  - change (returns (flatpak.Upgrade helper
              (flatpak.mkBackend (Some (FakeRunner "Updating" "" None)) standing) opts)
              (mkUpgradeResult true [] [], None)).
    unfold flatpak.Upgrade, runner.RunWithExternalError, FakeRunner.
    cbv beta iota zeta delta [flatpak.runner].
    rewrite flatpak_parse. cbv beta iota zeta. solve_returns.
  - change (returns (snap.Upgrade helper new1
              (snap.mkBackend (Some (FakeRunner snap_refresh_output "" None)) standing) opts)
              (mkUpgradeResult false [mkPackageRef "core" "" "" "snap"] [], None)).
    unfold snap.Upgrade, runner.RunWithExternalError, FakeRunner.
    cbv beta iota zeta delta [snap.runner].
    destruct snap_parse as [-> ->]. cbv beta iota zeta. solve_returns.
Qed.

(** C4. For each of the three backends and each entry of its capability list
    that is marked unsupported, the method of that operation returns an error
    for which [IsNotSupported] holds (and reports nothing). *)
Theorem unsupported_operation_is_NotSupported
    (helper : HelperAPI) (new1 : ProgressReporter -> ProgressHelper)
    (b : AnyBackend) (c : Capability) (args : CallArgs) (w : World) :
  In c (fst (Capabilities_of b)) ->
  cap_Supported c = false ->
  exists method,
    invoke helper new1 b (cap_Operation c) args = Some method
    /\ IsNotSupported (fst (method w)) = true
    /\ snd (method w) = w.
Proof.
  intros Hin Hunsup.
  destruct b as [[sf [r|] p] | [[r|] p] | [[r|] p]]; simpl in Hin;
    repeat (destruct Hin as [<- | Hin]; [| try contradiction]);
    simpl in Hunsup; try discriminate Hunsup;
    (eexists; split; [reflexivity | split; reflexivity]).
Qed.

Lemma unsupported_operation_is_NotSupported_witness :
  exists method,
    invoke types.API (NewProgressHelper None) (Snap (snap.mkBackend None None))
      OperationUpgradePackages (mkCallArgs [] "" (mkOptions None)) = Some method
    /\ IsNotSupported (fst (method sample_world)) = true
    /\ snd (method sample_world) = sample_world.
Proof.
  apply (unsupported_operation_is_NotSupported types.API (NewProgressHelper None)
           (Snap (snap.mkBackend None None))
           (mkCapability OperationUpgradePackages false "via snap refresh CLI")).
  - simpl. auto.
  - reflexivity.
Defined.

(* ================================================================== *)
(** * Part IV: further properties of the code *)
(* ================================================================== *)

(** ** The backend methods: what they return *)

Lemma yields_ret {S A : Type} (a : A) (P : A -> Prop) : P a -> yields (S := S) (ret a) P.
Proof. intros H s. exact H. Qed.

Lemma yields_bind {S A B : Type} (m : State S A) (k : A -> State S B) (P : B -> Prop) :
  (forall x, yields (k x) P) -> yields (bind m k) P.
Proof. intros H s. unfold bind. destruct (m s) as [x s']. apply H. Qed.

Lemma yields_defer {A : Type} (d : M unit) (body : M A) (P : A -> Prop) :
  yields body P -> yields (defer d body) P.
Proof.
  intros H s. unfold defer, bind, ret.
  specialize (H s). destruct (body s) as [x s1]. destruct (d s1) as [u s2].
  exact H.
Qed.

Lemma yields_with_helper {A : Type} (h : ProgressHelper) (body : M A) (P : A -> Prop) :
  yields body P -> yields (with_helper h body) P.
Proof.
  intros H w. unfold with_helper. specialize (H (h, w)).
  destruct (body (h, w)) as [x [h' w']]. exact H.
Qed.

Lemma yields_tagged {A : Type} (f : A -> AnyResult) (m : W (A * option error))
    (P : AnyResult * option error -> Prop) :
  yields m (fun r => P (f (fst r), snd r)) -> yields (tagged f m) P.
Proof.
  intros H w. unfold tagged, bind, ret. specialize (H w).
  destruct (m w) as [r w']. exact H.
Qed.

Lemma yields_if {S A : Type} (c : bool) (m1 m2 : State S A) (P : A -> Prop) :
  yields m1 P -> yields m2 P -> yields (if c then m1 else m2) P.
Proof. destruct c; auto. Qed.

(** Strips the helper calls off a method body. *)
Ltac strip_helper :=
  repeat match goal with
         | |- yields _ _ =>
             first
               [ apply yields_with_helper
               | apply yields_defer
               | apply yields_if
               | apply yields_bind; intros ?
               | apply yields_ret ]
         end.

Ltac unfold_methods :=
  unfold call, brew.Update, brew.Upgrade, brew.Install, brew.Uninstall, brew.Search,
    brew.ListInstalled, flatpak.Update, flatpak.Upgrade, flatpak.Install,
    flatpak.Uninstall, flatpak.Search, flatpak.ListInstalled, snap.Update,
    snap.Upgrade, snap.Install, snap.Uninstall, snap.Search, snap.ListInstalled.

(** X1. A method that returns an error returns the zero value with it. *)
Theorem error_comes_with_zero_result
    (helper : HelperAPI) (new1 : ProgressReporter -> ProgressHelper)
    (b : AnyBackend) (m : Method) (args : CallArgs) (w : World) :
  let res := fst (call helper new1 b m args w) in
  snd res <> None -> is_zero (fst res).
Proof.
  cbv zeta. revert w.
  change (yields (call helper new1 b m args) (fun r => snd r <> None -> is_zero (fst r))).
  destruct args as [pkgs query opts].
  destruct b as [[sf r p] | [r p] | [r p]]; destruct m; unfold_methods; simpl;
    apply yields_tagged;
    try (destruct r as [r|]; [| apply yields_ret; intros _; reflexivity]);
    try (destruct pkgs as [|pkg pkgs]; [apply yields_ret; simpl; congruence |]);
    try (destruct (String.eqb query "");
         [try (apply yields_ret; simpl; congruence) |]);
    unfold runner.RunWithExternalError;
    try (match goal with
         | |- context [r ?n ?a] => destruct (r n a) as [[out errout] [e|]]
         end);
    try (match goal with
         | |- context [sf ?q] => destruct (sf q) as [results [e|]]
         end);
    cbv beta iota zeta;
    repeat match goal with
           | |- context [fold_left ?f ?l ?a] =>
               destruct (fold_left f l a) as [? ?]
           end;
    strip_helper; simpl; intros Herr; congruence.
Qed.

Lemma error_comes_with_zero_result_witness :
  is_zero
    (fst (fst (call progress.API (NewProgressHelper None)
                 (Snap (snap.mkBackend
                          (Some (FakeRunner "" "boom"
                                   (Some (ErrorString (mkErrorString 9 "exit status 1")))))
                          None))
                 MInstall (mkCallArgs [mkPackageRef "core" "" "" ""] "" (mkOptions None))
                 sample_world))).
Proof.
  apply (error_comes_with_zero_result progress.API (NewProgressHelper None)
           (Snap (snap.mkBackend
                    (Some (FakeRunner "" "boom"
                             (Some (ErrorString (mkErrorString 9 "exit status 1")))))
                    None))
           MInstall (mkCallArgs [mkPackageRef "core" "" "" ""] "" (mkOptions None))
           sample_world).
  vm_compute. discriminate.
Defined.

(** The error of a method is the error of its one command. *)
Lemma call_error_is_command_error
    (helper : HelperAPI) (new1 : ProgressReporter -> ProgressHelper)
    (b : AnyBackend) (m : Method) (args : CallArgs) (r : runner.Runner) (w : World) :
  runner_of b = Some r ->
  runs_command b m args ->
  snd (fst (call helper new1 b m args w)) =
    snd (runner.RunWithExternalError r (operation_of m) (backend_name b)
           (backend_name b) (command_args b m args)).
Proof.
  intros Hr Hruns. revert w.
  change (yields (call helper new1 b m args)
            (fun res => snd res =
               snd (runner.RunWithExternalError r (operation_of m) (backend_name b)
                      (backend_name b) (command_args b m args)))).
  destruct args as [pkgs query opts].
  destruct b as [[sf r' p] | [r' p] | [r' p]]; simpl in Hr; subst r';
    destruct m; simpl in Hruns;
    try (match type of Hruns with
         | _ /\ _ => destruct Hruns as [Hq Hb]; apply String.eqb_neq in Hq
         end);
    try (exfalso; eapply Hb; reflexivity);
    unfold_methods; simpl; try rewrite Hq;
    apply yields_tagged;
    try (destruct pkgs as [|pkg pkgs]; [contradiction |]);
    unfold runner.RunWithExternalError; simpl;
    match goal with
    | |- context [r ?n ?a] => destruct (r n a) as [[out errout] [e|]]
    end;
    cbv beta iota zeta;
    repeat match goal with
           | |- context [fold_left ?f ?l ?a] =>
               destruct (fold_left f l a) as [? ?]
           end;
    strip_helper; reflexivity.
Qed.

(** X2. The error of a method is the error of its one command. *)
Theorem method_error_is_command_error
    (helper : HelperAPI) (new1 : ProgressReporter -> ProgressHelper)
    (b : AnyBackend) (m : Method) (args : CallArgs) (r : runner.Runner) (w : World) :
  runner_of b = Some r ->
  runs_command b m args ->
  snd (fst (call helper new1 b m args w)) =
    snd (runner.RunWithExternalError r (operation_of m) (backend_name b)
           (backend_name b) (command_args b m args)).
Proof.
  exact (call_error_is_command_error helper new1 b m args r w).
Qed.

Lemma method_error_is_command_error_witness :
  snd (fst (call progress.API (NewProgressHelper None)
              (Snap (snap.mkBackend (Some (FakeRunner "" "boom" (Some (ErrorString (mkErrorString 9 "exit status 1"))))) None))
              MInstall (mkCallArgs [mkPackageRef "core" "" "" ""] "" (mkOptions None))
              sample_world))
  = Some (ExternalFailureError OperationInstall "snap" "" "boom" []
            (Some (ErrorString (mkErrorString 9 "exit status 1")))).
Proof.
  rewrite (method_error_is_command_error progress.API (NewProgressHelper None)
             (Snap (snap.mkBackend (Some (FakeRunner "" "boom" (Some (ErrorString (mkErrorString 9 "exit status 1"))))) None))
             MInstall (mkCallArgs [mkPackageRef "core" "" "" ""] "" (mkOptions None))
             (FakeRunner "" "boom" (Some (ErrorString (mkErrorString 9 "exit status 1"))))
             sample_world eq_refl).
  - reflexivity.
  - simpl. discriminate.
Defined.


(** ** Fields of a line *)

Lemma first_range (s0 : N) (sz : nat) (lo hi : N) :
  utf8.first s0 = (sz, lo, hi) -> sz <> 0 -> (128 <= lo)%N /\ sz <= 4.
Proof.
  unfold utf8.first. intros H Hsz.
  repeat match type of H with
         | (if ?c then _ else _) = _ => destruct c
         end;
    injection H as <- <- <-; try (exfalso; apply Hsz; reflexivity);
    split; try lia; discriminate.
Qed.

Lemma continuation_range (b : N) : utf8.continuation b = true -> (128 <= b)%N.
Proof.
  unfold utf8.continuation. intros H. apply andb_true_iff in H.
  destruct H as [H _]. apply N.leb_le in H. exact H.
Qed.

(** What [DecodeRuneInString] passes after the first byte are bytes from 128
    on, and a byte below 128 is a rune by itself. *)
Lemma DecodeRuneInString_width (c : ascii) (s : string) (r : N) (size : nat) :
  utf8.DecodeRuneInString (String c s) = (r, size) ->
  1 <= size
  /\ inside_rune (size - 1) s
  /\ ((N_of_ascii c < 128)%N -> r = N_of_ascii c /\ size = 1).
Proof.
  unfold utf8.DecodeRuneInString.
  change (Nat.ltb (String.length (String c s)) 1) with false. cbv iota.
  change (utf8.byte_at (String c s) 0) with (N_of_ascii c).
  change (utf8.byte_at (String c s) 1) with (utf8.byte_at s 0).
  change (utf8.byte_at (String c s) 2) with (utf8.byte_at s 1).
  change (utf8.byte_at (String c s) 3) with (utf8.byte_at s 2).
  assert (Hone : forall r' : N,
             (r', 1) = (r, size) ->
             ((N_of_ascii c < 128)%N -> r' = N_of_ascii c) ->
             1 <= size /\ inside_rune (size - 1) s
             /\ ((N_of_ascii c < 128)%N -> r = N_of_ascii c /\ size = 1)).
  { intros r' H Hr. injection H as <- <-. split; [lia |].
    split; [intros i Hi; simpl in Hi; lia |]. intros Hc. split; [auto | reflexivity]. }
  destruct (N.ltb (N_of_ascii c) utf8.RuneSelf) eqn:Hascii.
  { intros H. apply (Hone _ H). reflexivity. }
  apply N.ltb_ge in Hascii. unfold utf8.RuneSelf in Hascii.
  assert (Herr : (N_of_ascii c < 128)%N -> utf8.RuneError = N_of_ascii c) by lia.
  assert (Hno : (N_of_ascii c < 128)%N -> r = N_of_ascii c /\ size = 1) by lia.
  destruct (utf8.first (N_of_ascii c)) as [[sz lo] hi] eqn:Hfirst.
  destruct (Nat.eqb sz 0) eqn:Hsz; [intros H; apply (Hone _ H Herr) |].
  apply Nat.eqb_neq in Hsz.
  destruct (first_range _ _ _ _ Hfirst Hsz) as [Hlo _].
  destruct (Nat.ltb (String.length (String c s)) sz); [intros H; apply (Hone _ H Herr) |].
  destruct (N.ltb (utf8.byte_at s 0) lo || N.ltb hi (utf8.byte_at s 0)) eqn:H1;
    [intros H; apply (Hone _ H Herr) |].
  apply orb_false_iff in H1. destruct H1 as [H1 _]. apply N.ltb_ge in H1.
  assert (Hb0 : (128 <= utf8.byte_at s 0)%N) by lia.
  destruct (Nat.leb sz 2).
  { intros H. injection H as _ <-. split; [lia |]. split; [| exact Hno].
    intros i Hi. simpl in Hi. assert (i = 0) as -> by lia. exact Hb0. }
  destruct (utf8.continuation (utf8.byte_at s 1)) eqn:H2;
    [| intros H; apply (Hone _ H Herr)].
  apply continuation_range in H2. cbn [negb].
  destruct (Nat.leb sz 3).
  { intros H. injection H as _ <-. split; [lia |]. split; [| exact Hno].
    intros i Hi. simpl in Hi.
    destruct i as [|[|i]]; [exact Hb0 | exact H2 | lia]. }
  destruct (utf8.continuation (utf8.byte_at s 2)) eqn:H3;
    [| intros H; apply (Hone _ H Herr)].
  apply continuation_range in H3. cbn [negb].
  intros H. injection H as _ <-. split; [lia |]. split; [| exact Hno].
  intros i Hi. simpl in Hi.
  destruct i as [|[|[|i]]]; [exact Hb0 | exact H2 | exact H3 | lia].
Qed.

Lemma inside_rune_tail (k : nat) (c : ascii) (s : string) :
  inside_rune (S k) (String c s) -> (128 <= N_of_ascii c)%N /\ inside_rune k s.
Proof.
  intros H. split.
  - apply (H 0). lia.
  - intros i Hi. apply (H (S i)). lia.
Qed.

Lemma string_of_list_ascii_nil (l : list ascii) :
  string_of_list_ascii l = "" -> l = [].
Proof. destruct l; [reflexivity | discriminate]. Qed.

Lemma flushed_nonempty (c : ascii) (cur : list ascii) :
  string_of_list_ascii (rev (c :: cur)) <> "".
Proof.
  intros H. apply string_of_list_ascii_nil in H.
  apply (f_equal (@List.length ascii)) in H.
  rewrite length_rev in H. discriminate.
Qed.

Lemma fields_nonempty (s : string) :
  forall skip cur f, In f (strings.fields s skip cur) -> f <> "".
Proof.
  induction s as [|c s IH]; intros skip cur f Hin; cbn [strings.fields] in Hin.
  - destruct cur as [|c0 cur]; [contradiction |].
    destruct Hin as [<- | []]. apply flushed_nonempty.
  - destruct skip as [|k]; [| apply (IH _ _ f Hin)].
    destruct (utf8.DecodeRuneInString (String c s)) as [r size].
    destruct (unicode.IsSpace r); [| apply (IH _ _ f Hin)].
    destruct cur as [|c0 cur]; [apply (IH _ _ f Hin) |].
    destruct Hin as [<- | Hin]; [apply flushed_nonempty | apply (IH _ _ f Hin)].
Qed.

Lemma Fields_nonempty (s f : string) : In f (strings.Fields s) -> f <> "".
Proof. apply fields_nonempty. Qed.

Lemma nth_field_nonempty (n : nat) (s : string) :
  n < List.length (strings.Fields s) -> nth_field n (strings.Fields s) <> "".
Proof. intros H. apply (Fields_nonempty s). apply nth_In. exact H. Qed.

(** Without a field, every byte below 128 is a space. *)
Lemma fields_nil (s : string) :
  forall skip cur,
    inside_rune skip s ->
    strings.fields s skip cur = [] ->
    cur = []
    /\ (forall c, In c (list_ascii_of_string s) -> (N_of_ascii c < 128)%N ->
                  unicode.IsSpace (N_of_ascii c) = true).
Proof.
  induction s as [|c s IH]; intros skip cur Hskip H; cbn [strings.fields] in H.
  - destruct cur; [| discriminate]. split; [reflexivity | intros c []].
  - destruct skip as [|k].
    + destruct (utf8.DecodeRuneInString (String c s)) as [r size] eqn:Hdec.
      apply DecodeRuneInString_width in Hdec. destruct Hdec as (_ & Hin & Hascii).
      destruct (unicode.IsSpace r) eqn:Hr.
      * destruct cur; [| discriminate].
        destruct (IH _ _ Hin H) as [_ Hall]. split; [reflexivity |].
        intros c' [<- | Hc'] Hlt; [| auto].
        destruct (Hascii Hlt) as [<- _]. exact Hr.
      * destruct (IH _ _ Hin H) as [Hcur _]. discriminate.
    + apply inside_rune_tail in Hskip. destruct Hskip as [Hc Hskip].
      destruct (IH _ _ Hskip H) as [Hcur Hall].
      split; [destruct cur; [reflexivity | discriminate] |].
      intros c' [<- | Hc'] Hlt; [lia | auto].
Qed.

Lemma prefix_head (c : ascii) (sub s : string) :
  String.prefix (String c sub) s = true -> exists s', s = String c s'.
Proof.
  destruct s as [|c' s']; simpl; [discriminate |].
  destruct (ascii_dec c c') as [<- | _]; [eauto | discriminate].
Qed.

Lemma Contains_head (c : ascii) (sub : string) :
  forall s, strings.Contains s (String c sub) = true -> In c (list_ascii_of_string s).
Proof.
  induction s as [|c' s IH]; intros H.
  - simpl in H. discriminate.
  - unfold strings.Contains in H. fold strings.Contains in H.
    destruct (String.prefix (String c sub) (String c' s)) eqn:Hp.
    + apply prefix_head in Hp. destruct Hp as (s' & Heq).
      injection Heq as <- _. left. reflexivity.
    + right. apply IH. exact H.
Qed.

(** White space outside ASCII separates fields and is trimmed. *)
Example Fields_no_break_space :
  strings.Fields ("==> Upgrading" ++ NBSP ++ "git") = ["==>"; "Upgrading"; "git"]
  /\ strings.TrimSpace (NBSP ++ " git " ++ NBSP) = "git"
  /\ strings.TrimSpace NBSP = "".
Proof. repeat split. Qed.

(** A line that contains a word has a field. *)
Lemma Fields_of_Contains (c : ascii) (sub s : string) :
  (N_of_ascii c < 128)%N ->
  unicode.IsSpace (N_of_ascii c) = false ->
  strings.Contains s (String c sub) = true ->
  1 <= List.length (strings.Fields s).
Proof.
  intros Hlt Hc Hin. apply Contains_head in Hin.
  destruct (strings.Fields s) as [|f fs] eqn:Hf; [| simpl; lia].
  apply fields_nil in Hf; [| intros i Hi; lia]. destruct Hf as [_ Hall].
  rewrite (Hall c Hin Hlt) in Hc. discriminate.
Qed.


(** ** The loops over the lines of an output *)

(** A loop that sets the flag when it appends. *)
Lemma fold_flag_with_packages (kind : string)
    (f : bool * list PackageRef -> string -> bool * list PackageRef) :
  (forall c acc line,
      f (c, acc) line = (c, acc) \/ f (c, acc) line = (true, acc)
      \/ exists p, parsed_package kind p /\ f (c, acc) line = (true, (acc ++ [p])%list)) ->
  forall lines c acc,
    Forall (parsed_package kind) acc -> (acc <> [] -> c = true) ->
    Forall (parsed_package kind) (snd (fold_left f lines (c, acc)))
    /\ (snd (fold_left f lines (c, acc)) <> [] -> fst (fold_left f lines (c, acc)) = true).
Proof.
  intros Hstep. induction lines as [|line lines IH]; intros c acc Hall Hflag.
  - simpl. auto.
  - simpl. destruct (Hstep c acc line) as [-> | [-> | (p & Hp & ->)]].
    + apply IH; auto.
    + apply IH; auto.
    + apply IH; [| auto]. apply Forall_app. auto.
Qed.

(** A loop that appends whenever it sets the flag. *)
Lemma fold_packages_with_flag (kind : string)
    (f : bool * list PackageRef -> string -> bool * list PackageRef) :
  (forall c acc line,
      f (c, acc) line = (c, acc)
      \/ exists p, parsed_package kind p /\ f (c, acc) line = (true, (acc ++ [p])%list)) ->
  forall lines c acc,
    Forall (parsed_package kind) acc -> (c = true -> acc <> []) ->
    Forall (parsed_package kind) (snd (fold_left f lines (c, acc)))
    /\ (fst (fold_left f lines (c, acc)) = true -> snd (fold_left f lines (c, acc)) <> []).
Proof.
  intros Hstep. induction lines as [|line lines IH]; intros c acc Hall Hflag.
  - simpl. auto.
  - simpl. destruct (Hstep c acc line) as [-> | (p & Hp & ->)].
    + apply IH; auto.
    + apply IH; [apply Forall_app; auto |].
      intros _ H. destruct acc; discriminate.
Qed.

Lemma brew_upgrade_line_step (c : bool) (acc : list PackageRef) (line : string) :
  brew.upgrade_line (c, acc) line = (c, acc) \/ brew.upgrade_line (c, acc) line = (true, acc)
  \/ exists p, parsed_package "formula" p
               /\ brew.upgrade_line (c, acc) line = (true, (acc ++ [p])%list).
Proof.
  unfold brew.upgrade_line.
  destruct (strings.Contains line "==> Upgrading"); [| auto].
  destruct (Nat.leb 3 (List.length (strings.Fields line))) eqn:Hlen; [| auto].
  right. right. eexists. split; [| reflexivity]. split; [| reflexivity].
  apply Nat.leb_le in Hlen. apply nth_field_nonempty. lia.
Qed.

Lemma flatpak_upgrade_line_step (c : bool) (acc : list PackageRef) (line : string) :
  flatpak.upgrade_line (c, acc) line = (c, acc)
  \/ flatpak.upgrade_line (c, acc) line = (true, acc)
  \/ exists p, parsed_package "app" p
               /\ flatpak.upgrade_line (c, acc) line = (true, (acc ++ [p])%list).
Proof.
  unfold flatpak.upgrade_line.
  destruct (strings.HasPrefix (strings.TrimSpace line) "Updating"); [| auto].
  destruct (Nat.leb 2 (List.length (strings.Fields (strings.TrimSpace line)))) eqn:Hlen;
    [| auto].
  right. right. eexists. split; [| reflexivity]. split; [| reflexivity].
  apply Nat.leb_le in Hlen. apply nth_field_nonempty. lia.
Qed.

Lemma snap_upgrade_line_step (c : bool) (acc : list PackageRef) (line : string) :
  snap.upgrade_line (c, acc) line = (c, acc)
  \/ exists p, parsed_package "snap" p
               /\ snap.upgrade_line (c, acc) line = (true, (acc ++ [p])%list).
Proof.
  unfold snap.upgrade_line.
  destruct (strings.Contains (strings.TrimSpace line) "refreshed"
            || strings.Contains (strings.TrimSpace line) "installed") eqn:Hmatch; [| auto].
  assert (Hlen : 1 <= List.length (strings.Fields (strings.TrimSpace line))).
  { apply orb_true_iff in Hmatch.
    destruct Hmatch as [H | H]; eapply Fields_of_Contains; try exact H; reflexivity. }
  apply Nat.leb_le in Hlen as Hleb. rewrite Hleb.
  right. eexists. split; [| reflexivity]. split; [| reflexivity].
  apply nth_field_nonempty. lia.
Qed.

(** What [Upgrade] reads off the output. *)
Lemma Upgrade_reads_output
    (helper : HelperAPI) (new1 : ProgressReporter -> ProgressHelper)
    (b : AnyBackend) (args : CallArgs) (w : World) :
  let res := fst (fst (call helper new1 b MUpgrade args w)) in
  Forall (parsed_package (kind_of b)) (packages_of res)
  /\ match b with
     | Snap _ => changed_of res = true -> packages_of res <> []
     | _ => packages_of res <> [] -> changed_of res = true
     end.
Proof.
  cbv zeta. revert w.
  change (yields (call helper new1 b MUpgrade args)
            (fun r => Forall (parsed_package (kind_of b)) (packages_of (fst r))
                      /\ match b with
                         | Snap _ => changed_of (fst r) = true -> packages_of (fst r) <> []
                         | _ => packages_of (fst r) <> [] -> changed_of (fst r) = true
                         end)).
  destruct args as [pkgs query opts].
  destruct b as [[sf [r|] p] | [[r|] p] | [[r|] p]]; unfold_methods; simpl;
    apply yields_tagged;
    try (apply yields_ret; simpl; split; [constructor | congruence]);
    unfold runner.RunWithExternalError;
    match goal with
    | |- context [r ?n ?a] => destruct (r n a) as [[out errout] [e|]]
    end;
    cbv beta iota zeta.
  - strip_helper. simpl. split; [constructor | congruence].
  - pose proof (fold_flag_with_packages "formula" brew.upgrade_line brew_upgrade_line_step
                  (strings.Split out LF) false [] (Forall_nil _)) as Hfold.
    destruct (fold_left brew.upgrade_line (strings.Split out LF) (false, [])) as [c pk].
    strip_helper; simpl in *; apply Hfold; congruence.
  - strip_helper. simpl. split; [constructor | congruence].
  - pose proof (fold_flag_with_packages "app" flatpak.upgrade_line flatpak_upgrade_line_step
                  (strings.Split out LF) false [] (Forall_nil _)) as Hfold.
    destruct (fold_left flatpak.upgrade_line (strings.Split out LF) (false, [])) as [c pk].
    strip_helper; simpl in *; apply Hfold; congruence.
  - strip_helper. simpl. split; [constructor | congruence].
  - pose proof (fold_packages_with_flag "snap" snap.upgrade_line snap_upgrade_line_step
                  (strings.Split out LF) false [] (Forall_nil _)) as Hfold.
    destruct (fold_left snap.upgrade_line (strings.Split out LF) (false, [])) as [c pk].
    simpl in Hfold.
    destruct (strings.Contains out "All snaps up to date");
      strip_helper; simpl; (split; [apply Hfold; congruence |]);
      try congruence; apply Hfold; congruence.
Qed.

(** X3. What [Upgrade] reads off the output. *)
Theorem upgrade_result_shape
    (helper : HelperAPI) (new1 : ProgressReporter -> ProgressHelper)
    (b : AnyBackend) (args : CallArgs) (w : World) :
  let res := fst (fst (call helper new1 b MUpgrade args w)) in
  Forall (parsed_package (kind_of b)) (packages_of res)
  /\ match b with
     | Snap _ => changed_of res = true -> packages_of res <> []
     | _ => packages_of res <> [] -> changed_of res = true
     end.
Proof.
  exact (Upgrade_reads_output helper new1 b args w).
Qed.


Lemma append_named_incl (line : string) (pkgs acc : list PackageRef) :
  incl acc pkgs -> incl (append_named line pkgs acc) pkgs.
Proof.
  intros Hacc. unfold append_named.
  destruct (find _ pkgs) as [pkg|] eqn:Hfind; [| exact Hacc].
  apply find_some in Hfind. destruct Hfind as [Hin _].
  apply incl_app; [exact Hacc |]. intros x [<- | []]. exact Hin.
Qed.

(** A loop that appends requested packages only, and only with the flag set. *)
Lemma fold_requested (pkgs : list PackageRef)
    (f : bool * list PackageRef -> string -> bool * list PackageRef) :
  (forall c acc line,
      f (c, acc) line = (c, acc)
      \/ exists l, f (c, acc) line = (true, append_named l pkgs acc)) ->
  forall lines c acc,
    incl acc pkgs -> (c = false -> acc = []) ->
    incl (snd (fold_left f lines (c, acc))) pkgs
    /\ (fst (fold_left f lines (c, acc)) = false -> snd (fold_left f lines (c, acc)) = []).
Proof.
  intros Hstep. induction lines as [|line lines IH]; intros c acc Hincl Hflag.
  - simpl. auto.
  - simpl. destruct (Hstep c acc line) as [-> | (l & ->)].
    + apply IH; auto.
    + apply IH; [apply append_named_incl; exact Hincl | discriminate].
Qed.

Lemma flatpak_install_line_step (pkgs : list PackageRef) (c : bool)
    (acc : list PackageRef) (line : string) :
  flatpak.install_line pkgs (c, acc) line = (c, acc)
  \/ exists l, flatpak.install_line pkgs (c, acc) line = (true, append_named l pkgs acc).
Proof. unfold flatpak.install_line. destruct (_ || _); eauto. Qed.

Lemma flatpak_uninstall_line_step (pkgs : list PackageRef) (c : bool)
    (acc : list PackageRef) (line : string) :
  flatpak.uninstall_line pkgs (c, acc) line = (c, acc)
  \/ exists l, flatpak.uninstall_line pkgs (c, acc) line = (true, append_named l pkgs acc).
Proof. unfold flatpak.uninstall_line. destruct (_ || _); eauto. Qed.

Lemma snap_install_line_step (pkgs : list PackageRef) (c : bool)
    (acc : list PackageRef) (line : string) :
  snap.install_line pkgs (c, acc) line = (c, acc)
  \/ exists l, snap.install_line pkgs (c, acc) line = (true, append_named l pkgs acc).
Proof. unfold snap.install_line. destruct (strings.Contains _ _); eauto. Qed.

Lemma snap_uninstall_line_step (pkgs : list PackageRef) (c : bool)
    (acc : list PackageRef) (line : string) :
  snap.uninstall_line pkgs (c, acc) line = (c, acc)
  \/ exists l, snap.uninstall_line pkgs (c, acc) line = (true, append_named l pkgs acc).
Proof. unfold snap.uninstall_line. destruct (strings.Contains _ _); eauto. Qed.

(** The result of the loop, with the fallback to all the requested packages. *)
Lemma requested_with_fallback (pkgs : list PackageRef) (c : bool) (acc : list PackageRef) :
  pkgs <> [] -> incl acc pkgs -> (c = false -> acc = []) ->
  let final := if c && Nat.eqb (List.length acc) 0 then pkgs else acc in
  (c = true <-> final <> []) /\ incl final pkgs.
Proof.
  intros Hne Hincl Hflag. cbv zeta. destruct c; simpl.
  - destruct acc as [|x acc]; simpl.
    + split; [tauto | apply incl_refl].
    + split; [| exact Hincl]. split; [discriminate | reflexivity].
  - rewrite (Hflag eq_refl). split; [| apply incl_nil_l].
    split; [discriminate | congruence].
Qed.

(** X4. [Install] and [Uninstall] keep the flag and the list in step. *)
Theorem install_uninstall_result_shape
    (helper : HelperAPI) (new1 : ProgressReporter -> ProgressHelper)
    (b : AnyBackend) (m : Method) (args : CallArgs) (w : World) :
  m = MInstall \/ m = MUninstall ->
  let res := fst (fst (call helper new1 b m args w)) in
  (changed_of res = true <-> packages_of res <> [])
  /\ incl (packages_of res) (arg_pkgs args).
Proof.
  intros Hm. cbv zeta. revert w.
  change (yields (call helper new1 b m args)
            (fun r => (changed_of (fst r) = true <-> packages_of (fst r) <> [])
                      /\ incl (packages_of (fst r)) (arg_pkgs args))).
  assert (Hzero : forall l : list PackageRef,
             (false = true <-> @nil PackageRef <> []) /\ incl [] l).
  { intros l. split; [split; [discriminate | congruence] | apply incl_nil_l]. }
  destruct args as [pkgs query opts].
  destruct Hm as [-> | ->];
    destruct b as [[sf [r|] p] | [[r|] p] | [[r|] p]]; unfold_methods; simpl;
    apply yields_tagged;
    try (apply yields_ret; apply Hzero);
    (destruct pkgs as [|pkg pkgs]; [apply yields_ret; apply Hzero |]);
    unfold runner.RunWithExternalError;
    match goal with
    | |- context [r ?n ?a] => destruct (r n a) as [[out errout] [e|]]
    end;
    cbv beta iota zeta;
    try (strip_helper; apply Hzero).
  - (* brew Install *)
    destruct (fold_left brew.install_line (strings.Split out LF) false);
      strip_helper; simpl; [| apply Hzero].
    split; [split; [discriminate | reflexivity] | apply incl_refl].
  - (* flatpak Install *)
    pose proof (fold_requested (pkg :: pkgs) _ (flatpak_install_line_step (pkg :: pkgs))
                  (strings.Split out LF) false [] (incl_nil_l _) (fun _ => eq_refl)) as [Hi Hf].
    destruct (fold_left (flatpak.install_line (pkg :: pkgs)) (strings.Split out LF) (false, []))
      as [c acc].
    pose proof (requested_with_fallback (pkg :: pkgs) c acc ltac:(discriminate) Hi Hf) as Hfinal.
    strip_helper; exact Hfinal.
  - (* snap Install *)
    pose proof (fold_requested (pkg :: pkgs) _ (snap_install_line_step (pkg :: pkgs))
                  (strings.Split out LF) false [] (incl_nil_l _) (fun _ => eq_refl)) as [Hi Hf].
    destruct (fold_left (snap.install_line (pkg :: pkgs)) (strings.Split out LF) (false, []))
      as [c acc].
    pose proof (requested_with_fallback (pkg :: pkgs) c acc ltac:(discriminate) Hi Hf) as Hfinal.
    strip_helper; exact Hfinal.
  - (* brew Uninstall *)
    destruct (fold_left brew.uninstall_line (strings.Split out LF) false);
      strip_helper; simpl; [| apply Hzero].
    split; [split; [discriminate | reflexivity] | apply incl_refl].
  - (* flatpak Uninstall *)
    pose proof (fold_requested (pkg :: pkgs) _ (flatpak_uninstall_line_step (pkg :: pkgs))
                  (strings.Split out LF) false [] (incl_nil_l _) (fun _ => eq_refl)) as [Hi Hf].
    destruct (fold_left (flatpak.uninstall_line (pkg :: pkgs)) (strings.Split out LF) (false, []))
      as [c acc].
    pose proof (requested_with_fallback (pkg :: pkgs) c acc ltac:(discriminate) Hi Hf) as Hfinal.
    strip_helper; exact Hfinal.
  - (* snap Uninstall *)
    pose proof (fold_requested (pkg :: pkgs) _ (snap_uninstall_line_step (pkg :: pkgs))
                  (strings.Split out LF) false [] (incl_nil_l _) (fun _ => eq_refl)) as [Hi Hf].
    destruct (fold_left (snap.uninstall_line (pkg :: pkgs)) (strings.Split out LF) (false, []))
      as [c acc].
    pose proof (requested_with_fallback (pkg :: pkgs) c acc ltac:(discriminate) Hi Hf) as Hfinal.
    strip_helper; exact Hfinal.
Qed.

Lemma install_uninstall_result_shape_witness :
  changed_of (fst (fst (call progress.API (NewProgressHelper None)
     (Snap (snap.mkBackend (Some (FakeRunner "core installed" "" None)) None))
     MInstall (mkCallArgs [mkPackageRef "core" "" "" ""] "" (mkOptions None))
     sample_world))) = true
  <-> packages_of (fst (fst (call progress.API (NewProgressHelper None)
     (Snap (snap.mkBackend (Some (FakeRunner "core installed" "" None)) None))
     MInstall (mkCallArgs [mkPackageRef "core" "" "" ""] "" (mkOptions None))
     sample_world))) <> [].
Proof.
  exact (proj1 (install_uninstall_result_shape progress.API (NewProgressHelper None)
     (Snap (snap.mkBackend (Some (FakeRunner "core installed" "" None)) None))
     MInstall (mkCallArgs [mkPackageRef "core" "" "" ""] "" (mkOptions None))
     sample_world (or_introl eq_refl))).
Defined.


(** A loop that appends to a list, one element a line at most. *)
Lemma fold_appends {X : Type} (P : X -> Prop) (f : list X -> string -> list X) :
  (forall acc line, f acc line = acc \/ exists x, P x /\ f acc line = (acc ++ [x])%list) ->
  forall lines acc, Forall P acc -> Forall P (fold_left f lines acc).
Proof.
  intros Hstep. induction lines as [|line lines IH]; intros acc Hacc; simpl.
  - exact Hacc.
  - destruct (Hstep acc line) as [-> | (x & Hx & ->)]; apply IH; auto.
    apply Forall_app. auto.
Qed.

Lemma flatpak_search_line_step (acc : list PackageRef) (line : string) :
  flatpak.search_line acc line = acc
  \/ exists p, parsed_package "app" p /\ flatpak.search_line acc line = (acc ++ [p])%list.
Proof.
  unfold flatpak.search_line.
  destruct (String.eqb (strings.TrimSpace line) ""); [auto |].
  destruct (Nat.leb 3 (List.length (strings.Fields (strings.TrimSpace line)))) eqn:Hlen;
    [| auto].
  right. eexists. split; [| reflexivity]. split; [| reflexivity].
  apply Nat.leb_le in Hlen. apply nth_field_nonempty. lia.
Qed.

Lemma snap_search_line_step (acc : list PackageRef) (line : string) :
  snap.search_line acc line = acc
  \/ exists p, parsed_package "snap" p /\ snap.search_line acc line = (acc ++ [p])%list.
Proof.
  unfold snap.search_line.
  destruct (String.eqb (strings.TrimSpace line) ""); [auto |].
  destruct (Nat.leb 1 (List.length (strings.Fields (strings.TrimSpace line)))) eqn:Hlen;
    [| auto].
  right. eexists. split; [| reflexivity]. split; [| reflexivity].
  apply Nat.leb_le in Hlen. apply nth_field_nonempty. lia.
Qed.

Lemma brew_list_line_step (acc : list InstalledPackage) (line : string) :
  brew.list_line acc line = acc
  \/ exists ip, parsed_package "formula" (ip_Ref ip)
                /\ brew.list_line acc line = (acc ++ [ip])%list.
Proof.
  unfold brew.list_line.
  destruct (String.eqb (strings.TrimSpace line) ""); [auto |].
  destruct (Nat.leb 1 (List.length (strings.Fields (strings.TrimSpace line)))) eqn:Hlen;
    [| auto].
  right. eexists. split; [| reflexivity]. split; [| reflexivity].
  apply Nat.leb_le in Hlen. apply nth_field_nonempty. lia.
Qed.

Lemma snap_list_line_step (acc : list InstalledPackage) (line : string) :
  snap.list_line acc line = acc
  \/ exists ip, (parsed_package "snap" (ip_Ref ip) /\ ip_Version ip <> "")
                /\ snap.list_line acc line = (acc ++ [ip])%list.
Proof.
  unfold snap.list_line.
  destruct (String.eqb (strings.TrimSpace line) ""); [auto |].
  destruct (Nat.leb 2 (List.length (strings.Fields (strings.TrimSpace line)))) eqn:Hlen;
    [| auto].
  apply Nat.leb_le in Hlen.
  right. eexists. split; [| reflexivity]. split; [split; [| reflexivity] |].
  - apply nth_field_nonempty. lia.
  - apply nth_field_nonempty. lia.
Qed.

Lemma Forall_map_ref (kind : string) (P : InstalledPackage -> Prop)
    (l : list InstalledPackage) :
  (forall ip, P ip -> parsed_package kind (ip_Ref ip)) ->
  Forall P l -> Forall (parsed_package kind) (map ip_Ref l).
Proof.
  intros HP H. induction H as [|ip l Hip _ IH]; simpl; constructor; auto.
Qed.

(** X5. Packages read off the fields of an output have a name and a kind. *)
Theorem parsed_packages_are_named
    (helper : HelperAPI) (new1 : ProgressReporter -> ProgressHelper)
    (b : AnyBackend) (m : Method) (args : CallArgs) (w : World) :
  reads_fields b m = true ->
  Forall (parsed_package (kind_of b))
    (packages_of (fst (fst (call helper new1 b m args w)))).
Proof.
  intros Hreads.
  destruct m; try (destruct b; discriminate Hreads).
  - apply Upgrade_reads_output.
  - revert w.
    change (yields (call helper new1 b MSearch args)
              (fun r => Forall (parsed_package (kind_of b)) (packages_of (fst r)))).
    destruct args as [pkgs query opts].
    destruct b as [[sf r p] | [[r|] p] | [[r|] p]]; try discriminate Hreads;
      unfold_methods; simpl; apply yields_tagged;
      try (apply yields_ret; constructor);
      (destruct (String.eqb query ""); [apply yields_ret; constructor |]);
      unfold runner.RunWithExternalError;
      match goal with
      | |- context [r ?n ?a] => destruct (r n a) as [[out errout] [e|]]
      end;
      cbv beta iota zeta; strip_helper; simpl; try constructor.
    + apply fold_appends; [apply flatpak_search_line_step | constructor].
    + apply fold_appends; [apply snap_search_line_step | constructor].
  - revert w.
    change (yields (call helper new1 b MListInstalled args)
              (fun r => Forall (parsed_package (kind_of b)) (packages_of (fst r)))).
    destruct args as [pkgs query opts].
    destruct b as [[sf [r|] p] | [r p] | [[r|] p]]; try discriminate Hreads;
      unfold_methods; simpl; apply yields_tagged;
      try (apply yields_ret; constructor);
      unfold runner.RunWithExternalError;
      match goal with
      | |- context [r ?n ?a] => destruct (r n a) as [[out errout] [e|]]
      end;
      cbv beta iota zeta; strip_helper; simpl; try constructor.
    + apply (Forall_map_ref "formula" (fun ip => parsed_package "formula" (ip_Ref ip)));
        [auto |].
      apply fold_appends; [apply brew_list_line_step | constructor].
    + apply (Forall_map_ref "snap"
               (fun ip => parsed_package "snap" (ip_Ref ip) /\ ip_Version ip <> ""));
        [tauto |].
      apply fold_appends; [apply snap_list_line_step | constructor].
Qed.

Lemma parsed_packages_are_named_witness :
  Forall (parsed_package "snap")
    (packages_of (fst (fst (call progress.API (NewProgressHelper None)
       (Snap (snap.mkBackend (Some (FakeRunner "core 16 refreshed" "" None)) None))
       MUpgrade (mkCallArgs [] "" (mkOptions None)) sample_world)))).
Proof.
  apply (parsed_packages_are_named progress.API (NewProgressHelper None)
           (Snap (snap.mkBackend (Some (FakeRunner "core 16 refreshed" "" None)) None))
           MUpgrade). reflexivity.
Defined.

(** A call that asks for nothing succeeds with nothing, without a command. *)
Lemma call_asking_nothing
    (helper : HelperAPI) (new1 : ProgressReporter -> ProgressHelper)
    (b : AnyBackend) (m : Method) (args : CallArgs) (r : runner.Runner) (w : World) :
  runner_of b = Some r ->
  asks_nothing m args ->
  let out := call helper new1 b m args w in
  is_zero (fst (fst out))
  /\ snd (fst out) = None
  /\ match b, m with
     | Brew _, MSearch => True
     | _, _ => snd out = w
     end.
Proof.
  intros Hr Hidle. cbv zeta.
  destruct args as [pkgs query opts].
  destruct m; simpl in Hidle; try contradiction; subst;
    destruct b as [[sf r' p] | [r' p] | [r' p]]; simpl in Hr; subst r';
    try (repeat split; reflexivity).
  (* brew Search with an empty query *)
  assert (Hy : yields (call helper new1 (Brew (brew.mkBackend sf (Some r) p)) MSearch
                         (mkCallArgs pkgs "" opts))
                 (fun res => is_zero (fst res) /\ snd res = None)).
  { unfold_methods. simpl. apply yields_tagged. strip_helper. simpl. auto. }
  destruct (Hy w) as [Hz He]. auto.
Qed.




(** ** The backend methods: what they report *)

Lemma run_app (api : HelperAPI) (cs1 cs2 : list HelperCall) (s : ProgressHelper * World) :
  snd (run api (cs1 ++ cs2) s) = snd (run api cs2 (snd (run api cs1 s))).
Proof.
  revert s. induction cs1 as [|c cs1 IH]; intros s; [reflexivity |].
  simpl app. rewrite !run_cons.
  destruct (exec api c s) as [r s1]. specialize (IH s1).
  destruct (run api (cs1 ++ cs2) s1) as [ids s2].
  destruct (run api cs1 s1) as [ids1 s3]. simpl in *. exact IH.
Qed.

Lemma scripted_ret {A : Type} (api : HelperAPI) (x : A) : scripted_by api (ret x) [] x.
Proof. intros s. reflexivity. Qed.

Lemma scripted_call {A : Type} (api : HelperAPI) (c : HelperCall) (k : M A)
    (cs : list HelperCall) (x : A) :
  scripted_by api k cs x ->
  scripted_by api (exec api c;; k) (c :: cs) x.
Proof.
  intros H s. rewrite run_cons. unfold bind.
  destruct (exec api c s) as [r s1]. rewrite (H s1).
  destruct (run api cs s1) as [ids s2]. reflexivity.
Qed.

Lemma scripted_ext {A : Type} (api : HelperAPI) (k k' : M A)
    (cs : list HelperCall) (x : A) :
  (forall s, k s = k' s) -> scripted_by api k' cs x -> scripted_by api k cs x.
Proof. intros Heq H s. rewrite Heq. apply H. Qed.

Lemma scripted_BeginAction {A : Type} (api : HelperAPI) (n : string) (k : M A)
    (cs : list HelperCall) (x : A) :
  scripted_by api k cs x ->
  scripted_by api (api_BeginAction api n;; k) (CBeginAction n :: cs) x.
Proof.
  intros H. eapply scripted_ext; [| apply (scripted_call api (CBeginAction n)), H].
  intros s. simpl. unfold bind, ret. destruct (api_BeginAction api n s). reflexivity.
Qed.

Lemma scripted_BeginTask {A : Type} (api : HelperAPI) (n : string) (k : M A)
    (cs : list HelperCall) (x : A) :
  scripted_by api k cs x ->
  scripted_by api (api_BeginTask api n;; k) (CBeginTask n :: cs) x.
Proof.
  intros H. eapply scripted_ext; [| apply (scripted_call api (CBeginTask n)), H].
  intros s. simpl. unfold bind, ret. destruct (api_BeginTask api n s). reflexivity.
Qed.

Lemma scripted_EndTask {A : Type} (api : HelperAPI) (k : M A)
    (cs : list HelperCall) (x : A) :
  scripted_by api k cs x ->
  scripted_by api (api_EndTask api;; k) (CEndTask :: cs) x.
Proof.
  intros H. eapply scripted_ext; [| apply (scripted_call api CEndTask), H].
  intros s. simpl. unfold bind, ret. destruct (api_EndTask api s). reflexivity.
Qed.

Lemma scripted_Info {A : Type} (api : HelperAPI) (text : string) (k : M A)
    (cs : list HelperCall) (x : A) :
  scripted_by api k cs x ->
  scripted_by api (api_Info api text;; k) (CInfo text :: cs) x.
Proof.
  intros H. eapply scripted_ext; [| apply (scripted_call api (CInfo text)), H].
  intros s. simpl. unfold bind, ret. destruct (api_Info api text s). reflexivity.
Qed.

Lemma scripted_Error {A : Type} (api : HelperAPI) (text : string) (k : M A)
    (cs : list HelperCall) (x : A) :
  scripted_by api k cs x ->
  scripted_by api (api_Error api text;; k) (CError text :: cs) x.
Proof.
  intros H. eapply scripted_ext; [| apply (scripted_call api (CError text)), H].
  intros s. simpl. unfold bind, ret. destruct (api_Error api text s). reflexivity.
Qed.

Lemma scripted_defer_EndAction {A : Type} (api : HelperAPI) (body : M A)
    (cs : list HelperCall) (x : A) :
  scripted_by api body cs x ->
  scripted_by api (defer (api_EndAction api) body) (cs ++ [CEndAction])%list x.
Proof.
  intros H s. rewrite run_app. unfold defer, bind, ret. rewrite (H s).
  rewrite run_cons. simpl. unfold bind, ret.
  destruct (api_EndAction api (snd (run api cs s))) as [u s1]. reflexivity.
Qed.

Lemma scripted_with_helper {A : Type} (api : HelperAPI) (h : ProgressHelper) (body : M A)
    (cs : list HelperCall) (x : A) (w : World) :
  scripted_by api body cs x ->
  with_helper h body w = (x, world_of (run api cs (h, w))).
Proof.
  intros H. unfold with_helper, world_of. rewrite (H (h, w)).
  destruct (snd (run api cs (h, w))) as [h' w']. reflexivity.
Qed.

Lemma tagged_eq {A : Type} (f : A -> AnyResult) (m : W (A * option error))
    (a : A) (e : option error) (w w' : World) :
  m w = ((a, e), w') -> tagged f m w = ((f a, e), w').
Proof. intros H. unfold tagged, bind, ret. rewrite H. reflexivity. Qed.

Ltac build_script :=
  repeat first
    [ apply scripted_ret
    | apply scripted_BeginAction
    | apply scripted_BeginTask
    | apply scripted_EndTask
    | apply scripted_Info
    | apply scripted_Error
    | apply scripted_defer_EndAction ].

Ltac no_command :=
  intros Hr Hruns; exfalso; simpl in Hr, Hruns;
  first
    [ congruence
    | tauto
    | destruct Hruns as [Hq' Hb'];
      first [ apply Hq'; reflexivity | eapply Hb'; reflexivity ] ].

(** A method that returns before it makes a helper. *)
Ltac no_script :=
  exists []; eexists; split;
  [ intros api w; apply tagged_eq; reflexivity
  | split; [left; reflexivity | no_command] ].

(** A method body, with the helper it works on, against a script. *)
Ltac by_script :=
  eexists; eexists; split;
  [ intros api w; apply tagged_eq; eapply scripted_with_helper; build_script
  | simpl; split;
    [ first
        [ right; left; eexists; split; reflexivity
        | right; right; eexists; eexists; reflexivity ]
    | first
        [ intros _ _; eexists; eexists; reflexivity
        | no_command ] ] ].

Ltac project_fields :=
  cbn [arg_pkgs arg_query arg_opts brew.runner brew.progress brew.searchFormulae
       flatpak.runner flatpak.progress snap.runner snap.progress].

(** The calls a method makes on its helper. *)
Lemma call_follows_script
    (new1 : ProgressReporter -> ProgressHelper)
    (b : AnyBackend) (m : Method) (args : CallArgs) :
  exists cs out,
    (forall api w,
        call api new1 b m args w
        = (out, world_of (run api cs (helper_for new1 b args, w))))
    /\ method_script m (is_failure (snd out)) cs
    /\ (runner_of b <> None -> runs_command b m args ->
        exists task text,
          cs = [CBeginAction (action_name m); CBeginTask task; CEndTask;
                (if is_failure (snd out) then CError text else CInfo text); CEndAction]).
Proof.
  destruct args as [pkgs query opts].
  destruct b as [[sf r p] | [r p] | [r p]]; destruct m; unfold_methods;
    unfold helper_for; project_fields;
    try (destruct r as [r|]; [| no_script]);
    try (destruct pkgs as [|pkg pkgs]; [no_script |]);
    try (destruct (String.eqb query "") eqn:Hquery;
         [apply String.eqb_eq in Hquery; subst query; first [no_script | by_script] |]);
    unfold runner.RunWithExternalError;
    try (match goal with
         | |- context [r ?n ?a] => destruct (r n a) as [[out errout] [e|]]
         end);
    try (match goal with
         | |- context [sf ?q] => destruct (sf q) as [results [e|]]
         end);
    cbv beta iota zeta;
    repeat match goal with
           | |- context [fold_left ?f ?l ?a] =>
               destruct (fold_left f l a) as [[|] ?]
           end;
    repeat match goal with
           | |- context [if ?c then _ else _] => destruct c
           end;
    by_script.
Qed.

(** X7. The calls a method makes on its helper. *)
Theorem method_follows_script
    (new1 : ProgressReporter -> ProgressHelper)
    (b : AnyBackend) (m : Method) (args : CallArgs) :
  exists cs out,
    (forall api w,
        call api new1 b m args w
        = (out, world_of (run api cs (helper_for new1 b args, w))))
    /\ method_script m (is_failure (snd out)) cs
    /\ (runner_of b <> None -> runs_command b m args ->
        exists task text,
          cs = [CBeginAction (action_name m); CBeginTask task; CEndTask;
                (if is_failure (snd out) then CError text else CInfo text); CEndAction]).
Proof.
  exact (call_follows_script new1 b m args).
Qed.


(** ** The two helpers on calls that close children first *)

Lemma helpers_agree_nested (cs : list HelperCall) :
  forall (taskOpen stepOpen : bool) (h : ProgressHelper) (w : World),
  covers taskOpen stepOpen h ->
  closes_children taskOpen stepOpen cs = true ->
  run types.API cs (h, w) = run progress.API cs (h, w).
Proof.
  induction cs as [|c cs IH]; intros tO sO h w Hcov Hok; [reflexivity |].
  rewrite !run_cons.
  assert (Hstep : exec types.API c (h, w) = exec progress.API c (h, w)
                  /\ forall tO' sO',
                       closes_children tO sO (c :: cs) = true ->
                       (match c with
                        | CEndAction => tO' = false /\ sO' = false
                        | CBeginTask _ => tO' = true /\ sO' = sO
                        | CEndTask => tO' = false /\ sO' = false
                        | CBeginStep _ => tO' = tO /\ sO' = true
                        | CEndStep => tO' = tO /\ sO' = false
                        | _ => tO' = tO /\ sO' = sO
                        end) ->
                       covers tO' sO' (fst (snd (exec progress.API c (h, w))))).
  { destruct h as [[r|] a t s].
    - destruct Hcov as [Hr | [Ht Hs]]; [discriminate Hr |]. simpl in Ht, Hs.
      destruct c; simpl in Hok.
      + split; [reflexivity |]. intros tO' sO' _ [-> ->]. right. simpl. auto.
      + apply andb_true_iff in Hok. destruct Hok as [Hok _].
        apply andb_true_iff in Hok. destruct Hok as [HtO HsO].
        apply negb_true_iff in HtO, HsO. subst tO sO.
        assert (t = None) by (destruct t; [specialize (Ht ltac:(discriminate)); discriminate | reflexivity]).
        assert (s = None) by (destruct s; [specialize (Hs ltac:(discriminate)); discriminate | reflexivity]).
        subst t s. split; [destruct a; reflexivity |].
        intros tO' sO' _ [-> ->]. right. destruct a; simpl; split; congruence.
      + split; [destruct a; reflexivity |].
        intros tO' sO' _ [-> ->]. right. simpl. split; [reflexivity | exact Hs].
      + apply andb_true_iff in Hok. destruct Hok as [HsO _].
        apply negb_true_iff in HsO. subst sO.
        assert (s = None) by (destruct s; [specialize (Hs ltac:(discriminate)); discriminate | reflexivity]).
        subst s. split; [destruct t; reflexivity |].
        intros tO' sO' _ [-> ->]. right. destruct t; simpl; split; congruence.
      + split; [destruct t; reflexivity |].
        intros tO' sO' _ [-> ->]. right. simpl. split; [exact Ht | reflexivity].
      + split; [destruct s; reflexivity |].
        intros tO' sO' _ [-> ->]. right. destruct s; simpl; split; auto; congruence.
      + split; [reflexivity |]. intros tO' sO' _ [-> ->]. right. simpl. auto.
      + split; [reflexivity |]. intros tO' sO' _ [-> ->]. right. simpl. auto.
      + split; [reflexivity |]. intros tO' sO' _ [-> ->]. right. simpl. auto.
    - split; [destruct c; reflexivity |].
      intros tO' sO' _ _. left. destruct c; reflexivity. }
  destruct Hstep as [Heq Hnext]. rewrite Heq.
  destruct (exec progress.API c (h, w)) as [v [h1 w1]]. simpl in Hnext.
  assert (Hrun : run types.API cs (h1, w1) = run progress.API cs (h1, w1)).
  { pose proof Hok as Hok0.
    destruct c; simpl in Hok;
      repeat (apply andb_true_iff in Hok; destruct Hok as [? Hok]);
      (eapply IH; [apply Hnext; [exact Hok0 | split; reflexivity] | exact Hok]). }
  rewrite Hrun. reflexivity.
Qed.

(** X8. On calls that close children before parents the two helpers are one. *)
Theorem helpers_agree_on_nested_calls
    (defaultReporter overrideReporter : ProgressReporter)
    (calls : list HelperCall) (w : World) :
  closes_children false false calls = true ->
  run types.API calls (NewProgressHelper defaultReporter overrideReporter, w)
  = run progress.API calls (NewProgressHelper defaultReporter overrideReporter, w).
Proof.
  intros Hok. apply (helpers_agree_nested calls false false); [| exact Hok].
  right. simpl. split; intros H; contradiction.
Qed.

Lemma helpers_agree_on_nested_calls_witness :
  run types.API install_calls (NewProgressHelper None (Some 0), sample_world)
  = run progress.API install_calls (NewProgressHelper None (Some 0), sample_world).
Proof.
  apply (helpers_agree_on_nested_calls None (Some 0) install_calls sample_world).
  reflexivity.
Defined.

Lemma method_script_closes_children (m : Method) (failed : bool) (cs : list HelperCall) :
  method_script m failed cs -> closes_children false false cs = true.
Proof.
  intros [-> | [(text & _ & ->) | (task & text & ->)]]; try reflexivity.
  destruct failed; reflexivity.
Qed.

(** X9. A backend reports the same through either helper. *)
Theorem backends_report_alike
    (new1 : ProgressReporter -> ProgressHelper)
    (b : AnyBackend) (m : Method) (args : CallArgs) (w : World) :
  currentTask (helper_for new1 b args) = None ->
  currentStep (helper_for new1 b args) = None ->
  call types.API new1 b m args w = call progress.API new1 b m args w.
Proof.
  intros Ht Hs.
  destruct (call_follows_script new1 b m args) as (cs & out & Hcall & Hshape & _).
  rewrite !Hcall. f_equal. unfold world_of. f_equal. f_equal.
  apply (helpers_agree_nested cs false false).
  - right. rewrite Ht, Hs. split; intros H; contradiction.
  - eapply method_script_closes_children. exact Hshape.
Qed.

Lemma backends_report_alike_witness :
  call types.API (NewProgressHelper None)
    (Brew (brew.mkBackend (fun _ => ([], None)) (Some (FakeRunner "" "" None)) (Some 0)))
    MUpgrade (mkCallArgs [] "" (mkOptions None)) sample_world
  = call progress.API (NewProgressHelper None)
    (Brew (brew.mkBackend (fun _ => ([], None)) (Some (FakeRunner "" "" None)) (Some 0)))
    MUpgrade (mkCallArgs [] "" (mkOptions None)) sample_world.
Proof.
  apply (backends_report_alike (NewProgressHelper None)
           (Brew (brew.mkBackend (fun _ => ([], None)) (Some (FakeRunner "" "" None)) (Some 0)))
           MUpgrade (mkCallArgs [] "" (mkOptions None)) sample_world);
    reflexivity.
Defined.


(** X10. A method that runs its command reports one bracket, also when it fails. *)
Theorem command_is_reported_in_a_bracket
    (new1 : ProgressReporter -> ProgressHelper)
    (b : AnyBackend) (m : Method) (args : CallArgs)
    (r : runner.Runner) (rep : ReporterId) (w : World) :
  runner_of b = Some r ->
  runs_command b m args ->
  helper_for new1 b args = mkHelper (Some rep) None None None ->
  let res := call progress.API new1 b m args w in
  exists task text,
    emitted w (snd res)
    = map (pair rep)
        (bracket_events w (action_name m) task (is_failure (snd (fst res))) text).
Proof.
  intros Hr Hruns Hh. cbv zeta.
  destruct (call_follows_script new1 b m args) as (cs & out & Hcall & _ & Hcmd).
  destruct (Hcmd ltac:(congruence) Hruns) as (task & text & ->).
  rewrite Hcall, Hh. exists task, text. simpl fst. simpl snd.
  apply emitted_app.
  destruct (is_failure (snd out)); unfold world_of; simpl; unfold_progress; simpl;
    rewrite <- !app_assoc; reflexivity.
Qed.

Lemma command_is_reported_in_a_bracket_witness :
  exists task text,
    emitted sample_world
      (snd (call progress.API (NewProgressHelper None)
              (Flatpak (flatpak.mkBackend (Some (FakeRunner "" "" None)) (Some 0)))
              MUpgrade (mkCallArgs [] "" (mkOptions None)) sample_world))
    = map (pair 0)
        (bracket_events sample_world "Upgrade" task
           (is_failure (snd (fst (call progress.API (NewProgressHelper None)
              (Flatpak (flatpak.mkBackend (Some (FakeRunner "" "" None)) (Some 0)))
              MUpgrade (mkCallArgs [] "" (mkOptions None)) sample_world)))) text).
Proof.
  apply (command_is_reported_in_a_bracket (NewProgressHelper None)
           (Flatpak (flatpak.mkBackend (Some (FakeRunner "" "" None)) (Some 0)))
           MUpgrade (mkCallArgs [] "" (mkOptions None)) (FakeRunner "" "" None) 0
           sample_world eq_refl I eq_refl).
Defined.

(** X11. Without a reporter a method reports nothing. *)
Theorem silent_without_reporter
    (new1 : ProgressReporter -> ProgressHelper)
    (b : AnyBackend) (m : Method) (args : CallArgs) (w : World) :
  reporter (helper_for new1 b args) = None ->
  snd (call progress.API new1 b m args w) = w.
Proof.
  intros Hrep.
  destruct (call_follows_script new1 b m args) as (cs & out & Hcall & _).
  rewrite Hcall. simpl.
  apply (run_progress_inactive cs _ w Hrep).
Qed.

Lemma silent_without_reporter_witness :
  snd (call progress.API (NewProgressHelper None)
         (Brew (brew.mkBackend (fun _ => ([], None)) (Some (FakeRunner "" "" None)) None))
         MUpgrade (mkCallArgs [] "" (mkOptions None)) sample_world) = sample_world.
Proof.
  apply (silent_without_reporter (NewProgressHelper None)
           (Brew (brew.mkBackend (fun _ => ([], None)) (Some (FakeRunner "" "" None)) None))
           MUpgrade (mkCallArgs [] "" (mkOptions None)) sample_world).
  reflexivity.
Defined.

Lemma yields_same {S A : Type} (m1 m2 : State S A) (a : A) (s1 s2 : S) :
  yields m1 (fun r => r = a) -> yields m2 (fun r => r = a) -> fst (m1 s1) = fst (m2 s2).
Proof. intros H1 H2. rewrite (H1 s1), (H2 s2). reflexivity. Qed.

(** X12. What a method returns does not depend on the reporters, on the helper
    or on the world. *)
Theorem result_is_free_of_reporting
    (api api' : HelperAPI) (new1 new1' : ProgressReporter -> ProgressHelper)
    (b : AnyBackend) (m : Method) (pkgs : list PackageRef) (query : string)
    (standing standing' : ProgressReporter) (opts opts' : Options) (w w' : World) :
  fst (call api new1 (with_progress standing b) m (mkCallArgs pkgs query opts) w)
  = fst (call api' new1' (with_progress standing' b) m (mkCallArgs pkgs query opts') w').
Proof.
  destruct b as [[sf r p] | [r p] | [r p]]; destruct m; unfold_methods;
    unfold with_progress; project_fields;
    try (destruct r as [r|]; [| reflexivity]);
    try (destruct pkgs as [|pkg pkgs]; [reflexivity |]);
    try (destruct (String.eqb query ""); [try reflexivity |]);
    unfold runner.RunWithExternalError;
    try (match goal with
         | |- context [r ?n ?a] => destruct (r n a) as [[out errout] [e|]]
         end);
    try (match goal with
         | |- context [sf ?q] => destruct (sf q) as [results [e|]]
         end);
    cbv beta iota zeta;
    repeat match goal with
           | |- context [fold_left ?f ?l ?a] =>
               destruct (fold_left f l a) as [[|] ?]
           end;
    repeat match goal with
           | |- context [if ?c then _ else _] => destruct c
           end;
    (eapply yields_same;
     [ apply yields_tagged; strip_helper; reflexivity
     | apply yields_tagged; strip_helper; reflexivity ]).
Qed.


(** ** The progress helper: further properties *)

(** X13. The helper has open what an observer of its events takes to be open. *)
Theorem helper_state_is_open_path
    (defaultReporter overrideReporter : ProgressReporter)
    (calls : list HelperCall) (w : World) :
  clock_runs w ->
  let res := run progress.API calls (NewProgressHelper defaultReporter overrideReporter, w) in
  helper_path (helper_of res) = open_path (map snd (emitted w (world_of res))).
Proof.
  intros Hclock. cbv zeta.
  destruct (reporter (NewProgressHelper defaultReporter overrideReporter)) as [r|] eqn:Hr.
  - destruct (run_progress_tracks r calls _ w [] Hr Hclock eq_refl)
      as (evs & Hlog & Hpath & _).
    rewrite (emitted_app _ _ _ Hlog), map_snd_pair. exact Hpath.
  - destruct (run_progress_inactive calls _ w Hr) as (Hh & Hw & _).
    rewrite Hh, Hw, emitted_same. reflexivity.
Qed.

Lemma helper_state_is_open_path_witness :
  helper_path (helper_of (run progress.API [CBeginAction "Install"; CBeginTask "Download"]
                            (NewProgressHelper None (Some 0), sample_world)))
  = open_path [ OnAction (mkAction "id-" "Install" 1 0);
                OnTask (mkTask "id-i" "id-" "Download" 2 0) ].
Proof.
  exact (helper_state_is_open_path None (Some 0)
           [CBeginAction "Install"; CBeginTask "Download"] sample_world sample_clock_runs).
Defined.

Lemma exec_progress_messages (c : HelperCall) (h : ProgressHelper) (w : World)
    (r : ReporterId) :
  reporter h = Some r ->
  exists evs,
    log (world_of (exec progress.API c (h, w))) = (log w ++ map (pair r) evs)%list
    /\ messages_of evs = messages_sent [c]
    /\ reporter (helper_of (exec progress.API c (h, w))) = Some r.
Proof.
  intros Hr. destruct h as [rp a t s]. simpl in Hr. subst rp.
  assert (Hnil : forall l : list (ReporterId * Event), l = (l ++ map (pair r) [])%list).
  { intros l. simpl. rewrite app_nil_r. reflexivity. }
  destruct c; simpl; unfold_progress; simpl;
    try (eexists [_]; repeat split; reflexivity).
  - destruct a; simpl; [eexists [_]; repeat split; reflexivity |].
    exists []. repeat split. apply Hnil.
  - destruct t; simpl; [eexists [_]; repeat split; reflexivity |].
    exists []. repeat split. apply Hnil.
  - destruct s; simpl; [eexists [_]; repeat split; reflexivity |].
    exists []. repeat split. apply Hnil.
Qed.

Lemma messages_of_app (evs1 evs2 : list Event) :
  messages_of (evs1 ++ evs2) = (messages_of evs1 ++ messages_of evs2)%list.
Proof. apply flat_map_app. Qed.

(** X14. No message is lost, altered or moved. *)
Theorem messages_arrive_in_order
    (calls : list HelperCall) (h : ProgressHelper) (w : World) (r : ReporterId) :
  reporter h = Some r ->
  messages_of (map snd (emitted w (world_of (run progress.API calls (h, w)))))
  = messages_sent calls.
Proof.
  intros Hr.
  assert (H : exists evs,
             log (world_of (run progress.API calls (h, w)))
             = (log w ++ map (pair r) evs)%list
             /\ messages_of evs = messages_sent calls).
  { revert h w Hr. induction calls as [|c cs IH]; intros h w Hr.
    - exists []. simpl. rewrite app_nil_r. auto.
    - rewrite run_cons.
      destruct (exec_progress_messages c h w r Hr) as (evs1 & Hlog1 & Hm1 & Hr1).
      destruct (exec progress.API c (h, w)) as [v [h1 w1]].
      unfold helper_of, world_of in *. simpl in Hlog1, Hr1.
      destruct (IH h1 w1 Hr1) as (evs2 & Hlog2 & Hm2).
      destruct (run progress.API cs (h1, w1)) as [ids [h2 w2]]. simpl in *.
      exists (evs1 ++ evs2)%list. split.
      + rewrite Hlog2, Hlog1, map_app, app_assoc. reflexivity.
      + rewrite messages_of_app, Hm1, Hm2.
        destruct (message_call c); simpl; rewrite ?app_nil_r; reflexivity. }
  destruct H as (evs & Hlog & Hm).
  rewrite (emitted_app _ _ _ Hlog), map_snd_pair. exact Hm.
Qed.

Lemma messages_arrive_in_order_witness :
  messages_of (map snd (emitted sample_world
     (world_of (run progress.API [CWarning "slow"; CEndTask; CError "failed"]
                  (NewProgressHelper None (Some 0), sample_world)))))
  = [(SeverityWarning, "slow"); (SeverityError, "failed")].
Proof.
  exact (messages_arrive_in_order [CWarning "slow"; CEndTask; CError "failed"]
           (NewProgressHelper None (Some 0)) sample_world 0 eq_refl).
Defined.


Lemma exec_progress_timely (c : HelperCall) (h : ProgressHelper) (w : World)
    (r : ReporterId) :
  reporter h = Some r ->
  clock_monotone w ->
  started_in_past h w ->
  let res := exec progress.API c (h, w) in
  exists evs,
    log (world_of res) = (log w ++ map (pair r) evs)%list
    /\ Forall ends_after_start evs
    /\ started_in_past (helper_of res) (world_of res)
    /\ reporter (helper_of res) = Some r
    /\ wall (world_of res) = wall w.
Proof.
  intros Hr Hmono (Ha & Ht & Hs). destruct h as [rp a t s]. simpl in Hr. subst rp.
  simpl in Ha, Ht, Hs.
  assert (Hnil : forall l : list (ReporterId * Event), l = (l ++ map (pair r) [])%list).
  { intros l. simpl. rewrite app_nil_r. reflexivity. }
  assert (Hlater : forall (x : Time),
             (exists k, k < ticks w /\ x = wall w k) ->
             exists k, k < S (ticks w) /\ x = wall w k).
  { intros x (k & Hk & Hx). exists k. split; [lia | exact Hx]. }
  assert (Hnow : exists k, k < S (ticks w) /\ wall w (ticks w) = wall w k).
  { exists (ticks w). split; [lia | reflexivity]. }
  assert (Hend : forall (x : Time),
             (exists k, k < ticks w /\ x = wall w k) -> x <= wall w (ticks w)).
  { intros x (k & Hk & ->). apply Hmono. lia. }
  destruct c; cbv zeta; unfold helper_of, world_of; simpl; unfold_progress; simpl.
  - eexists [_]. split; [reflexivity |]. split; [repeat constructor |].
    split; [| auto]. repeat split; simpl; intros x Hx.
    + injection Hx as <-. exact Hnow.
    + apply Hlater, Ht, Hx.
    + apply Hlater, Hs, Hx.
  - destruct a as [a|]; simpl.
    + eexists [_]. split; [reflexivity |]. split.
      * constructor; [| constructor]. simpl. right. apply Hend, Ha. reflexivity.
      * split; [| auto]. repeat split; simpl; intros x Hx; discriminate.
    + exists []. split; [apply Hnil |]. split; [constructor |].
      split; [| auto]. repeat split; simpl; intros x Hx; auto; discriminate.
  - eexists [_]. split; [reflexivity |]. split; [repeat constructor |].
    split; [| auto]. repeat split; simpl; intros x Hx.
    + apply Hlater, Ha, Hx.
    + injection Hx as <-. exact Hnow.
    + apply Hlater, Hs, Hx.
  - destruct t as [t|]; simpl.
    + eexists [_]. split; [reflexivity |]. split.
      * constructor; [| constructor]. simpl. right. apply Hend, Ht. reflexivity.
      * split; [| auto]. repeat split; simpl; intros x Hx; try discriminate.
        apply Hlater, Ha, Hx.
    + exists []. split; [apply Hnil |]. split; [constructor |].
      split; [| auto]. repeat split; simpl; intros x Hx; auto; discriminate.
  - eexists [_]. split; [reflexivity |]. split; [repeat constructor |].
    split; [| auto]. repeat split; simpl; intros x Hx.
    + apply Hlater, Ha, Hx.
    + apply Hlater, Ht, Hx.
    + injection Hx as <-. exact Hnow.
  - destruct s as [s|]; simpl.
    + eexists [_]. split; [reflexivity |]. split.
      * constructor; [| constructor]. simpl. right. apply Hend, Hs. reflexivity.
      * split; [| auto]. repeat split; simpl; intros x Hx; try discriminate.
        -- apply Hlater, Ha, Hx.
        -- apply Hlater, Ht, Hx.
    + exists []. split; [apply Hnil |]. split; [constructor |].
      split; [| auto]. repeat split; simpl; intros x Hx; auto; discriminate.
  - eexists [_]. split; [reflexivity |]. split; [repeat constructor |].
    split; [| auto]. repeat split; simpl; intros x Hx.
    + apply Hlater, Ha, Hx.
    + apply Hlater, Ht, Hx.
    + apply Hlater, Hs, Hx.
  - eexists [_]. split; [reflexivity |]. split; [repeat constructor |].
    split; [| auto]. repeat split; simpl; intros x Hx.
    + apply Hlater, Ha, Hx.
    + apply Hlater, Ht, Hx.
    + apply Hlater, Hs, Hx.
  - eexists [_]. split; [reflexivity |]. split; [repeat constructor |].
    split; [| auto]. repeat split; simpl; intros x Hx.
    + apply Hlater, Ha, Hx.
    + apply Hlater, Ht, Hx.
    + apply Hlater, Hs, Hx.
Qed.

Lemma run_progress_timely (r : ReporterId) (cs : list HelperCall) :
  forall (h : ProgressHelper) (w : World),
  reporter h = Some r ->
  clock_monotone w ->
  started_in_past h w ->
  exists evs,
    log (world_of (run progress.API cs (h, w))) = (log w ++ map (pair r) evs)%list
    /\ Forall ends_after_start evs.
Proof.
  induction cs as [|c cs IH]; intros h w Hr Hmono Hpast.
  - exists []. simpl. rewrite app_nil_r. auto.
  - rewrite run_cons.
    pose proof (exec_progress_timely c h w r Hr Hmono Hpast) as Hstep. cbv zeta in Hstep.
    destruct (exec progress.API c (h, w)) as [v [h1 w1]].
    unfold helper_of, world_of in *. simpl in Hstep.
    destruct Hstep as (evs1 & Hlog1 & Hok1 & Hpast1 & Hr1 & Hwall).
    assert (Hmono1 : clock_monotone w1).
    { intros m n Hmn. rewrite Hwall. apply Hmono, Hmn. }
    destruct (IH h1 w1 Hr1 Hmono1 Hpast1) as (evs2 & Hlog2 & Hok2).
    destruct (run progress.API cs (h1, w1)) as [ids [h2 w2]]. simpl in *.
    exists (evs1 ++ evs2)%list. split.
    + rewrite Hlog2, Hlog1, map_app, app_assoc. reflexivity.
    + apply Forall_app. auto.
Qed.

(** X15. Under a clock that never runs backwards nothing ends before it starts. *)
Theorem nothing_ends_before_it_starts
    (defaultReporter overrideReporter : ProgressReporter)
    (calls : list HelperCall) (w : World) :
  clock_monotone w ->
  Forall ends_after_start
    (map snd (emitted w (world_of (run progress.API calls
                 (NewProgressHelper defaultReporter overrideReporter, w))))).
Proof.
  intros Hmono.
  destruct (reporter (NewProgressHelper defaultReporter overrideReporter)) as [r|] eqn:Hr.
  - destruct (run_progress_timely r calls _ w Hr Hmono) as (evs & Hlog & Hok).
    + repeat split; simpl; intros x Hx; discriminate.
    + rewrite (emitted_app _ _ _ Hlog), map_snd_pair. exact Hok.
  - destruct (run_progress_inactive calls _ w Hr) as (_ & Hw & _).
    rewrite Hw, emitted_same. constructor.
Qed.

Lemma sample_clock_monotone : clock_monotone sample_world.
Proof. intros m n H. simpl. lia. Qed.

Lemma nothing_ends_before_it_starts_witness :
  Forall ends_after_start
    (map snd (emitted sample_world (world_of (run progress.API install_calls
                 (NewProgressHelper None (Some 0), sample_world))))).
Proof.
  exact (nothing_ends_before_it_starts None (Some 0) install_calls sample_world
           sample_clock_monotone).
Defined.


(** ** Capabilities, errors and the runner: further properties *)

(** X16. [GetCapability] finds the first entry for the operation. *)
Theorem GetCapability_finds_first (caps : list Capability) (op : Operation) :
  match GetCapability caps op with
  | Some c =>
      cap_Operation c = op
      /\ exists before after,
           caps = (before ++ c :: after)%list
           /\ forall c', In c' before -> cap_Operation c' <> op
  | None => forall c, In c caps -> cap_Operation c <> op
  end.
Proof.
  induction caps as [|c rest IH]; simpl.
  - intros c [].
  - destruct (String.eqb (cap_Operation c) op) eqn:Hop.
    + apply String.eqb_eq in Hop. split; [exact Hop |].
      exists [], rest. split; [reflexivity | intros c' []].
    + apply String.eqb_neq in Hop.
      destruct (GetCapability rest op) as [found|].
      * destruct IH as (Hfound & before & after & -> & Hbefore).
        split; [exact Hfound |].
        exists (c :: before), after. split; [reflexivity |].
        intros c' [<- | Hin]; auto.
      * intros c' [<- | Hin]; auto.
Qed.

Lemma Supports_no_entry (caps : list Capability) (op : Operation) :
  (forall c, In c caps -> cap_Operation c <> op) -> Supports caps op = false.
Proof.
  intros H. destruct (Supports caps op) eqn:Hs; [| reflexivity].
  apply Supports_true_iff in Hs. destruct Hs as (c & Hin & Hop & _).
  exfalso. exact (H c Hin Hop).
Qed.

(** X17. With one entry an operation at most, [Supports] reads the flag of the
    entry [GetCapability] finds. *)
Theorem Supports_reads_GetCapability (caps : list Capability) (op : Operation) :
  NoDup (map cap_Operation caps) ->
  Supports caps op =
    match GetCapability caps op with
    | Some c => cap_Supported c
    | None => false
    end.
Proof.
  induction caps as [|c rest IH]; intros Hnd; [reflexivity |].
  simpl in Hnd. inversion Hnd as [|x l Hnotin Hnd' Heq]. subst. simpl.
  destruct (String.eqb (cap_Operation c) op) eqn:Hop; simpl.
  - destruct (cap_Supported c); [reflexivity |].
    apply String.eqb_eq in Hop. apply Supports_no_entry.
    intros c' Hin Hc'. apply Hnotin. rewrite Hop, <- Hc'. apply in_map. exact Hin.
  - apply IH. exact Hnd'.
Qed.

Lemma Supports_reads_GetCapability_witness :
  Supports test_caps OperationInstall =
    match GetCapability test_caps OperationInstall with
    | Some c => cap_Supported c
    | None => false
    end.
Proof.
  apply (Supports_reads_GetCapability test_caps OperationInstall).
  repeat constructor; simpl; intuition discriminate.
Defined.

(** Two entries for one operation: the answers differ. *)
Example Supports_with_two_entries :
  Supports [mkCapability OperationInstall false "old"; mkCapability OperationInstall true "new"]
    OperationInstall = true
  /\ option_map cap_Supported
       (GetCapability [mkCapability OperationInstall false "old";
                       mkCapability OperationInstall true "new"] OperationInstall)
     = Some false.
Proof. split; reflexivity. Qed.

Lemma substring_0_app (n : nat) :
  forall s t, n <= String.length s -> substring 0 n (s ++ t) = substring 0 n s.
Proof.
  induction n as [|n IH]; intros s t Hle.
  - destruct s; simpl; destruct t; reflexivity.
  - destruct s as [|c s]; simpl in *; [lia |].
    rewrite IH; [reflexivity | lia].
Qed.

Lemma substring_0_idem (n : nat) :
  forall s, substring 0 n (substring 0 n s) = substring 0 n s.
Proof.
  induction n as [|n IH]; intros s.
  - destruct s; reflexivity.
  - destruct s as [|c s]; simpl; [reflexivity |]. rewrite IH. reflexivity.
Qed.

Lemma length_append (s t : string) :
  String.length (s ++ t) = String.length s + String.length t.
Proof. induction s as [|c s IH]; simpl; [| rewrite IH]; reflexivity. Qed.

(** X18. [sanitize] bounds the output, and a second pass changes nothing. *)
Theorem sanitize_bounded_idempotent (s : string) :
  String.length (runner.sanitize s) <= 515
  /\ String.length (runner.sanitize s) <= String.length s + 15
  /\ runner.sanitize (runner.sanitize s) = runner.sanitize s.
Proof.
  unfold runner.sanitize, runner.maxLen.
  destruct (Nat.ltb 500 (String.length s)) eqn:Hlt.
  - apply Nat.ltb_lt in Hlt.
    assert (Hlen : String.length (substring 0 500 s) = 500)
      by (apply substring_prefix_length; lia).
    rewrite length_append, Hlen. simpl String.length.
    split; [lia |]. split; [lia |].
    assert (Hlt' : Nat.ltb 500 (500 + 15) = true) by reflexivity.
    rewrite Hlt'. f_equal.
    rewrite substring_0_app; [apply substring_0_idem | lia].
  - apply Nat.ltb_ge in Hlt. rewrite (proj2 (Nat.ltb_ge _ _) Hlt).
    split; [lia |]. split; [lia | reflexivity].
Qed.

Lemma errors_Is_through_ExternalFailure
    (op : Operation) (backend out errout : string) (payload : list (string * string))
    (e : error) (target : errorString) :
  errors_Is (Some (ExternalFailureError op backend out errout payload (Some e))) target
  = errors_Is (Some e) target.
Proof. reflexivity. Qed.

(** [RunWithExternalError] hands the raw output on, fails exactly when the
    command fails, and keeps the cause in reach of the predicates. *)
Lemma RunWithExternalError_outcome
    (r : runner.Runner) (operation : Operation) (backend name : string)
    (args : list string) :
  let raw := r name args in
  let res := runner.RunWithExternalError r operation backend name args in
  fst (fst res) = fst (fst raw)
  /\ snd (fst res) = snd (fst raw)
  /\ (snd res = None <-> snd raw = None)
  /\ IsExternalFailure (snd res) = is_failure (snd raw)
  /\ IsNotSupported (snd res) = IsNotSupported (snd raw)
  /\ IsNotAvailable (snd res) = IsNotAvailable (snd raw).
Proof.
  cbv zeta. unfold runner.RunWithExternalError.
  destruct (r name args) as [[out errout] [e|]]; simpl.
  - repeat split; discriminate.
  - repeat split; reflexivity.
Qed.

(** X19. [RunWithExternalError] hands the raw output on, fails exactly when the
    command fails, and keeps the cause in reach of the predicates. *)
Theorem RunWithExternalError_keeps_output_and_cause
    (r : runner.Runner) (operation : Operation) (backend name : string)
    (args : list string) :
  let raw := r name args in
  let res := runner.RunWithExternalError r operation backend name args in
  fst (fst res) = fst (fst raw)
  /\ snd (fst res) = snd (fst raw)
  /\ (snd res = None <-> snd raw = None)
  /\ IsExternalFailure (snd res) = is_failure (snd raw)
  /\ IsNotSupported (snd res) = IsNotSupported (snd raw)
  /\ IsNotAvailable (snd res) = IsNotAvailable (snd raw).
Proof.
  exact (RunWithExternalError_outcome r operation backend name args).
Qed.

(** X20. The bare kinds exclude one another, under any added context. *)
Theorem kinds_exclude_one_another
    (ctx : list string) (op : Operation) (backend reason out errout : string)
    (payload : list (string * string)) :
  (IsNotAvailable (Some (add_context ctx (NotSupportedError op backend reason))) = false
   /\ IsExternalFailure (Some (add_context ctx (NotSupportedError op backend reason))) = false
   /\ IsNotAvailable (Some (add_context ctx (ErrorString ErrNotSupported))) = false)
  /\ (IsNotSupported (Some (add_context ctx (NotAvailableError backend reason))) = false
      /\ IsExternalFailure (Some (add_context ctx (NotAvailableError backend reason))) = false
      /\ IsNotSupported (Some (add_context ctx (ErrorString ErrNotAvailable))) = false)
  /\ (IsNotSupported
        (Some (add_context ctx (ExternalFailureError op backend out errout payload None)))
      = false
      /\ IsNotAvailable
           (Some (add_context ctx (ExternalFailureError op backend out errout payload None)))
         = false).
Proof.
  unfold IsNotSupported, IsNotAvailable.
  rewrite !errors_Is_add_context, !IsExternalFailure_add_context.
  repeat split.
Qed.


Lemma prefix_app (sub : string) :
  forall s q, String.prefix sub s = true -> String.prefix sub (s ++ q) = true.
Proof.
  induction sub as [|c sub IH]; intros s q H; [destruct (s ++ q); reflexivity |].
  destruct s as [|c' s]; simpl in *; [discriminate |].
  destruct (ascii_dec c c'); [apply IH; exact H | discriminate].
Qed.

Lemma prefix_refl (s : string) : String.prefix s s = true.
Proof.
  induction s as [|c s IH]; [reflexivity |]. simpl.
  destruct (ascii_dec c c); [exact IH | contradiction].
Qed.

Lemma Contains_unfold (s sub : string) :
  strings.Contains s sub =
    if String.prefix sub s then true
    else match s with
         | EmptyString => false
         | String _ s' => strings.Contains s' sub
         end.
Proof. destruct s; reflexivity. Qed.

Lemma Contains_refl (s : string) : strings.Contains s s = true.
Proof. rewrite Contains_unfold, prefix_refl. reflexivity. Qed.

Lemma Contains_app_l (sub : string) :
  forall s q, strings.Contains s sub = true -> strings.Contains (s ++ q) sub = true.
Proof.
  induction s as [|c s IH]; intros q H; rewrite Contains_unfold in H;
    rewrite Contains_unfold.
  - destruct (String.prefix sub "") eqn:Hp; [| discriminate].
    rewrite (prefix_app sub "" q Hp). reflexivity.
  - destruct (String.prefix sub (String c s)) eqn:Hp.
    + rewrite (prefix_app sub (String c s) q Hp). reflexivity.
    + change (String c s ++ q) with (String c (s ++ q)).
      destruct (String.prefix sub (String c (s ++ q))); [reflexivity |].
      apply IH. exact H.
Qed.

Lemma Contains_app_r (sub : string) :
  forall p s, strings.Contains s sub = true -> strings.Contains (p ++ s) sub = true.
Proof.
  induction p as [|c p IH]; intros s H; [exact H |].
  rewrite Contains_unfold. change (String c p ++ s) with (String c (p ++ s)).
  destruct (String.prefix sub (String c (p ++ s))); [reflexivity |].
  apply IH. exact H.
Qed.

Lemma Contains_empty (s : string) : strings.Contains s "" = true.
Proof. rewrite Contains_unfold. destruct s; reflexivity. Qed.

(** Finds a piece among the pieces of a concatenation. *)
Ltac find_piece :=
  first
    [ apply Contains_refl
    | apply Contains_empty
    | apply Contains_app_l; solve [find_piece]
    | apply Contains_app_r; solve [find_piece] ].

(** X21. The message of an error names what the error is about. *)
Theorem Error_names_its_context
    (op : Operation) (backend reason out errout : string)
    (payload : list (string * string)) (cause : option error) :
  (let msg := Error_string (NotSupportedError op backend reason) in
   strings.Contains msg (es_text ErrNotSupported) = true
   /\ strings.Contains msg op = true
   /\ strings.Contains msg backend = true
   /\ strings.Contains msg reason = true)
  /\ (let msg := Error_string (NotAvailableError backend reason) in
      strings.Contains msg (es_text ErrNotAvailable) = true
      /\ strings.Contains msg backend = true
      /\ strings.Contains msg reason = true)
  /\ (let msg := Error_string (ExternalFailureError op backend out errout payload cause) in
      strings.Contains msg op = true
      /\ strings.Contains msg backend = true
      /\ strings.Contains msg errout = true
      /\ match cause with
         | Some e => strings.Contains msg (Error_string e) = true
         | None => True
         end).
Proof.
  split; [| split]; cbv zeta.
  - cbn [Error_string]. destruct (String.eqb reason "") eqn:Hr.
    + apply String.eqb_eq in Hr. subst reason. repeat split; find_piece.
    + repeat split; find_piece.
  - cbn [Error_string]. destruct (String.eqb reason "") eqn:Hr.
    + apply String.eqb_eq in Hr. subst reason. repeat split; find_piece.
    + repeat split; find_piece.
  - cbn [Error_string]. destruct (String.eqb errout "") eqn:Hr.
    + apply String.eqb_eq in Hr. subst errout.
      destruct cause; repeat split; find_piece.
    + destruct cause; repeat split; find_piece.
Qed.

(** X22. With a runner, a method fails with NotSupported only if the command
    does. *)
Theorem with_runner_NotSupported_comes_from_command
    (helper : HelperAPI) (new1 : ProgressReporter -> ProgressHelper)
    (b : AnyBackend) (m : Method) (args : CallArgs) (r : runner.Runner) (w : World) :
  runner_of b = Some r ->
  (forall b', b = Brew b' -> m <> MSearch) ->
  (forall name cmd, IsNotSupported (snd (r name cmd)) = false) ->
  IsNotSupported (snd (fst (call helper new1 b m args w))) = false.
Proof.
  intros Hr Hbrew Hcmd.
  assert (Hran : runs_command b m args ->
                 IsNotSupported (snd (fst (call helper new1 b m args w))) = false).
  { intros Hruns.
    rewrite (call_error_is_command_error helper new1 b m args r w Hr Hruns).
    pose proof (RunWithExternalError_outcome r (operation_of m)
                  (backend_name b) (backend_name b) (command_args b m args)) as H.
    cbv zeta in H. destruct H as (_ & _ & _ & _ & -> & _). apply Hcmd. }
  assert (Hidle : asks_nothing m args ->
                  IsNotSupported (snd (fst (call helper new1 b m args w))) = false).
  { intros Hnothing.
    destruct (call_asking_nothing helper new1 b m args r w Hr Hnothing)
      as (_ & -> & _). reflexivity. }
  destruct args as [pkgs query opts].
  destruct m; try (apply Hran; exact I).
  - destruct pkgs as [|pkg pkgs]; [apply Hidle; reflexivity |].
    apply Hran. simpl. discriminate.
  - destruct pkgs as [|pkg pkgs]; [apply Hidle; reflexivity |].
    apply Hran. simpl. discriminate.
  - destruct (String.eqb query "") eqn:Hq.
    + apply String.eqb_eq in Hq. subst query. apply Hidle. reflexivity.
    + apply String.eqb_neq in Hq. apply Hran. simpl. split; [exact Hq |].
      intros b' Hb. exact (Hbrew b' Hb eq_refl).
Qed.

Lemma with_runner_NotSupported_comes_from_command_witness :
  IsNotSupported (snd (fst (call progress.API (NewProgressHelper None)
     (Snap (snap.mkBackend (Some (FakeRunner "" "boom"
                                    (Some (ErrorString (mkErrorString 9 "exit status 1")))))
                           None))
     MUpgrade (mkCallArgs [] "" (mkOptions None)) sample_world))) = false.
Proof.
  apply (with_runner_NotSupported_comes_from_command progress.API (NewProgressHelper None)
           (Snap (snap.mkBackend (Some (FakeRunner "" "boom"
                                    (Some (ErrorString (mkErrorString 9 "exit status 1")))))
                                 None))
           MUpgrade (mkCallArgs [] "" (mkOptions None))
           (FakeRunner "" "boom" (Some (ErrorString (mkErrorString 9 "exit status 1"))))
           sample_world eq_refl).
  - intros b' H. discriminate H.
  - intros name cmd. reflexivity.
Defined.


(** ** The availability probes and the Formulae API *)

Lemma is_2xx_spec (status : nat) : is_2xx status = true <-> 200 <= status < 300.
Proof.
  unfold is_2xx. rewrite andb_true_iff, Nat.leb_le, Nat.ltb_lt. reflexivity.
Qed.

Lemma NotAvailable_only (name reason : string) :
  only_NotAvailable (Some (NotAvailableError name reason)).
Proof. repeat split. Qed.

Lemma http_probe_answer (name r1 r2 r3 : string) (http : Exchange unit) :
  probe_answer
    (match http with
     | RequestError e => (false, Some (NotAvailableError name (r1 ++ Error_string e)))
     | TransportError e => (false, Some (NotAvailableError name (r2 ++ Error_string e)))
     | Answer status _ =>
         if is_2xx status then (true, None)
         else (false, Some (NotAvailableError name r3))
     end)
    (exists status body, http = Answer status body /\ 200 <= status < 300).
Proof.
  unfold probe_answer.
  destruct http as [e | e | status body].
  - cbn [fst snd]. split; [split; [discriminate | intros (s & bd & H & _); discriminate] |].
    split; [discriminate | intros _; apply NotAvailable_only].
  - cbn [fst snd]. split; [split; [discriminate | intros (s & bd & H & _); discriminate] |].
    split; [discriminate | intros _; apply NotAvailable_only].
  - destruct (is_2xx status) eqn:Hs; cbn [fst snd].
    + apply is_2xx_spec in Hs.
      split; [split; [intros _; exists status, body; split; [reflexivity | exact Hs]
                     | reflexivity] |].
      split; [reflexivity | discriminate].
    + split; [split; [discriminate |] |].
      * intros (s & bd & H & Hrange). injection H as <- _.
        apply is_2xx_spec in Hrange. congruence.
      * split; [discriminate | intros _; apply NotAvailable_only].
Qed.

(** X23. A backend is available, or it says NotAvailable and nothing else. *)
Theorem probes_answer_available_or_NotAvailable
    (http : Exchange unit) (b : flatpak.Backend) :
  probe_answer (brew_http.Available http)
    (exists status body, http = Answer status body /\ 200 <= status < 300)
  /\ probe_answer (snap_http.Available http)
       (exists status body, http = Answer status body /\ 200 <= status < 300)
  /\ probe_answer (flatpak_cli.Available b)
       (exists r, flatpak.runner b = Some r
                  /\ snd (r "flatpak" ["--version"]) = None
                  /\ fst (fst (r "flatpak" ["--version"])) <> "").
Proof.
  split; [| split].
  - apply http_probe_answer.
  - apply http_probe_answer.
  - unfold probe_answer, flatpak_cli.Available.
    destruct b as [[r|] p]; cbn [flatpak.runner].
    + destruct (r "flatpak" ["--version"]) as [[out errout] [e|]] eqn:Hr.
      * cbn [fst snd].
        split; [split; [discriminate |] |].
        -- intros (r' & Hr' & H & _). injection Hr' as <-. rewrite Hr in H. discriminate.
        -- split; [discriminate | intros _; apply NotAvailable_only].
      * destruct out as [|c out]; cbn [fst snd String.length Nat.ltb Nat.leb].
        -- split; [split; [discriminate |] |].
           ++ intros (r' & Hr' & _ & H). injection Hr' as <-. rewrite Hr in H.
              contradiction.
           ++ split; [discriminate | intros _; apply NotAvailable_only].
        -- split; [split; [intros _; exists r; rewrite Hr; repeat split; discriminate
                          | reflexivity] |].
           split; [reflexivity | discriminate].
    + cbn [fst snd].
      split; [split; [discriminate | intros (r' & H & _); discriminate] |].
      split; [discriminate | intros _; apply NotAvailable_only].
Qed.

Lemma map_filter_comm {A B} (f : A -> B) (p : B -> bool) (l : list A) :
  map f (filter (fun a => p (f a)) l) = filter p (map f l).
Proof.
  induction l as [|a l IH]; simpl; [reflexivity |].
  destruct (p (f a)); simpl; rewrite IH; reflexivity.
Qed.

(** X24. A search of the Formulae API succeeds only on an answer 200 whose body
    decodes, and then returns, in the order of the answer, the formulae whose
    lowered name contains the lowered query; every other exchange returns no
    package and an ExternalFailure of Search on brew that carries its cause. *)
Theorem searchFormulae_filters_or_fails (ToLower : string -> string) (fresh : nat)
    (get : Exchange (list brew_http.formulaInfo + error)) (query : string) :
  let res := brew_http.searchFormulae ToLower fresh get query in
  match get with
  | Answer 200 (inl formulae) =>
      snd res = None
      /\ map pkg_Name (fst res)
         = filter (fun name => strings.Contains (ToLower name) (ToLower query))
             (map brew_http.Name formulae)
      /\ Forall (fun ref => ref = mkPackageRef (pkg_Name ref) "" "" "formula") (fst res)
  | _ =>
      fst res = []
      /\ exists cause,
           snd res = Some (ExternalFailureError OperationSearch "brew" "" "" [] (Some cause))
           /\ IsExternalFailure (snd res) = true
  end.
Proof.
  intros res. subst res. unfold brew_http.searchFormulae.
  destruct get as [e | e | status body].
  - split; [reflexivity |]. eexists. split; reflexivity.
  - split; [reflexivity |]. eexists. split; reflexivity.
  - destruct (Nat.eqb status 200) eqn:Hs.
    + apply Nat.eqb_eq in Hs. subst status. cbn [negb].
      destruct body as [formulae | e].
      * cbn [fst snd]. split; [reflexivity |]. split.
        -- rewrite map_map. cbn [pkg_Name].
           apply (map_filter_comm brew_http.Name
                    (fun name => strings.Contains (ToLower name) (ToLower query))).
        -- apply Forall_forall. intros ref Hin. apply in_map_iff in Hin.
           destruct Hin as (formula & <- & _). reflexivity.
      * split; [reflexivity |]. eexists. split; reflexivity.
    + cbn [negb].
      assert (Hfail :
        fst (@nil PackageRef,
             Some (ExternalFailureError OperationSearch "brew" "" "" []
                     (Some (ErrorString
                              (mkErrorString fresh
                                 ("API returned status " ++ decimal status)))))) = []
        /\ exists cause,
             snd (@nil PackageRef,
                  Some (ExternalFailureError OperationSearch "brew" "" "" []
                          (Some (ErrorString
                                   (mkErrorString fresh
                                      ("API returned status " ++ decimal status))))))
             = Some (ExternalFailureError OperationSearch "brew" "" "" [] (Some cause))
             /\ IsExternalFailure
                  (snd (@nil PackageRef,
                        Some (ExternalFailureError OperationSearch "brew" "" "" []
                                (Some (ErrorString
                                         (mkErrorString fresh
                                            ("API returned status " ++ decimal status)))))))
                = true).
      { split; [reflexivity |]. eexists. split; reflexivity. }
      do 200 (destruct status as [|status]; [exact Hfail |]).
      destruct status as [|status]; [discriminate Hs | exact Hfail].
Qed.
